(** * A shallow embedding of the datacube query layer (datacube/api/query.py)
    and of [parse_date_from_string] (cube_util.py).

    The database is modelled by its five tables as lists of rows; each SQL
    statement of query.py is a function from the database and the bound
    parameters to the list of result rows (joins as nested [flat_map], the
    where clause as [filter], [distinct] and [order by] as list functions).
    The Python wrappers are modelled on a small universe of Python values
    ([pyval]) so that the positional binding of arguments is kept as in the
    source, with the exceptions they raise or swallow made explicit. *)

From Stdlib Require Import ZArith Bool List String Ascii Lia.
From Stdlib Require Import Sorting.Sorted Sorting.Permutation.
Import ListNotations.
Open Scope Z_scope.
Set Warnings "-register-all".

(** ** Timestamps and dates *)

(** A [timestamp without time zone]: calendar fields plus the second of the
    day.  Ordering is lexicographic, as Postgres orders timestamps. *)
Record ts := mk_ts { ts_year : Z; ts_month : Z; ts_day : Z; ts_sec : Z }.

Definition ts_cmp (a b : ts) : comparison :=
  match Z.compare (ts_year a) (ts_year b) with
  | Eq =>
      match Z.compare (ts_month a) (ts_month b) with
      | Eq =>
          match Z.compare (ts_day a) (ts_day b) with
          | Eq => Z.compare (ts_sec a) (ts_sec b)
          | c => c
          end
      | c => c
      end
  | c => c
  end.

Definition ts_le (a b : ts) : bool :=
  match ts_cmp a b with Gt => false | _ => true end.

(** [end_datetime::date], compared with a timestamp parameter: the date is
    widened to the timestamp at midnight (Postgres' date/timestamp
    cross-type comparison). A [date] parameter is also midnight. *)
Definition date_of (t : ts) : ts := mk_ts (ts_year t) (ts_month t) (ts_day t) 0.

(** ** Enumerations (query.py lines 45-83) *)

Module TileClass.
Definition SINGLE : Z := 1.
Definition MOSAIC : Z := 4.
End TileClass.

Definition TILE_CLASSES : list Z := [TileClass.SINGLE; TileClass.MOSAIC].

Module TileType.
Definition ONE_DEGREE : Z := 1.
End TileType.

Definition TILE_TYPE : Z := TileType.ONE_DEGREE.

Module ProcessingLevel.
Definition ORTHO : Z := 1.
Definition NBAR : Z := 2.
Definition PQA : Z := 3.
Definition FC : Z := 4.
Definition L1T : Z := 5.
Definition MAP : Z := 10.
Definition DSM : Z := 100.
Definition DEM : Z := 110.
Definition DEM_S : Z := 120.
Definition DEM_H : Z := 130.
End ProcessingLevel.

Inductive SortType := ASC | DESC.

(** ** The schema *)

Record acquisition := mk_acquisition {
  acquisition_id : Z;
  a_satellite_id : Z;
  start_datetime : ts;
  end_datetime : ts }.

Record satellite := mk_satellite { satellite_id : Z; satellite_tag : string }.

(** [dataset.acquisition_id] is NULL for the terrain datasets. *)
Record dataset := mk_dataset {
  dataset_id : Z;
  d_acquisition_id : option Z;
  level_id : Z }.

Record tile := mk_tile {
  t_dataset_id : Z;
  x_index : Z;
  y_index : Z;
  tile_pathname : string;
  tile_type_id : Z;
  tile_class_id : Z }.

Record db := mk_db {
  acquisitions : list acquisition;
  satellites : list satellite;
  datasets : list dataset;
  tiles : list tile }.

(** SQL [=]: NULL on either side is not true. *)
Definition sql_eq (a b : option Z) : bool :=
  match a, b with Some x, Some y => Z.eqb x y | _, _ => false end.

(** [= ANY(array)] *)
Definition any_Z (v : Z) (l : list Z) : bool := existsb (Z.eqb v) l.
Definition any_str (v : string) (l : list string) : bool := existsb (String.eqb v) l.

(** ** The per-level sub-select

    [select dataset.acquisition_id, tile.dataset_id, tile.x_index,
     tile.y_index, tile.tile_pathname, tile.tile_type_id, tile.tile_class_id
     from tile join dataset on dataset.dataset_id=tile.dataset_id
     where dataset.level_id = L] *)
Record lrow := mk_lrow {
  r_acquisition_id : option Z;
  r_dataset_id : Z;
  r_x_index : Z;
  r_y_index : Z;
  r_tile_pathname : string;
  r_tile_type_id : Z;
  r_tile_class_id : Z }.

Definition level_rows (d : db) (L : Z) : list lrow :=
  flat_map (fun t =>
    flat_map (fun ds =>
      if Z.eqb (dataset_id ds) (t_dataset_id t) && Z.eqb (level_id ds) L
      then [mk_lrow (d_acquisition_id ds) (t_dataset_id t) (x_index t) (y_index t)
                    (tile_pathname t) (tile_type_id t) (tile_class_id t)]
      else []) (datasets d)) (tiles d).

(** The join condition of a secondary level [q] on the primary level [n]:
    [q.acquisition_id=acquisition.acquisition_id and q.x_index=n.x_index
     and q.y_index=n.y_index and q.tile_type_id=n.tile_type_id
     and q.tile_class_id=n.tile_class_id] *)
Definition key_match (a : acquisition) (n q : lrow) : bool :=
  sql_eq (r_acquisition_id q) (Some (acquisition_id a))
  && Z.eqb (r_x_index q) (r_x_index n) && Z.eqb (r_y_index q) (r_y_index n)
  && Z.eqb (r_tile_type_id q) (r_tile_type_id n)
  && Z.eqb (r_tile_class_id q) (r_tile_class_id n).

(** ** Bound parameters of a statement, once decoded by the server *)

Inductive time_filter :=
  | TBetween (acq_min acq_max : ts)   (* end_datetime::date between %(acq_min)s and %(acq_max)s *)
  | TYears (years : list Z).          (* extract(year from end_datetime) = ANY(%(year)s) *)

Record qparams := mk_qparams {
  qp_tile_type : list Z;
  qp_tile_class : list Z;
  qp_satellite : list string;
  qp_x : list Z;
  qp_y : list Z;
  qp_time : time_filter;
  qp_sort : SortType }.

Definition time_ok (f : time_filter) (t : ts) : bool :=
  match f with
  | TBetween lo hi => ts_le lo (date_of t) && ts_le (date_of t) hi
  | TYears ys => any_Z (ts_year t) ys
  end.

(** The where clause shared by the present and missing statements, on the
    acquisition, its satellite and the NBAR row. *)
Definition where_common (p : qparams) (a : acquisition) (s : satellite) (n : lrow) : bool :=
  any_Z (r_tile_type_id n) (qp_tile_type p) && any_Z (r_tile_class_id n) (qp_tile_class p)
  && any_str (satellite_tag s) (qp_satellite p)
  && any_Z (r_x_index n) (qp_x p) && any_Z (r_y_index n) (qp_y p)
  && time_ok (qp_time p) (end_datetime a).

(** ** Joins *)

(** [from acquisition join satellite on satellite.satellite_id=acquisition.satellite_id
     join (level l_nbar) as nbar on nbar.acquisition_id=acquisition.acquisition_id
     join (level l_pqa) as pq on <key_match>
     join (level l_fc) as fc on <key_match>] *)
Definition present_join (d : db) (l_nbar l_pqa l_fc : Z)
  : list (acquisition * satellite * lrow * lrow * lrow) :=
  flat_map (fun a =>
    flat_map (fun s =>
      if Z.eqb (satellite_id s) (a_satellite_id a) then
        flat_map (fun n =>
          if sql_eq (r_acquisition_id n) (Some (acquisition_id a)) then
            flat_map (fun q =>
              if key_match a n q then
                flat_map (fun f =>
                  if key_match a n f then [(a, s, n, q, f)] else [])
                  (level_rows d l_fc)
              else []) (level_rows d l_pqa)
          else []) (level_rows d l_nbar)
      else []) (satellites d)) (acquisitions d).

(** [... join (level 2) as nbar on nbar.acquisition_id=acquisition.acquisition_id
     left outer join (level 4) as fc on <key_match>]: an NBAR row with no
    matching FC row is kept once, with the FC side NULL. *)
Definition missing_join (d : db)
  : list (acquisition * satellite * lrow * option lrow) :=
  flat_map (fun a =>
    flat_map (fun s =>
      if Z.eqb (satellite_id s) (a_satellite_id a) then
        flat_map (fun n =>
          if sql_eq (r_acquisition_id n) (Some (acquisition_id a)) then
            match filter (key_match a n) (level_rows d ProcessingLevel.FC) with
            | [] => [(a, s, n, None)]
            | fs => map (fun f => (a, s, n, Some f)) fs
            end
          else []) (level_rows d ProcessingLevel.NBAR)
      else []) (satellites d)) (acquisitions d).

(** [fc.acquisition_id is null] after the left outer join. *)
Definition fc_is_null (fo : option lrow) : bool :=
  match fo with
  | None => true
  | Some f => match r_acquisition_id f with None => true | Some _ => false end
  end.

(** ** select distinct and order by *)

Fixpoint distinct_aux {A} (eqb : A -> A -> bool) (seen l : list A) : list A :=
  match l with
  | [] => []
  | x :: r =>
      if existsb (eqb x) seen then distinct_aux eqb seen r
      else x :: distinct_aux eqb (x :: seen) r
  end.

Definition distinct {A} (eqb : A -> A -> bool) (l : list A) : list A :=
  distinct_aux eqb [] l.

(** The executor's sort: an insertion sort by a boolean [le]. *)
Fixpoint insert {A} (le : A -> A -> bool) (x : A) (l : list A) : list A :=
  match l with
  | [] => [x]
  | y :: r => if le x y then x :: y :: r else y :: insert le x r
  end.

Fixpoint isort {A} (le : A -> A -> bool) (l : list A) : list A :=
  match l with
  | [] => []
  | x :: r => insert le x (isort le r)
  end.

Definition cell := (Z * Z)%type.

Definition cell_eqb (a b : cell) : bool := Z.eqb (fst a) (fst b) && Z.eqb (snd a) (snd b).

(** [order by x {sort}, y {sort}] *)
Definition cell_le_asc (a b : cell) : bool :=
  Z.ltb (fst a) (fst b) || (Z.eqb (fst a) (fst b) && Z.leb (snd a) (snd b)).

Definition cell_le (dir : SortType) (a b : cell) : bool :=
  match dir with ASC => cell_le_asc a b | DESC => cell_le_asc b a end.

(** ** Result rows of the tile statements *)

Record tile_row := mk_tile_row {
  tr_acquisition_id : option Z;
  tr_satellite : option string;
  tr_start_datetime : option ts;
  tr_end_datetime : option ts;
  tr_end_datetime_year : option Z;
  tr_end_datetime_month : option Z;
  tr_x_index : Z;
  tr_y_index : Z;
  tr_xy : Z * Z;
  tr_datasets : list (string * string) }.

(** Postgres places NULL after every value in ascending order. *)
Definition opt_ts_cmp (a b : option ts) : comparison :=
  match a, b with
  | Some x, Some y => ts_cmp x y
  | Some _, None => Lt
  | None, Some _ => Gt
  | None, None => Eq
  end.

Definition opt_str_le (a b : option string) : bool :=
  match a, b with
  | Some x, Some y => String.leb x y
  | Some _, None => true
  | None, Some _ => false
  | None, None => true
  end.

Definition dir_cmp (dir : SortType) (c : comparison) : comparison :=
  match dir with ASC => c | DESC => CompOpp c end.

(** [order by end_datetime {sort}, satellite asc] *)
Definition tile_le (dir : SortType) (a b : tile_row) : bool :=
  match dir_cmp dir (opt_ts_cmp (tr_end_datetime a) (tr_end_datetime b)) with
  | Lt => true
  | Gt => false
  | Eq => opt_str_le (tr_satellite a) (tr_satellite b)
  end.

(** [order by nbar.x_index {sort}, nbar.y_index {sort}] on tile rows *)
Definition tile_xy_le (dir : SortType) (a b : tile_row) : bool :=
  cell_le dir (tr_x_index a, tr_y_index a) (tr_x_index b, tr_y_index b).

(** The acquisition columns of a tile row. *)
Definition acq_row (a : acquisition) (s : satellite) (n : lrow)
    (ds : list (string * string)) : tile_row :=
  mk_tile_row (Some (acquisition_id a)) (Some (satellite_tag s))
    (Some (start_datetime a)) (Some (end_datetime a))
    (Some (ts_year (end_datetime a))) (Some (ts_month (end_datetime a)))
    (r_x_index n) (r_y_index n) (r_x_index n, r_y_index n) ds.

(** ** The statements *)

(** list_cells_as_generator / list_cells_to_file *)
Definition q_cells (d : db) (p : qparams) (l_nbar l_pqa l_fc : Z) : list cell :=
  isort (cell_le (qp_sort p))
    (distinct cell_eqb
       (map (fun '(a, s, n, q, f) => (r_x_index n, r_y_index n))
          (filter (fun '(a, s, n, q, f) => where_common p a s n)
             (present_join d l_nbar l_pqa l_fc)))).

(** list_cells_missing_as_generator / list_cells_missing_to_file *)
Definition q_cells_missing (d : db) (p : qparams) : list cell :=
  isort (cell_le (qp_sort p))
    (distinct cell_eqb
       (map (fun '(a, s, n, fo) => (r_x_index n, r_y_index n))
          (filter (fun '(a, s, n, fo) => where_common p a s n && fc_is_null fo)
             (missing_join d)))).

(** list_tiles_as_generator / list_tiles_to_file *)
Definition q_tiles (d : db) (p : qparams) : list tile_row :=
  isort (tile_le (qp_sort p))
    (map (fun '(a, s, n, q, f) =>
            acq_row a s n [("ARG25", r_tile_pathname n); ("PQ25", r_tile_pathname q);
                           ("FC25", r_tile_pathname f)]%string)
       (filter (fun '(a, s, n, q, f) => where_common p a s n)
          (present_join d ProcessingLevel.NBAR ProcessingLevel.PQA ProcessingLevel.FC))).

(** list_tiles_missing_as_generator / list_tiles_missing_to_file *)
Definition q_tiles_missing (d : db) (p : qparams) : list tile_row :=
  isort (tile_xy_le (qp_sort p))
    (map (fun '(a, s, n, fo) => acq_row a s n [("ARG25", r_tile_pathname n)]%string)
       (filter (fun '(a, s, n, fo) => where_common p a s n && fc_is_null fo)
          (missing_join d))).

(** list_tiles_dtm_as_generator: the four terrain levels joined on the grid
    keys only, no order by. *)
Record dparams := mk_dparams {
  dp_tile_type : list Z;
  dp_tile_class : list Z;
  dp_x : list Z;
  dp_y : list Z }.

Definition grid_match (n q : lrow) : bool :=
  Z.eqb (r_x_index q) (r_x_index n) && Z.eqb (r_y_index q) (r_y_index n)
  && Z.eqb (r_tile_type_id q) (r_tile_type_id n)
  && Z.eqb (r_tile_class_id q) (r_tile_class_id n).

Definition q_tiles_dtm (d : db) (p : dparams) : list tile_row :=
  flat_map (fun dsm =>
    flat_map (fun dem =>
      if grid_match dsm dem then
        flat_map (fun dem_s =>
          if grid_match dsm dem_s then
            flat_map (fun dem_h =>
              if grid_match dsm dem_h
                 && any_Z (r_tile_type_id dsm) (dp_tile_type p)
                 && any_Z (r_tile_class_id dsm) (dp_tile_class p)
                 && any_Z (r_x_index dsm) (dp_x p) && any_Z (r_y_index dsm) (dp_y p)
              then [mk_tile_row None None None None None None
                      (r_x_index dsm) (r_y_index dsm) (r_x_index dsm, r_y_index dsm)
                      [("DSM", r_tile_pathname dsm); ("DEM", r_tile_pathname dem);
                       ("DEM_HYDROLOGICALLY_ENFORCED", r_tile_pathname dem_h);
                       ("DEM_SMOOTHED", r_tile_pathname dem_s)]%string]
              else []) (level_rows d ProcessingLevel.DEM_H)
          else []) (level_rows d ProcessingLevel.DEM_S)
      else []) (level_rows d ProcessingLevel.DEM)) (level_rows d ProcessingLevel.DSM).

(** ** Python values and the wrapper functions *)

(** The Python values the wrappers receive and pass on. *)
Inductive pyval :=
  | PNone
  | PInt (z : Z)
  | PStr (s : string)
  | PList (l : list pyval)
  | PEnum (name : string) (value : pyval)   (* an Enum member: str() is its name *)
  | PDate (d : ts)                          (* datetime.date, seconds 0 *)
  | PDatetime (t : ts).                     (* datetime.datetime *)

Definition py_truthy (v : pyval) : bool :=
  match v with
  | PNone => false
  | PInt z => negb (Z.eqb z 0)
  | PStr s => negb (String.eqb s EmptyString)
  | PList l => match l with [] => false | _ => true end
  | _ => true
  end.

Definition py_ASC : pyval := PEnum "SortType.ASC" (PStr "asc").
Definition py_DESC : pyval := PEnum "SortType.DESC" (PStr "desc").

Inductive exn :=
  | OperationalError        (* psycopg2.connect refused *)
  | AttributeError          (* attribute lookup on a value without it, e.g. None.rollback *)
  | KeyError (k : string)   (* a placeholder of the statement missing from params *)
  | DatabaseError           (* the server rejected the statement or a parameter *)
  | AssertionError
  | ValueError.

(** [connection_string]: host and port only when truthy. *)
Definition connection_string (host port database user password : pyval)
  : list (string * pyval) :=
  (if py_truthy host then [("host"%string, host)] else [])
  ++ (if py_truthy port then [("port"%string, port)] else [])
  ++ [("dbname"%string, database); ("user"%string, user); ("password"%string, password)].

(** The database server: which connection strings it accepts (and the
    database it then serves), and how it reads a string literal where a date
    is expected. *)
Record server := mk_server {
  srv_connect : list (string * pyval) -> option db;
  srv_date_literal : string -> option ts }.

(** [v.value] *)
Definition py_value (v : pyval) : pyval + exn :=
  match v with PEnum _ w => inl w | _ => inr AttributeError end.

(** [[s.value for s in l]] *)
Fixpoint py_values_aux (l : list pyval) : list pyval + exn :=
  match l with
  | [] => inl []
  | v :: r =>
      match py_value v, py_values_aux r with
      | inl w, inl ws => inl (w :: ws)
      | inr e, _ => inr e
      | _, inr e => inr e
      end
  end.

Definition py_values (v : pyval) : list pyval + exn :=
  match v with PList l => py_values_aux l | _ => inr AttributeError end.

(** The shape of a statement's SQL text. *)
Inductive stmt_kind := SCells | SCellsMissing | STiles | STilesMissing | STilesDtm.
Inductive time_clause := TcBetween | TcYears | TcNone.
Inductive level_src := LvParams | LvLiteral.

Record stmt := mk_stmt {
  st_kind : stmt_kind;
  st_sort : pyval;          (* the value substituted for {sort}, PNone if none *)
  st_time : time_clause;
  st_levels : level_src }.

(** The placeholders of the SQL text, in order of appearance. *)
Definition stmt_keys (s : stmt) : list string :=
  match st_kind s with
  | STilesDtm => ["tile_type"; "tile_class"; "x"; "y"]%string
  | _ =>
      (match st_levels s with
       | LvParams => ["level_nbar"; "level_pqa"; "level_fc"]%string
       | LvLiteral => []
       end)
      ++ ["tile_type"; "tile_class"; "satellite"; "x"; "y"]%string
      ++ (match st_time s with
          | TcBetween => ["acq_min"; "acq_max"]%string
          | TcYears => ["year"]%string
          | TcNone => []
          end)
  end.

Fixpoint lookup (params : list (string * pyval)) (k : string) : option pyval :=
  match params with
  | [] => None
  | (k', v) :: r => if String.eqb k k' then Some v else lookup r k
  end.

(** [cursor.mogrify(sql, params)]: [%]-substitution raises [KeyError] on the
    first placeholder missing from the dict. *)
Definition mogrify (s : stmt) (params : list (string * pyval)) : option exn :=
  match find (fun k => match lookup params k with None => true | Some _ => false end)
             (stmt_keys s) with
  | Some k => Some (KeyError k)
  | None => None
  end.

Notation "'let*' x := a 'in' b" :=
  (match a with Some x => b | None => None end)
  (at level 200, x ident, a at level 100, b at level 200).

Fixpoint int_list (l : list pyval) : option (list Z) :=
  match l with
  | [] => Some []
  | PInt z :: r => let* zs := int_list r in Some (z :: zs)
  | _ :: _ => None
  end.

Fixpoint text_list (l : list pyval) : option (list string) :=
  match l with
  | [] => Some []
  | PStr s :: r => let* ss := text_list r in Some (s :: ss)
  | _ :: _ => None
  end.

(** How psycopg2 adapts a value and Postgres reads it at the placeholder. *)
Definition dec_int_array (v : pyval) : option (list Z) :=
  match v with PList l => int_list l | _ => None end.

Definition dec_text_array (v : pyval) : option (list string) :=
  match v with PList l => text_list l | _ => None end.

Definition dec_int (v : pyval) : option Z :=
  match v with PInt z => Some z | _ => None end.

Definition dec_ts (srv : server) (v : pyval) : option ts :=
  match v with
  | PDate t => Some (date_of t)
  | PDatetime t => Some t
  | PStr s => srv_date_literal srv s
  | _ => None
  end.

(** The text substituted for [{sort}] must be a sort keyword. *)
Definition dec_sort (v : pyval) : option SortType :=
  match v with
  | PStr s =>
      if String.eqb s "asc" || String.eqb s "ASC" then Some ASC
      else if String.eqb s "desc" || String.eqb s "DESC" then Some DESC
      else None
  | _ => None
  end.

Definition get (params : list (string * pyval)) (k : string)
    (dec : pyval -> option Z) : option Z :=
  let* v := lookup params k in dec v.

Definition dec_qparams (srv : server) (s : stmt) (params : list (string * pyval))
  : option qparams :=
  let* tt := (let* v := lookup params "tile_type" in dec_int_array v) in
  let* tc := (let* v := lookup params "tile_class" in dec_int_array v) in
  let* sat := (let* v := lookup params "satellite" in dec_text_array v) in
  let* xs := (let* v := lookup params "x" in dec_int_array v) in
  let* ys := (let* v := lookup params "y" in dec_int_array v) in
  let* tf := (match st_time s with
              | TcBetween =>
                  let* lo := (let* v := lookup params "acq_min" in dec_ts srv v) in
                  let* hi := (let* v := lookup params "acq_max" in dec_ts srv v) in
                  Some (TBetween lo hi)
              | TcYears =>
                  let* yr := (let* v := lookup params "year" in dec_int_array v) in
                  Some (TYears yr)
              | TcNone => None
              end) in
  let* so := dec_sort (st_sort s) in
  Some (mk_qparams tt tc sat xs ys tf so).

Definition dec_levels (s : stmt) (params : list (string * pyval)) : option (Z * Z * Z) :=
  match st_levels s with
  | LvLiteral => Some (ProcessingLevel.NBAR, ProcessingLevel.PQA, ProcessingLevel.FC)
  | LvParams =>
      let* l1 := get params "level_nbar" dec_int in
      let* l2 := get params "level_pqa" dec_int in
      let* l3 := get params "level_fc" dec_int in
      Some (l1, l2, l3)
  end.

Definition dec_dparams (params : list (string * pyval)) : option dparams :=
  let* tt := (let* v := lookup params "tile_type" in dec_int_array v) in
  let* tc := (let* v := lookup params "tile_class" in dec_int_array v) in
  let* xs := (let* v := lookup params "x" in dec_int_array v) in
  let* ys := (let* v := lookup params "y" in dec_int_array v) in
  Some (mk_dparams tt tc xs ys).

(** A result row, before [Cell.from_db_record] / [Tile.from_db_record]. *)
Inductive row := RCell (c : cell) | RTile (t : tile_row).

(** [cursor.execute(sql, params)] and the rows of the result set. *)
Definition exec (srv : server) (d : db) (s : stmt) (params : list (string * pyval))
  : list row + exn :=
  match st_kind s with
  | STilesDtm =>
      match dec_dparams params with
      | Some p => inl (map RTile (q_tiles_dtm d p))
      | None => inr DatabaseError
      end
  | k =>
      match dec_qparams srv s params, dec_levels s params with
      | Some p, Some (l1, l2, l3) =>
          inl (match k with
               | SCells => map RCell (q_cells d p l1 l2 l3)
               | SCellsMissing => map RCell (q_cells_missing d p)
               | STiles => map RTile (q_tiles d p)
               | _ => map RTile (q_tiles_missing d p)
               end)
      | _, _ => inr DatabaseError
      end
  end.

(** [result_generator(cursor, size)]: [fetchmany(size)] pages until an empty
    page. [fuel] bounds the number of pages. *)
Fixpoint pages {A} (fuel : nat) (size : nat) (rows : list A) : list (list A) :=
  match fuel with
  | O => []
  | S f =>
      match firstn size rows with
      | [] => []
      | page => page :: pages f size (skipn size rows)
      end
  end.

Definition result_generator {A} (rows : list A) (size : nat) : list A :=
  List.concat (pages (S (List.length rows)) size rows).

(** The successive results of [cursor.fetchmany(size)] in the loop of
    [result_generator], up to and including the empty one that ends it;
    [fuel] bounds the number of reads. *)
Fixpoint fetchmany_reads {A} (fuel : nat) (size : nat) (rows : list A) : list (list A) :=
  match fuel with
  | O => []
  | S f =>
      match firstn size rows with
      | [] => [[]]
      | page => page :: fetchmany_reads f size (skipn size rows)
      end
  end.

(** A generator drained to its end: the values it yielded, then either a
    normal stop or the exception that escaped it. *)
Record gen := mk_gen { yielded : list row; raised : option exn }.

(** The body shared by every [*_as_generator] function:
    [try: conn = psycopg2.connect(...); ...; cursor.execute(sql, params);
          for record in result_generator(cursor): yield ...
     except Exception as e: _log.error(...); conn.rollback()]
    [build] is the SQL text and params dict built after connecting; it fails
    when [sort.value] or [satellite.value] does. *)
Definition run_generator (srv : server) (host port database user password : pyval)
    (build : (stmt * list (string * pyval)) + exn) : gen :=
  match srv_connect srv (connection_string host port database user password) with
  | None =>
      (* connect raised before [conn] was bound: the handler calls
         [None.rollback()], whose AttributeError leaves the generator *)
      mk_gen [] (Some AttributeError)
  | Some d =>
      match build with
      | inr _ => mk_gen [] None                (* caught, rolled back *)
      | inl (s, params) =>
          match mogrify s params with
          | Some _ => mk_gen [] None           (* caught, rolled back *)
          | None =>
              match exec srv d s params with
              | inl rows => mk_gen (result_generator rows 100) None
              | inr _ => mk_gen [] None        (* caught, rolled back *)
              end
          end
      end
  end.

(** A materialized result with its rows reversed. *)
Definition rev_rows (r : list row + exn) : list row + exn :=
  match r with inl l => inl (rev l) | inr e => inr e end.

(** [list(generator)] *)
Definition py_list (g : gen) : list row + exn :=
  match raised g with None => inl (yielded g) | Some e => inr e end.

Definition mandatory_params : list (string * pyval) :=
  [("tile_type"%string, PList [PInt TILE_TYPE]);
   ("tile_class"%string, PList (map PInt TILE_CLASSES))].

(** [sql = '...'.format(sort=sort.value)] and the params dict of the
    statements filtered by [acq_min]/[acq_max]. *)
Definition build_range (k : stmt_kind) (lv : level_src) (extra : list (string * pyval))
    (x y satellites acq_min acq_max sort : pyval)
  : (stmt * list (string * pyval)) + exn :=
  match py_value sort with
  | inr e => inr e
  | inl sv =>
      match py_values satellites with
      | inr e => inr e
      | inl sats =>
          inl (mk_stmt k sv TcBetween lv,
               mandatory_params
               ++ [("satellite"%string, PList sats); ("x"%string, x); ("y"%string, y);
                   ("acq_min"%string, acq_min); ("acq_max"%string, acq_max)]
               ++ extra)
      end
  end.

(** [list_cells_as_generator] (query.py lines 153-258); [datasets] is not read. *)
Definition list_cells_as_generator (srv : server)
    (x y satellites acq_min acq_max datasets database user password host port sort : pyval)
  : gen :=
  run_generator srv host port database user password
    (build_range SCells LvParams
       [("level_nbar"%string, PInt ProcessingLevel.NBAR);
        ("level_pqa"%string, PInt ProcessingLevel.PQA);
        ("level_fc"%string, PInt ProcessingLevel.FC)]
       x y satellites acq_min acq_max sort).

Definition list_cells (srv : server)
    (x y satellites acq_min acq_max datasets database user password host port sort : pyval)
  : gen :=
  list_cells_as_generator srv x y satellites acq_min acq_max datasets database user password
    host port sort.

Definition list_cells_as_list (srv : server)
    (x y satellites acq_min acq_max datasets database user password host port sort : pyval)
  : list row + exn :=
  py_list (list_cells_as_generator srv x y satellites acq_min acq_max datasets database user
             password host port sort).

(** [list_cells_missing_as_generator] (lines 417-489) *)
Definition list_cells_missing_as_generator (srv : server)
    (x y satellites acq_min acq_max datasets database user password host port sort : pyval)
  : gen :=
  run_generator srv host port database user password
    (build_range SCellsMissing LvLiteral [] x y satellites acq_min acq_max sort).

Definition list_cells_missing (srv : server)
    (x y satellites acq_min acq_max datasets database user password host port sort : pyval)
  : gen :=
  list_cells_missing_as_generator srv x y satellites acq_min acq_max datasets database user
    password host port sort.

Definition list_cells_missing_as_list (srv : server)
    (x y satellites acq_min acq_max datasets database user password host port sort : pyval)
  : list row + exn :=
  py_list (list_cells_missing_as_generator srv x y satellites acq_min acq_max datasets
             database user password host port sort).

(** [list_tiles_as_generator] (lines 678-769) *)
Definition list_tiles_as_generator (srv : server)
    (x y satellites acq_min acq_max datasets database user password host port sort : pyval)
  : gen :=
  run_generator srv host port database user password
    (build_range STiles LvLiteral [] x y satellites acq_min acq_max sort).

Definition list_tiles (srv : server)
    (x y satellites acq_min acq_max datasets database user password host port sort : pyval)
  : gen :=
  list_tiles_as_generator srv x y satellites acq_min acq_max datasets database user password
    host port sort.

Definition list_tiles_as_list (srv : server)
    (x y satellites acq_min acq_max datasets database user password host port sort : pyval)
  : list row + exn :=
  py_list (list_tiles_as_generator srv x y satellites acq_min acq_max datasets database user
             password host port sort).

(** [list_tiles_missing_as_generator] (lines 934-1025) *)
Definition list_tiles_missing_as_generator (srv : server)
    (x y satellites acq_min acq_max datasets database user password host port sort : pyval)
  : gen :=
  run_generator srv host port database user password
    (build_range STilesMissing LvLiteral [] x y satellites acq_min acq_max sort).

Definition list_tiles_missing (srv : server)
    (x y satellites acq_min acq_max datasets database user password host port sort : pyval)
  : gen :=
  list_tiles_missing_as_generator srv x y satellites acq_min acq_max datasets database user
    password host port sort.

Definition list_tiles_missing_as_list (srv : server)
    (x y satellites acq_min acq_max datasets database user password host port sort : pyval)
  : list row + exn :=
  py_list (list_tiles_missing_as_generator srv x y satellites acq_min acq_max datasets
             database user password host port sort).

(** [list_tiles_dtm_as_generator] (lines 1160-1284): no sort in the SQL text
    ([.format()]), params tile_type, tile_class, x, y. *)
Definition list_tiles_dtm_as_generator (srv : server)
    (x y datasets database user password host port sort : pyval) : gen :=
  run_generator srv host port database user password
    (inl (mk_stmt STilesDtm PNone TcNone LvLiteral,
          mandatory_params ++ [("x"%string, x); ("y"%string, y)])).

Definition list_tiles_dtm (srv : server)
    (x y datasets database user password host port sort : pyval) : gen :=
  list_tiles_dtm_as_generator srv x y datasets database user password host port sort.

(** [list_tiles_dtm_as_list] (lines 1141-1157):
    [return list(list_tiles(x, y, datasets, database, user, password, host, port, sort))]
    -- positionally, [list_tiles] receives [satellites=datasets],
    [acq_min=database], [acq_max=user], [datasets=password], [database=host],
    [user=port], [password=sort] and its defaults [host=None], [port=None],
    [sort=SortType.ASC]. *)
Definition list_tiles_dtm_as_list (srv : server)
    (x y datasets database user password host port sort : pyval) : list row + exn :=
  py_list (list_tiles srv x y datasets database user password host port sort
             PNone PNone py_ASC).

(** ** CSV export ([copy (...) to STDOUT csv header delimiter ',' ...]) *)

Fixpoint string_of_uint (u : Decimal.uint) : string :=
  match u with
  | Decimal.Nil => EmptyString
  | Decimal.D0 r => String "0" (string_of_uint r)
  | Decimal.D1 r => String "1" (string_of_uint r)
  | Decimal.D2 r => String "2" (string_of_uint r)
  | Decimal.D3 r => String "3" (string_of_uint r)
  | Decimal.D4 r => String "4" (string_of_uint r)
  | Decimal.D5 r => String "5" (string_of_uint r)
  | Decimal.D6 r => String "6" (string_of_uint r)
  | Decimal.D7 r => String "7" (string_of_uint r)
  | Decimal.D8 r => String "8" (string_of_uint r)
  | Decimal.D9 r => String "9" (string_of_uint r)
  end.

(** Postgres' text output of an integer. *)
Definition z_to_string (z : Z) : string :=
  match Z.to_int z with
  | Decimal.Pos u => string_of_uint u
  | Decimal.Neg u => String "-" (string_of_uint u)
  end.

Definition nl : string := String (ascii_of_nat 10) EmptyString.

(** The CSV text of a cell result set: integers need no quoting. *)
Definition csv_cells (rows : list row) : string :=
  ("x_index,y_index" ++ nl
   ++ List.fold_right (fun r acc =>
        match r with
        | RCell (x, y) => z_to_string x ++ "," ++ z_to_string y ++ nl ++ acc
        | RTile _ => acc
        end) EmptyString rows)%string.

(** What an export leaves behind: the file opened for writing (when a
    filename was given), the text written to it or to stdout, and the
    exception that escaped, if any. *)
Record export := mk_export {
  ex_opened : option pyval;
  ex_text : string;
  ex_raised : option exn }.

(** The body shared by the [*_to_file] functions:
    [try: connect ...;
          if filename: with open(filename, "w") as f:
                           cursor.copy_expert(cursor.mogrify(sql, params), f)
          else: cursor.copy_expert(cursor.mogrify(sql, params), sys.stdout)
     except Exception as e: ...; conn.rollback()
     finally: conn = cursor = None] *)
Definition run_to_file (srv : server) (host port database user password filename : pyval)
    (build : (stmt * list (string * pyval)) + exn) (render : list row -> string) : export :=
  match srv_connect srv (connection_string host port database user password) with
  | None => mk_export None EmptyString (Some AttributeError)
  | Some d =>
      match build with
      | inr _ => mk_export None EmptyString None
      | inl (s, params) =>
          let opened := if py_truthy filename then Some filename else None in
          match mogrify s params with
          | Some _ => mk_export opened EmptyString None
          | None =>
              match exec srv d s params with
              | inl rows => mk_export opened (render rows) None
              | inr _ => mk_export opened EmptyString None
              end
          end
      end
  end.

(** The params dict of the exports: [year] in place of [acq_min]/[acq_max]. *)
Definition build_years (k : stmt_kind) (tc : time_clause)
    (x y satellites years sort : pyval) : (stmt * list (string * pyval)) + exn :=
  match py_value sort with
  | inr e => inr e
  | inl sv =>
      match py_values satellites with
      | inr e => inr e
      | inl sats =>
          inl (mk_stmt k sv tc LvLiteral,
               mandatory_params
               ++ [("satellite"%string, PList sats); ("x"%string, x); ("y"%string, y);
                   ("year"%string, years)])
      end
  end.

(** [list_cells_to_file] (lines 261-365): the SQL filters on
    [extract(year from end_datetime) = ANY(%(year)s)]. *)
Definition list_cells_to_file (srv : server)
    (x y satellites years datasets filename database user password host port sort : pyval)
  : export :=
  run_to_file srv host port database user password filename
    (build_years SCells TcYears x y satellites years sort) csv_cells.

(** [list_cells_missing_to_file] (lines 492-585): the SQL text filters on
    [end_datetime::date between %(acq_min)s and %(acq_max)s] while the
    params dict binds [year]. *)
Definition list_cells_missing_to_file (srv : server)
    (x y satellites years datasets filename database user password host port sort : pyval)
  : export :=
  run_to_file srv host port database user password filename
    (build_years SCellsMissing TcBetween x y satellites years sort) csv_cells.

(** [list_tiles_to_file] (lines 772-885): the SQL filters on
    [extract(year from end_datetime) = ANY(%(year)s)] and orders by
    [end_datetime {sort}, satellite asc]; [copy_csv] is the text Postgres'
    [copy ... csv header] writes for the tile rows. *)
Definition list_tiles_to_file (copy_csv : list row -> string) (srv : server)
    (x y satellites years datasets filename database user password host port sort : pyval)
  : export :=
  run_to_file srv host port database user password filename
    (build_years STiles TcYears x y satellites years sort) copy_csv.

(** [list_tiles_missing_to_file] (lines 1033-1117): the SQL text filters on
    [end_datetime::date between %(acq_min)s and %(acq_max)s] while the
    params dict binds [year]. *)
Definition list_tiles_missing_to_file (copy_csv : list row -> string) (srv : server)
    (x y satellites years datasets filename database user password host port sort : pyval)
  : export :=
  run_to_file srv host port database user password filename
    (build_years STilesMissing TcBetween x y satellites years sort) copy_csv.

(** ** visit_tiles and list_tiles_wkt (lines 1295-1563) *)

(** The params [visit_tiles] binds: [satellite] is compared with
    [satellite.satellite_id], and [x] and [y] are bound as [[x]] and [[y]]. *)
Record vparams := mk_vparams {
  vp_tile_type : list Z;
  vp_tile_class : list Z;
  vp_satellite : list Z;
  vp_x : list Z;
  vp_y : list Z;
  vp_year : list Z }.

(** [= ANY(%(x)s)] with [[x]] bound: psycopg2 sends [ARRAY[148]] for an int
    and [ARRAY[ARRAY[148,149]]] for a list of ints, and [ANY] ranges over
    every element of the array; anything else is rejected. *)
Definition dec_nested_int_array (v : pyval) : option (list Z) :=
  match v with
  | PList [PInt z] => Some [z]
  | PList [PList ((_ :: _) as l)] => int_list l
  | _ => None
  end.

Definition visit_params (sats : list pyval) (x y years : pyval) : list (string * pyval) :=
  mandatory_params
  ++ [("satellite"%string, PList sats); ("x"%string, PList [x]); ("y"%string, PList [y]);
      ("year"%string, years)].

Definition dec_vparams (params : list (string * pyval)) : option vparams :=
  let* tt := (let* v := lookup params "tile_type" in dec_int_array v) in
  let* tc := (let* v := lookup params "tile_class" in dec_int_array v) in
  let* sat := (let* v := lookup params "satellite" in dec_int_array v) in
  let* xs := (let* v := lookup params "x" in dec_nested_int_array v) in
  let* ys := (let* v := lookup params "y" in dec_nested_int_array v) in
  let* yr := (let* v := lookup params "year" in dec_int_array v) in
  Some (mk_vparams tt tc sat xs ys yr).

(** The statement of [visit_tiles]: the present-tiles join, filtered on
    [satellite.satellite_id] and on the year of [end_datetime], with no
    order by. *)
Definition q_visit (d : db) (p : vparams) : list tile_row :=
  map (fun '(a, s, n, q, f) =>
         acq_row a s n [("ARG25", r_tile_pathname n); ("PQ25", r_tile_pathname q);
                        ("FC25", r_tile_pathname f)]%string)
    (filter (fun '(a, s, n, q, f) =>
               any_Z (r_tile_type_id n) (vp_tile_type p)
               && any_Z (r_tile_class_id n) (vp_tile_class p)
               && any_Z (satellite_id s) (vp_satellite p)
               && any_Z (r_x_index n) (vp_x p) && any_Z (r_y_index n) (vp_y p)
               && any_Z (ts_year (end_datetime a)) (vp_year p))
       (present_join d ProcessingLevel.NBAR ProcessingLevel.PQA ProcessingLevel.FC)).

(** What a call of [visit_tiles] does: the tiles [func] is called with, in
    order ([func], [print_tile] by default, returns normally), and the
    exception that escapes. *)
Record visit := mk_visit { visited : list tile_row; v_raised : option exn }.

(** [visit_tiles]: [try: connect ...; params = {...};
     _log.debug(cursor.mogrify(sql, params)); cursor.execute(sql, params);
     for record in cursor: func(Tile.from_db_record(record))
     except Exception as e: _log.error(...); conn.rollback()]
    The params dict holds every placeholder of the statement. *)
Definition visit_tiles (srv : server)
    (x y satellites years datasets database user password host port : pyval) : visit :=
  match srv_connect srv (connection_string host port database user password) with
  | None => mk_visit [] (Some AttributeError)
  | Some d =>
      match py_values satellites with
      | inr _ => mk_visit [] None
      | inl sats =>
          match dec_vparams (visit_params sats x y years) with
          | Some p => mk_visit (q_visit d p) None
          | None => mk_visit [] None
          end
      end
  end.

(** The [tile_footprint] table of the database and the PostGIS functions
    the statement of [list_tiles_wkt] calls, over a type [G] of geometries:
    [st_geomfromtext(%(polygon)s, 4326)] ([None] when the server rejects the
    text) and [st_intersects]. *)
Record gis (G : Type) := mk_gis {
  tile_footprints : list (Z * Z * Z * G);   (* x_index, y_index, tile_type_id, bbox *)
  st_geomfromtext : pyval -> option G;
  st_intersects : G -> G -> bool }.

Arguments tile_footprints {G}.
Arguments st_geomfromtext {G}.
Arguments st_intersects {G}.

Record wparams (G : Type) := mk_wparams {
  wp_tile_type : list Z;
  wp_tile_class : list Z;
  wp_satellite : list string;
  wp_polygon : G;
  wp_year : list Z }.

Arguments mk_wparams {G}.
Arguments wp_tile_type {G}.
Arguments wp_tile_class {G}.
Arguments wp_satellite {G}.
Arguments wp_polygon {G}.
Arguments wp_year {G}.

Definition wkt_params (sats : list pyval) (wkt years : pyval) : list (string * pyval) :=
  mandatory_params
  ++ [("satellite"%string, PList sats); ("polygon"%string, wkt); ("year"%string, years)].

Definition dec_wparams {G} (g : gis G) (params : list (string * pyval)) : option (wparams G) :=
  let* tt := (let* v := lookup params "tile_type" in dec_int_array v) in
  let* tc := (let* v := lookup params "tile_class" in dec_int_array v) in
  let* sat := (let* v := lookup params "satellite" in dec_text_array v) in
  let* poly := (let* v := lookup params "polygon" in st_geomfromtext g v) in
  let* yr := (let* v := lookup params "year" in dec_int_array v) in
  Some (mk_wparams tt tc sat poly yr).

(** The statement of [list_tiles_wkt]: the present-tiles join, joined with
    [tile_footprint] on x, y and tile type, filtered on the footprint's
    intersection with the polygon, ordered by
    [end_datetime asc, satellite asc]. *)
Definition q_wkt {G} (g : gis G) (d : db) (p : wparams G) : list tile_row :=
  isort (tile_le ASC)
    (flat_map (fun '(a, s, n, q, f) =>
       flat_map (fun '(fx, fy, ftt, bbox) =>
         if Z.eqb fx (r_x_index n) && Z.eqb fy (r_y_index n) && Z.eqb ftt (r_tile_type_id n)
            && any_Z (r_tile_type_id n) (wp_tile_type p)
            && any_Z (r_tile_class_id n) (wp_tile_class p)
            && any_str (satellite_tag s) (wp_satellite p)
            && st_intersects g bbox (wp_polygon p)
            && any_Z (ts_year (end_datetime a)) (wp_year p)
         then [acq_row a s n [("ARG25", r_tile_pathname n); ("PQ25", r_tile_pathname q);
                              ("FC25", r_tile_pathname f)]%string]
         else []) (tile_footprints g))
       (present_join d ProcessingLevel.NBAR ProcessingLevel.PQA ProcessingLevel.FC)).

(** [list_tiles_wkt]: [try: connect ...; params = {...}; ...;
     tiles = []; for record in cursor: tiles.append(...); return tiles
     except Exception as e: _log.error(...); conn.rollback()]
    It returns the list of tiles, or [None] (as [inl None]) when the
    handler swallowed an exception. *)
Definition list_tiles_wkt {G} (g : gis G) (srv : server)
    (wkt satellites years datasets database user password host port : pyval)
  : option (list tile_row) + exn :=
  match srv_connect srv (connection_string host port database user password) with
  | None => inr AttributeError
  | Some d =>
      match py_values satellites with
      | inr _ => inl None
      | inl sats =>
          match dec_wparams g (wkt_params sats wkt years) with
          | Some p => inl (Some (q_wkt g d p))
          | None => inl None
          end
      end
  end.

(** Two results of [list_tiles_wkt] that agree up to the order of the
    tiles. *)
Definition same_tiles (r1 r2 : option (list tile_row) + exn) : Prop :=
  match r1, r2 with
  | inl (Some t1), inl (Some t2) => Permutation t1 t2
  | _, _ => r1 = r2
  end.

(** ** TimeInterval and DatacubeQueryContext (lines 1586-1644) *)

Record TimeInterval := mk_TimeInterval { ti_start : pyval; ti_end : pyval }.

Definition MIN_INSTANT : pyval := PDatetime (mk_ts 1900 1 1 0).
Definition MAX_INSTANT : pyval := PDatetime (mk_ts 3999 1 1 0).

(** [TimeInterval.__init__]: both instants are datetimes and
    [end_datetime > start_datetime]. *)
Definition make_TimeInterval (start_datetime end_datetime : pyval) : TimeInterval + exn :=
  match start_datetime, end_datetime with
  | PDatetime s, PDatetime e =>
      match ts_cmp e s with
      | Gt => inl (mk_TimeInterval start_datetime end_datetime)
      | _ => inr AssertionError
      end
  | _, _ => inr AssertionError
  end.

Record DbCredentials := mk_DbCredentials {
  cr_database : pyval; cr_user : pyval; cr_password : pyval; cr_host : pyval; cr_port : pyval }.

(** [DatacubeQueryContext.tile_list]: [list_tiles_as_list] with
    [acq_min=time_interval.start], [acq_max=time_interval.end]. *)
Definition tile_list (srv : server) (cred : DbCredentials)
    (x_list y_list satellite_list : pyval) (time_interval : TimeInterval)
    (dataset_list sort : pyval) : list row + exn :=
  list_tiles_as_list srv x_list y_list satellite_list
    (ti_start time_interval) (ti_end time_interval) dataset_list
    (cr_database cred) (cr_user cred) (cr_password cred) (cr_host cred) (cr_port cred) sort.

(** ** parse_date_from_string (cube_util.py lines 44-65) *)

Record pydate := mk_pydate { date_year : Z; date_month : Z; date_day : Z }.

(** Directives of a strptime format and the groups of Python 2.7's
    [_strptime.TimeRE] for them:
    [Y: \d\d\d\d], [m: 1[0-2]|0[1-9]|[1-9]],
    [d: 3[0-1]|[1-2]\d|0[1-9]|[1-9]| [1-9]]; any other character of the
    format is matched literally. *)
Inductive fitem := FY | Fm | Fd | FLit (c : ascii).

Inductive cclass := CDigit | CRange (lo hi : ascii) | CChar (c : ascii).

Definition in_class (k : cclass) (c : ascii) : bool :=
  match k with
  | CDigit => (48 <=? nat_of_ascii c)%nat && (nat_of_ascii c <=? 57)%nat
  | CRange lo hi => (nat_of_ascii lo <=? nat_of_ascii c)%nat && (nat_of_ascii c <=? nat_of_ascii hi)%nat
  | CChar c' => Ascii.eqb c c'
  end.

Definition alternatives (it : fitem) : list (list cclass) :=
  match it with
  | FY => [[CDigit; CDigit; CDigit; CDigit]]
  | Fm => [[CChar "1"; CRange "0" "2"]; [CChar "0"; CRange "1" "9"]; [CRange "1" "9"]]
  | Fd => [[CChar "3"; CRange "0" "1"]; [CRange "1" "2"; CDigit]; [CChar "0"; CRange "1" "9"];
           [CRange "1" "9"]; [CChar " "; CRange "1" "9"]]
  | FLit c => [[CChar c]]
  end.

(** One alternative: a fixed sequence of character classes. *)
Fixpoint match_alt (alt : list cclass) (s : list ascii) : option (list ascii * list ascii) :=
  match alt, s with
  | [], _ => Some ([], s)
  | k :: ks, c :: s' =>
      if in_class k c then
        let* r := match_alt ks s' in Some (c :: fst r, snd r)
      else None
  | _ :: _, [] => None
  end.

Fixpoint first_some {A B} (f : A -> option B) (l : list A) : option B :=
  match l with
  | [] => None
  | a :: r => match f a with Some b => Some b | None => first_some f r end
  end.

(** [format_regex.match(data_string)]: anchored at the start, the first
    match in backtracking order (alternatives left to right); the groups
    captured with their directive, and the unmatched rest. *)
Fixpoint match_items (items : list fitem) (s : list ascii)
  : option (list (fitem * list ascii) * list ascii) :=
  match items with
  | [] => Some ([], s)
  | it :: r =>
      first_some (fun alt =>
        let* m := match_alt alt s in
        let* k := match_items r (snd m) in
        Some (match it with
              | FLit _ => fst k
              | _ => (it, fst m) :: fst k
              end, snd k))
        (alternatives it)
  end.

(** The format string read as directives; [None] for a directive other than
    the three the formats of [parse_date_from_string] use. *)
Fixpoint compile_format (f : list ascii) : option (list fitem) :=
  match f with
  | [] => Some []
  | "%"%char :: d :: r =>
      let* it := (if Ascii.eqb d "Y" then Some FY
                  else if Ascii.eqb d "m" then Some Fm
                  else if Ascii.eqb d "d" then Some Fd else None) in
      let* its := compile_format r in Some (it :: its)
  | c :: r => let* its := compile_format r in Some (FLit c :: its)
  end.

Fixpoint digits_value (acc : Z) (l : list ascii) : Z :=
  match l with
  | [] => acc
  | c :: r => digits_value (acc * 10 + (Z.of_nat (nat_of_ascii c) - 48)) r
  end.

(** [int()] of a captured group; the space of [" [1-9]"] is skipped. *)
Definition group_value (g : list ascii) : Z :=
  digits_value 0 (filter (fun c => negb (Ascii.eqb c " ")) g).

Fixpoint group_of (it : fitem) (gs : list (fitem * list ascii)) : option Z :=
  match gs with
  | [] => None
  | (it', g) :: r =>
      match it, it' with
      | FY, FY | Fm, Fm | Fd, Fd => Some (group_value g)
      | _, _ => group_of it r
      end
  end.

Definition is_leap (y : Z) : bool :=
  (Z.eqb (y mod 4) 0 && negb (Z.eqb (y mod 100) 0)) || Z.eqb (y mod 400) 0.

Definition days_in_month (y m : Z) : Z :=
  if Z.eqb m 2 then (if is_leap y then 29 else 28)
  else if existsb (Z.eqb m) [4; 6; 9; 11] then 30 else 31.

(** [datetime.datetime.strptime(date_string, date_format).date()]: a
    [ValueError] when the format has a bad directive, when the regex does not
    match, when data remains after the match ("unconverted data remains"),
    or when [datetime_date(year, month, day)] rejects the fields (year
    below 1, day beyond the month). Unset fields default to 1900, 1, 1. *)
Definition strptime (date_string date_format : list ascii) : pydate + exn :=
  match compile_format date_format with
  | None => inr ValueError
  | Some items =>
      match match_items items date_string with
      | Some (gs, []) =>
          let y := match group_of FY gs with Some v => v | None => 1900 end in
          let m := match group_of Fm gs with Some v => v | None => 1 end in
          let d := match group_of Fd gs with Some v => v | None => 1 end in
          if (1 <=? y) && (y <=? 9999) && (1 <=? m) && (m <=? 12)
             && (1 <=? d) && (d <=? days_in_month y m)
          then inl (mk_pydate y m d)
          else inr ValueError
      | _ => inr ValueError
      end
  end.

Definition format_list : list (list ascii) :=
  map list_ascii_of_string ["%Y%m%d"; "%d/%m/%Y"; "%Y-%m-%d"]%string.

(** [for date_format in format_list: try: date = ...; break
     except ValueError: pass] *)
Fixpoint try_formats (date_string : list ascii) (fmts : list (list ascii))
  : option pydate + exn :=
  match fmts with
  | [] => inl None
  | f :: r =>
      match strptime date_string f with
      | inl d => inl (Some d)
      | inr ValueError => try_formats date_string r
      | inr e => inr e
      end
  end.

Definition parse_date_from_string (date_string : list ascii) : option pydate + exn :=
  try_formats date_string format_list.

(** ** The mandatory filter, as a restriction of the tile table *)

Definition mandatory_tile (t : tile) : bool :=
  any_Z (tile_type_id t) [TILE_TYPE] && any_Z (tile_class_id t) TILE_CLASSES.

Definition mandatory_row (r : lrow) : bool :=
  any_Z (r_tile_type_id r) [TILE_TYPE] && any_Z (r_tile_class_id r) TILE_CLASSES.

(** The database with every tile outside tile type 1 and tile classes
    1 and 4 removed. *)
Definition restrict_db (d : db) : db :=
  mk_db (acquisitions d) (satellites d) (datasets d) (filter mandatory_tile (tiles d)).

Definition restrict_srv (srv : server) : server :=
  mk_server (fun cs => option_map restrict_db (srv_connect srv cs)) (srv_date_literal srv).

(** ** The spec's reading of parse_date_from_string: the date of the first
    format of the list that strptime accepts, [None] if none does. *)
Fixpoint first_matching (date_string : list ascii) (fmts : list (list ascii)) : option pydate :=
  match fmts with
  | [] => None
  | f :: r =>
      match strptime date_string f with
      | inl d => Some d
      | inr _ => first_matching date_string r
      end
  end.

(** ** Concrete databases and servers *)

Definition LS5 : pyval := PEnum "Satellite.LS5" (PStr "LS5").
Definition ARG25 : pyval := PEnum "DatasetType.ARG25" (PStr "ARG25").

Definition sample_satellites : list satellite :=
  [mk_satellite 1 "LS5"; mk_satellite 2 "LS7"].

(** One LS5 acquisition over cell (150, -34) with NBAR, PQA and FC tiles. *)
Definition db_full : db := mk_db
  [mk_acquisition 10 1 (mk_ts 2014 6 15 36000) (mk_ts 2014 6 15 36030)]
  sample_satellites
  [mk_dataset 101 (Some 10) ProcessingLevel.NBAR; mk_dataset 102 (Some 10) ProcessingLevel.PQA;
   mk_dataset 103 (Some 10) ProcessingLevel.FC]
  [mk_tile 101 150 (-34) "/nbar" 1 1; mk_tile 102 150 (-34) "/pq" 1 1;
   mk_tile 103 150 (-34) "/fc" 1 1].

(** The same acquisition with its NBAR tile only. *)
Definition db_nbar_only : db := mk_db
  [mk_acquisition 10 1 (mk_ts 2014 6 15 36000) (mk_ts 2014 6 15 36030)]
  sample_satellites
  [mk_dataset 101 (Some 10) ProcessingLevel.NBAR]
  [mk_tile 101 150 (-34) "/nbar" 1 1].

(** Two NBAR-only acquisitions: cell (149, -34) in June, cell (150, -34) in March. *)
Definition db_two_missing : db := mk_db
  [mk_acquisition 10 1 (mk_ts 2014 6 15 36000) (mk_ts 2014 6 15 36030);
   mk_acquisition 11 1 (mk_ts 2014 3 2 36000) (mk_ts 2014 3 2 36030)]
  sample_satellites
  [mk_dataset 101 (Some 10) ProcessingLevel.NBAR; mk_dataset 111 (Some 11) ProcessingLevel.NBAR]
  [mk_tile 101 149 (-34) "/nbar_jun" 1 1; mk_tile 111 150 (-34) "/nbar_mar" 1 1].

(** The four terrain tiles of cell (150, -34); no acquisition. *)
Definition db_terrain : db := mk_db [] sample_satellites
  [mk_dataset 200 None ProcessingLevel.DSM; mk_dataset 201 None ProcessingLevel.DEM;
   mk_dataset 202 None ProcessingLevel.DEM_S; mk_dataset 203 None ProcessingLevel.DEM_H]
  [mk_tile 200 150 (-34) "/dsm" 1 1; mk_tile 201 150 (-34) "/dem" 1 1;
   mk_tile 202 150 (-34) "/dem_s" 1 1; mk_tile 203 150 (-34) "/dem_h" 1 1].

(** A server that accepts exactly [dbname=datacube user=u password=p]. *)
Definition server_of (d : db) : server :=
  mk_server
    (fun cs =>
       match cs with
       | [(_, PStr dbn); (_, PStr usr); (_, PStr pw)] =>
           if String.eqb dbn "datacube" && String.eqb usr "u" && String.eqb pw "p"
           then Some d else None
       | _ => None
       end)
    (fun _ => None).

(** A server that refuses every connection. *)
Definition server_down : server := mk_server (fun _ => None) (fun _ => None).

(** ** Dates written in the layouts of [format_list]

    The three layouts a date can be written in for [parse_date_from_string]
    to read it back: fields zero-padded to the widths of the directives. *)

Definition digit (n : Z) : ascii := ascii_of_nat (Z.to_nat (48 + n)).

Definition digits2 (n : Z) : list ascii := [digit (n / 10); digit (n mod 10)].

Definition digits4 (n : Z) : list ascii :=
  [digit (n / 1000); digit (n / 100 mod 10); digit (n / 10 mod 10); digit (n mod 10)].

Definition render_ymd (d : pydate) : list ascii :=
  digits4 (date_year d) ++ digits2 (date_month d) ++ digits2 (date_day d).

Definition render_dmy_slash (d : pydate) : list ascii :=
  digits2 (date_day d) ++ ["/"%char] ++ digits2 (date_month d) ++ ["/"%char]
  ++ digits4 (date_year d).

Definition render_ymd_dash (d : pydate) : list ascii :=
  digits4 (date_year d) ++ ["-"%char] ++ digits2 (date_month d) ++ ["-"%char]
  ++ digits2 (date_day d).

(** The dates [datetime.date] accepts. *)
Definition valid_date (d : pydate) : Prop :=
  1 <= date_year d <= 9999 /\ 1 <= date_month d <= 12 /\
  1 <= date_day d <= days_in_month (date_year d) (date_month d).

(** Checks of the regex matcher on a known prefix of the input:
    [alt_fails a pre]: the alternative fails inside [pre], whatever follows;
    [good_alts alts pre]: the first alternative that does not fail inside
    [pre] consumes exactly [pre];
    [fails_items items pre]: the items fail, with all their backtracking,
    inside [pre]. *)
Fixpoint alt_fails (a : list cclass) (pre : list ascii) : bool :=
  match a, pre with
  | [], _ => false
  | k :: ks, c :: s => if in_class k c then alt_fails ks s else true
  | _ :: _, [] => false
  end.

Fixpoint good_alts (alts : list (list cclass)) (pre : list ascii) : bool :=
  match alts with
  | [] => false
  | a :: r =>
      match match_alt a pre with
      | Some (_, []) => true
      | _ => alt_fails a pre && good_alts r pre
      end
  end.

Fixpoint fails_items (items : list fitem) (pre : list ascii) : bool :=
  match items with
  | [] => false
  | it :: r =>
      forallb (fun a =>
        alt_fails a pre
        || match match_alt a pre with
           | Some (_, pre') => fails_items r pre'
           | None => false
           end) (alternatives it)
  end.

(** [f] holds on [lo], [lo + 1], ..., [lo + count - 1]. *)
Fixpoint all_range (f : Z -> bool) (lo : Z) (count : nat) : bool :=
  match count with
  | O => true
  | S k => f lo && all_range f (lo + 1) k
  end.

(** The prefix checks each zero-padded field passes. *)
Definition year_ok (y : Z) : bool :=
  good_alts (alternatives FY) (digits4 y) && Z.eqb (group_value (digits4 y)) y
  && fails_items [FY; Fm; Fd] (digits4 y ++ ["-"%char])
  && fails_items [Fd; FLit "/"; Fm; FLit "/"; FY] (digits4 y).

Definition month_ok (m : Z) : bool :=
  good_alts (alternatives Fm) (digits2 m) && Z.eqb (group_value (digits2 m)) m.

Definition day_ok (d : Z) : bool :=
  good_alts (alternatives Fd) (digits2 d) && Z.eqb (group_value (digits2 d)) d
  && fails_items [FY; Fm; Fd] (digits2 d ++ ["/"%char]).

(** ** Utilities of cube_util.py *)

(** The exceptions the utilities below raise. *)
Inductive cu_exn :=
  | TypeError      (* an operation on a value of the wrong type, e.g. str + int *)
  | IndexError     (* [l[0]] on an empty list *)
  | DatasetError.  (* cube_util.DatasetError *)

(** *** Stopwatch (cube_util.py lines 248-296)

    The clock readings [time.time()] and [time.clock()] are the arguments of
    the methods; the numbers are any type with Python's [0.0], [+] and [-]. *)
Class PyNum (R : Type) := {
  num_zero : R;
  num_add : R -> R -> R;
  num_sub : R -> R -> R
}.

#[export] Instance PyNum_Z : PyNum Z := { num_zero := 0; num_add := Z.add; num_sub := Z.sub }.

Record stopwatch (R : Type) := mk_stopwatch {
  elapsed_time : R;
  cpu_time : R;
  start_elapsed_time : option R;
  start_cpu_time : option R;
  running : bool
}.

Arguments mk_stopwatch {R}.
Arguments elapsed_time {R}.
Arguments cpu_time {R}.
Arguments start_elapsed_time {R}.
Arguments start_cpu_time {R}.
Arguments running {R}.

(** [__init__] *)
Definition sw_init {R} `{PyNum R} : stopwatch R :=
  mk_stopwatch num_zero num_zero None None false.

(** [start], with [t = time.time()] and [c = time.clock()]. *)
Definition sw_start {R} (t c : R) (w : stopwatch R) : stopwatch R :=
  if running w then w
  else mk_stopwatch (elapsed_time w) (cpu_time w) (Some t) (Some c) true.

(** [stop]: [time.time() - None] raises a TypeError. *)
Definition sw_stop {R} `{PyNum R} (t c : R) (w : stopwatch R) : stopwatch R + cu_exn :=
  if running w then
    match start_elapsed_time w, start_cpu_time w with
    | Some s, Some sc =>
        inl (mk_stopwatch (num_add (elapsed_time w) (num_sub t s))
                          (num_add (cpu_time w) (num_sub c sc)) None None false)
    | _, _ => inr TypeError
    end
  else inl w.

(** [reset] calls [__init__]. *)
Definition sw_reset {R} `{PyNum R} (w : stopwatch R) : stopwatch R := sw_init.

(** [read]: the new state and the returned [(elapsed_time, cpu_time)]. *)
Definition sw_read {R} `{PyNum R} (t c : R) (w : stopwatch R)
  : (stopwatch R * (R * R)) + cu_exn :=
  if running w then
    match start_elapsed_time w, start_cpu_time w with
    | Some s, Some sc =>
        let e := num_add (elapsed_time w) (num_sub t s) in
        let u := num_add (cpu_time w) (num_sub c sc) in
        inl (mk_stopwatch e u (Some t) (Some c) true, (e, u))
    | _, _ => inr TypeError
    end
  else inl (w, (elapsed_time w, cpu_time w)).

(** A sequence of method calls with the clock readings each one makes. *)
Inductive sw_call (R : Type) :=
  | CallStart (t c : R)
  | CallStop (t c : R)
  | CallRead (t c : R)
  | CallReset.

Arguments CallStart {R}.
Arguments CallStop {R}.
Arguments CallRead {R}.
Arguments CallReset {R}.

Fixpoint sw_run {R} `{PyNum R} (calls : list (sw_call R)) (w : stopwatch R)
  : stopwatch R + cu_exn :=
  match calls with
  | [] => inl w
  | CallStart t c :: r => sw_run r (sw_start t c w)
  | CallStop t c :: r =>
      match sw_stop t c w with inl w' => sw_run r w' | inr e => inr e end
  | CallRead t c :: r =>
      match sw_read t c w with inl (w', _) => sw_run r w' | inr e => inr e end
  | CallReset :: r => sw_run r (sw_reset w)
  end.

(** The start times are set exactly while the stopwatch runs. *)
Definition sw_inv {R} (w : stopwatch R) : Prop :=
  if running w then start_elapsed_time w <> None /\ start_cpu_time w <> None
  else start_elapsed_time w = None /\ start_cpu_time w = None.

Definition sw_totals {R} (w : stopwatch R) : R * R := (elapsed_time w, cpu_time w).

(** *** log_multiline (cube_util.py lines 72-101)

    Python 2's [str.splitlines]: lines end at [\n], [\r] or [\r\n]; a
    final line break does not start an empty line. *)
Definition LF : ascii := Ascii.ascii_of_nat 10.
Definition CR : ascii := Ascii.ascii_of_nat 13.

Fixpoint splitlines_aux (cur s : string) : list string :=
  match s with
  | EmptyString => if String.eqb cur EmptyString then [] else [cur]
  | String c r =>
      if Ascii.eqb c CR then
        match r with
        | String c2 r2 =>
            if Ascii.eqb c2 LF then cur :: splitlines_aux EmptyString r2
            else cur :: splitlines_aux EmptyString r
        | EmptyString => cur :: splitlines_aux EmptyString r
        end
      else if Ascii.eqb c LF then cur :: splitlines_aux EmptyString r
      else splitlines_aux (cur ++ String c EmptyString) r
  end.

Definition splitlines (s : string) : list string := splitlines_aux EmptyString s.

(** ['=' * n] *)
Fixpoint str_mul (c : ascii) (n : nat) : string :=
  match n with O => EmptyString | S k => String c (str_mul c k) end.

(** The line contains neither [\n] nor [\r]. *)
Fixpoint no_break (s : string) : bool :=
  match s with
  | EmptyString => true
  | String c r => negb (Ascii.eqb c LF) && negb (Ascii.eqb c CR) && no_break r
  end.

(** '\n'.join(lines) *)
Definition join_lines (lines : list string) : string :=
  String.concat (String LF EmptyString) lines.

Section LogMultiline.

(** [pprint.pformat] *)
Variable pformat : pyval -> string.

(** [log_list]: a str is split into lines, a list whose first item is a str
    is taken as it is ([log_text[0]] raises IndexError on an empty list),
    anything else is pretty-printed and split. *)
Definition log_list (log_text : pyval) : list pyval + cu_exn :=
  match log_text with
  | PStr s => inl (map PStr (splitlines s))
  | PList [] => inr IndexError
  | PList (PStr s :: r) => inl (PStr s :: r)
  | v => inl (map PStr (splitlines (pformat v)))
  end.

(** The title lines: none for a falsy title, and [prefix + title] raises
    TypeError for a title that is not a str. *)
Definition title_lines (title : pyval) (prefix : string) : list string + cu_exn :=
  if py_truthy title then
    match title with
    | PStr t => inl [prefix ++ t; prefix ++ str_mul "-" 80]%string
    | _ => inr TypeError
    end
  else inl [].

(** [for line in log_list: log_function(prefix + line)] *)
Fixpoint log_lines (prefix : string) (l : list pyval) : list string * option cu_exn :=
  match l with
  | [] => ([], None)
  | PStr s :: r => let (o, e) := log_lines prefix r in ((prefix ++ s)%string :: o, e)
  | _ :: _ => ([], Some TypeError)
  end.

(** The lines passed to [log_function], in order, and the exception raised. *)
Definition log_multiline (log_text title : pyval) (prefix : string)
  : list string * option cu_exn :=
  match log_list log_text with
  | inr e => ([], Some e)
  | inl ll =>
      let rule := (prefix ++ str_mul "=" 80)%string in
      match title_lines title prefix with
      | inr e => ([rule], Some e)
      | inl tl =>
          let (body, e) := log_lines prefix ll in
          match e with
          | None => (rule :: tl ++ body ++ [rule], None)
          | Some e => (rule :: tl ++ body, Some e)
          end
      end
  end.

End LogMultiline.

(** *** create_directory (cube_util.py lines 218-230)

    A file system as the list of its entries, the latest first; a path is
    the list of the components of an absolute path, without [.] or [..]
    components. A directory carries its mode, the class of its permission
    bits that applies to the process (it owns the directory, is in its
    group, or neither), and whether it sits on a read-only mount. The
    process is privileged ([root], e.g. euid 0) or not: a privileged process
    is not held back by permission bits, but a read-only mount still is.
    The root directory is [0o755], not owned by the process, and writable
    by the mount. *)
Definition path := list string.

Inductive pclass := POwner | PGroup | POther.

Inductive node := NDir (mode : Z) (cls : pclass) (ro : bool) | NFile.

Inductive errno := EEXIST | ENOENT | ENOTDIR | EACCES | EROFS.

Definition errno_eqb (a b : errno) : bool :=
  match a, b with
  | EEXIST, EEXIST | ENOENT, ENOENT | ENOTDIR, ENOTDIR | EACCES, EACCES | EROFS, EROFS => true
  | _, _ => false
  end.

Definition root_node : node := NDir 493 POther false.

(** The position of the execute bit of the class in the mode; the write bit
    is the next one up. *)
Definition class_shift (k : pclass) : Z :=
  match k with POwner => 6 | PGroup => 3 | POther => 0 end.

(** Search (execute) permission on a directory, needed to resolve a name
    in it. *)
Definition may_search (root : bool) (mode : Z) (k : pclass) : bool :=
  root || Z.testbit mode (class_shift k).

(** Write and search permission on a directory, needed to create an entry
    in it. *)
Definition may_write (root : bool) (mode : Z) (k : pclass) : bool :=
  root || (Z.testbit mode (class_shift k + 1) && Z.testbit mode (class_shift k)).

Fixpoint fs_lookup (fs : list (path * node)) (p : path) : option node :=
  match fs with
  | [] => None
  | (q, n) :: r => if list_eq_dec string_dec p q then Some n else fs_lookup r p
  end.

(** [stat] of the path whose components are [rp] reversed: the components
    are resolved from the root; a directory without search permission gives
    EACCES, a missing component ENOENT, a file in the middle ENOTDIR. *)
Fixpoint stat_rev (root : bool) (fs : list (path * node)) (rp : list string) : node + errno :=
  match rp with
  | [] => inl root_node
  | _ :: r =>
      match stat_rev root fs r with
      | inl (NDir m k _) =>
          if may_search root m k then
            match fs_lookup fs (rev rp) with Some n => inl n | None => inr ENOENT end
          else inr EACCES
      | inl NFile => inr ENOTDIR
      | inr e => inr e
      end
  end.

Definition stat (root : bool) (fs : list (path * node)) (p : path) : node + errno :=
  stat_rev root fs (rev p).

(** [os.path.exists] and [os.path.isdir]: [False] on any [OSError]. *)
Definition path_exists (root : bool) (fs : list (path * node)) (p : path) : bool :=
  match stat root fs p with inl _ => true | inr _ => false end.

Definition path_isdir (root : bool) (fs : list (path * node)) (p : path) : bool :=
  match stat root fs p with inl (NDir _ _ _) => true | _ => false end.

(** [os.mkdir(name, mode)] under the process umask, with the checks in the
    kernel's order: the parent must resolve to a directory the process may
    search (ENOENT, ENOTDIR, EACCES); the name must be free (EEXIST); the
    mount must be writable (EROFS); the process needs write and search
    permission on the parent (EACCES). The new directory belongs to the
    process. *)
Definition mkdir (root : bool) (p : path) (mode umask : Z) (fs : list (path * node))
  : list (path * node) * option errno :=
  match rev p with
  | [] => (fs, Some EEXIST)
  | _ :: rhead =>
      match stat_rev root fs rhead with
      | inl (NDir m k ro) =>
          if negb (may_search root m k) then (fs, Some EACCES)
          else
            match fs_lookup fs p with
            | Some _ => (fs, Some EEXIST)
            | None =>
                if ro then (fs, Some EROFS)
                else if negb (may_write root m k) then (fs, Some EACCES)
                else ((p, NDir (Z.land mode (Z.lnot umask)) POwner false) :: fs, None)
            end
      | inl NFile => (fs, Some ENOTDIR)
      | inr e => (fs, Some e)
      end
  end.

(** Python 2.7's [os.makedirs(name, mode)] on the reversed components:
    [head, tail = path.split(name)
     if head and tail and not path.exists(head):
         try: makedirs(head, mode)
         except OSError, e:
             if e.errno != errno.EEXIST: raise
     mkdir(name, mode)]
    The file system is returned also when an error is raised. *)
Fixpoint makedirs_rev (root : bool) (rp : list string) (mode umask : Z)
    (fs : list (path * node)) : list (path * node) * option errno :=
  match rp with
  | [] => mkdir root [] mode umask fs
  | _ :: rhead =>
      let '(fs1, e1) :=
        if path_exists root fs (rev rhead) then (fs, None)
        else match makedirs_rev root rhead mode umask fs with
             | (fs', Some EEXIST) => (fs', None)
             | r => r
             end in
      match e1 with
      | Some e => (fs1, Some e)
      | None => mkdir root (rev rp) mode umask fs1
      end
  end.

Definition makedirs (root : bool) (name : path) (mode umask : Z) (fs : list (path * node))
  : list (path * node) * option errno :=
  makedirs_rev root (rev name) mode umask fs.

(** [old_umask = os.umask(0o007)
     try: os.makedirs(dirname)
     except OSError, e:
         if e.errno != errno.EEXIST or not os.path.isdir(dirname):
             raise DatasetError(...)
     finally: os.umask(old_umask)]
    The file system after the call, the umask it leaves, and the exception
    that escapes. *)
Definition create_directory (root : bool) (dirname : path) (fs : list (path * node)) (umask : Z)
  : list (path * node) * Z * option cu_exn :=
  let old_umask := umask in
  let umask1 := 7 in
  let '(fs', err) := makedirs root dirname 511 umask1 fs in
  let raised :=
    match err with
    | None => None
    | Some e =>
        if negb (errno_eqb e EEXIST) || negb (path_isdir root fs' dirname)
        then Some DatasetError else None
    end in
  (fs', old_umask, raised).

(** Every entry of the file system sits in a directory (whatever the
    permissions). *)
Definition fs_wfb (fs : list (path * node)) : bool :=
  forallb (fun '(q, _) =>
    match rev q with
    | [] => false
    | _ :: rq => match stat_rev true fs rq with inl (NDir _ _ _) => true | _ => false end
    end) fs.

(** Whether the directory that is to receive the first missing component of
    the path (the deepest one that exists) admits a new entry from the
    process: a writable mount, and write and search permission. *)
Fixpoint create_ok_rev (root : bool) (fs : list (path * node)) (rp : list string) : bool :=
  match rp with
  | [] => false
  | _ :: r =>
      match stat_rev root fs r with
      | inl (NDir m k ro) => negb ro && may_write root m k
      | inr ENOENT => create_ok_rev root fs r
      | _ => false
      end
  end.

Definition create_ok (root : bool) (fs : list (path * node)) (p : path) : bool :=
  create_ok_rev root fs (rev p).

(** A directory as [create_directory] creates it: mode 0o777 under the
    umask 0o007, owned by the process. *)
Definition new_dir : node := NDir 504 POwner false.

(** The order the spec gives the cell listings: by grid x, then by grid y,
    both in the requested direction, with no two rows equal. *)
Definition cell_before (dir : SortType) (a b : cell) : Prop :=
  match dir with
  | ASC => fst a < fst b \/ (fst a = fst b /\ snd a < snd b)
  | DESC => fst a > fst b \/ (fst a = fst b /\ snd a > snd b)
  end.

(** * Proofs *)

(** ** strptime only fails with ValueError *)

Lemma strptime_error (s f : list ascii) (e : exn) :
  strptime s f = inr e -> e = ValueError.
Proof.
  unfold strptime.
  destruct (compile_format f) as [items|]; [|congruence].
  destruct (match_items items s) as [[gs [|c r]]|]; try congruence.
  destruct (_ && _); congruence.
Qed.

Lemma try_formats_first (s : list ascii) (fmts : list (list ascii)) :
  try_formats s fmts = inl (first_matching s fmts).
Proof.
  induction fmts as [|f r IH]; simpl; [reflexivity|].
  destruct (strptime s f) as [d|e] eqn:E; [reflexivity|].
  rewrite (strptime_error _ _ _ E). exact IH.
Qed.

(** ** Lists *)

Lemma filter_flat_map {A B} (P : B -> bool) (f : A -> list B) (l : list A) :
  filter P (flat_map f l) = flat_map (fun x => filter P (f x)) l.
Proof.
  induction l as [|x r IH]; simpl; [reflexivity|].
  rewrite filter_app, IH. reflexivity.
Qed.

Lemma flat_map_ext_in {A B} (f g : A -> list B) (l : list A) :
  (forall x, In x l -> f x = g x) -> flat_map f l = flat_map g l.
Proof.
  induction l as [|x r IH]; intros H; simpl; [reflexivity|].
  rewrite H by (left; reflexivity). rewrite IH by (intros; apply H; right; assumption).
  reflexivity.
Qed.

(** Dropping elements on which [f] yields nothing does not change [flat_map f]. *)
Lemma flat_map_filter_skip {A B} (M : A -> bool) (f : A -> list B) (l : list A) :
  (forall x, M x = false -> f x = []) -> flat_map f (filter M l) = flat_map f l.
Proof.
  intros H. induction l as [|x r IH]; simpl; [reflexivity|].
  destruct (M x) eqn:E; simpl; rewrite IH; [reflexivity|].
  rewrite (H x E). reflexivity.
Qed.

Lemma filter_filter_weaker {A} (P M : A -> bool) (l : list A) :
  (forall x, P x = true -> M x = true) -> filter P (filter M l) = filter P l.
Proof.
  intros H. induction l as [|x r IH]; simpl; [reflexivity|].
  destruct (M x) eqn:E; simpl.
  - destruct (P x); rewrite IH; reflexivity.
  - destruct (P x) eqn:F; [rewrite (H x F) in E; discriminate|exact IH].
Qed.

Lemma filter_all_false {A} (P : A -> bool) (l : list A) :
  (forall x, In x l -> P x = false) -> filter P l = [].
Proof.
  induction l as [|x r IH]; intros H; simpl; [reflexivity|].
  rewrite (H x (or_introl eq_refl)). apply IH. intros; apply H; right; assumption.
Qed.

(** ** Insertion sort *)

Section Isort.
Context {A : Type} (le : A -> A -> bool).

Lemma insert_perm (x : A) (l : list A) : Permutation (insert le x l) (x :: l).
  Proof.
    induction l as [|y r IH]; simpl; [reflexivity|].
    destruct (le x y); [reflexivity|].
    rewrite IH. apply perm_swap.
  Qed.

Lemma isort_perm (l : list A) : Permutation (isort le l) l.
  Proof.
    induction l as [|x r IH]; simpl; [reflexivity|].
    rewrite insert_perm, IH. reflexivity.
  Qed.

Hypothesis le_total : forall a b, le a b = true \/ le b a = true.

Lemma insert_sorted (x : A) (l : list A) :
    Sorted (fun a b => le a b = true) l -> Sorted (fun a b => le a b = true) (insert le x l).
  Proof.
    induction 1 as [|y r Hs IH Hhd]; simpl.
    - repeat constructor.
    - destruct (le x y) eqn:E.
      + constructor; [constructor; assumption|constructor; exact E].
      + assert (Hyx : le y x = true) by (destruct (le_total x y); congruence).
        constructor; [exact IH|].
        destruct r as [|z r']; simpl; [constructor; exact Hyx|].
        destruct (le x z); constructor; [exact Hyx|inversion Hhd; assumption].
  Qed.

Lemma isort_sorted (l : list A) : Sorted (fun a b => le a b = true) (isort le l).
  Proof.
    induction l as [|x r IH]; simpl; [constructor|].
    apply insert_sorted. exact IH.
  Qed.
End Isort.

(** Two strongly sorted permutations of each other are equal when the order
    is antisymmetric. *)
Lemma strongly_sorted_unique {A} (R : A -> A -> Prop) :
  (forall a b, R a b -> R b a -> a = b) ->
  forall l1 l2, StronglySorted R l1 -> StronglySorted R l2 -> Permutation l1 l2 -> l1 = l2.
Proof.
  intros Hanti l1. induction l1 as [|a r1 IH]; intros l2 S1 S2 P.
  - symmetry. apply Permutation_nil. exact P.
  - destruct l2 as [|b r2]; [apply Permutation_sym, Permutation_nil_cons in P; contradiction|].
    apply StronglySorted_inv in S1 as [S1 F1]. apply StronglySorted_inv in S2 as [S2 F2].
    assert (Hab : a = b).
    { assert (Ha : In a (b :: r2)) by (apply (Permutation_in a P); left; reflexivity).
      assert (Hb : In b (a :: r1))
        by (apply (Permutation_in b (Permutation_sym P)); left; reflexivity).
      destruct Ha as [Ha|Ha]; [symmetry; exact Ha|].
      destruct Hb as [Hb|Hb]; [exact Hb|].
      apply Hanti; [rewrite Forall_forall in F1; apply F1; exact Hb
                   |rewrite Forall_forall in F2; apply F2; exact Ha]. }
    subst b. f_equal. apply IH; [exact S1|exact S2|].
    apply Permutation_cons_inv with a. exact P.
Qed.

Lemma strongly_sorted_rev {A} (R : A -> A -> Prop) (l : list A) :
  StronglySorted R l -> StronglySorted (fun a b => R b a) (rev l).
Proof.
  induction 1 as [|a r Hs IH Hf]; simpl; [constructor|].
  assert (G : forall l', StronglySorted (fun a b => R b a) l' ->
                         (forall x, In x l' -> R a x) ->
                         StronglySorted (fun a b => R b a) (l' ++ [a])).
  { induction l' as [|y l'' IHl]; intros S H; simpl.
    - repeat constructor.
    - apply StronglySorted_inv in S as [S Fy]. constructor.
      + apply IHl; [exact S|intros; apply H; right; assumption].
      + apply Forall_app. split; [exact Fy|]. constructor; [|constructor].
        apply H. left. reflexivity. }
  apply G; [exact IH|]. intros x Hx. apply in_rev in Hx.
  rewrite Forall_forall in Hf. apply Hf. exact Hx.
Qed.

(** ** Paging: [result_generator] yields every row, in order *)

Lemma pages_concat {A} (fuel size : nat) (rows : list A) :
  (0 < size)%nat -> (List.length rows < fuel)%nat ->
  List.concat (pages fuel size rows) = rows.
Proof.
  revert rows. induction fuel as [|f IH]; intros rows Hs Hl; [lia|]. simpl.
  destruct rows as [|r rs]; [destruct size; reflexivity|].
  destruct size as [|k]; [lia|]. simpl.
  rewrite IH; [rewrite firstn_skipn; reflexivity|lia|].
  rewrite length_skipn. simpl in Hl. lia.
Qed.

Lemma result_generator_rows {A} (rows : list A) (size : nat) :
  (0 < size)%nat -> result_generator rows size = rows.
Proof.
  intros Hs. unfold result_generator. apply pages_concat; [exact Hs|lia].
Qed.

(** ** The cell order *)

Ltac cell_bool :=
  repeat match goal with
  | H : _ = true |- _ => apply orb_true_iff in H || apply andb_true_iff in H
  | H : _ /\ _ |- _ => destruct H
  | H : _ \/ _ |- _ => destruct H
  end;
  repeat match goal with
  | H : Z.ltb _ _ = true |- _ => apply Z.ltb_lt in H
  | H : Z.leb _ _ = true |- _ => apply Z.leb_le in H
  | H : Z.eqb _ _ = true |- _ => apply Z.eqb_eq in H
  end.

Lemma cell_le_asc_trans (a b c : cell) :
  cell_le_asc a b = true -> cell_le_asc b c = true -> cell_le_asc a c = true.
Proof.
  destruct a as [a1 a2], b as [b1 b2], c as [c1 c2]; unfold cell_le_asc; simpl.
  intros H1 H2. cell_bool;
  apply orb_true_iff;
  first [left; apply Z.ltb_lt; lia
        |right; apply andb_true_iff; split; [apply Z.eqb_eq|apply Z.leb_le]; lia].
Qed.

Lemma cell_le_asc_antisym (a b : cell) :
  cell_le_asc a b = true -> cell_le_asc b a = true -> a = b.
Proof.
  destruct a as [a1 a2], b as [b1 b2]; unfold cell_le_asc; simpl.
  intros H1 H2. cell_bool; f_equal; lia.
Qed.

Lemma cell_le_asc_total (a b : cell) : cell_le_asc a b = true \/ cell_le_asc b a = true.
Proof.
  destruct a as [a1 a2], b as [b1 b2]; unfold cell_le_asc; simpl.
  destruct (Z.lt_trichotomy a1 b1) as [H|[H|H]].
  - left. apply orb_true_iff. left. apply Z.ltb_lt. exact H.
  - subst b1. destruct (Z.le_ge_cases a2 b2) as [H|H]; [left|right];
    apply orb_true_iff; right; apply andb_true_iff;
    split; [apply Z.eqb_refl| apply Z.leb_le; lia|apply Z.eqb_refl|apply Z.leb_le; lia].
  - right. apply orb_true_iff. left. apply Z.ltb_lt. exact H.
Qed.

Lemma cell_le_total (dir : SortType) (a b : cell) :
  cell_le dir a b = true \/ cell_le dir b a = true.
Proof.
  destruct dir; simpl; [apply cell_le_asc_total|].
  destruct (cell_le_asc_total a b); [right|left]; assumption.
Qed.

(** Sorting a list of cells descending gives the reverse of sorting it ascending. *)
Lemma isort_cells_desc (l : list cell) :
  isort (cell_le DESC) l = rev (isort (cell_le ASC) l).
Proof.
  set (R := fun a b => cell_le_asc a b = true).
  assert (Rt : Relations_1.Transitive R) by (intros a b c; apply cell_le_asc_trans).
  assert (Rt' : Relations_1.Transitive (fun a b => R b a))
    by (intros a b c H1 H2; exact (cell_le_asc_trans _ _ _ H2 H1)).
  apply strongly_sorted_unique with (R := fun a b => R b a).
  - intros a b H1 H2. apply cell_le_asc_antisym; assumption.
  - apply Sorted_StronglySorted; [exact Rt'|].
    exact (isort_sorted (cell_le DESC) (cell_le_total DESC) l).
  - apply strongly_sorted_rev. apply Sorted_StronglySorted; [exact Rt|].
    exact (isort_sorted (cell_le ASC) (cell_le_total ASC) l).
  - rewrite isort_perm, <- Permutation_rev, isort_perm. reflexivity.
Qed.

Lemma q_cells_desc (d : db) (tt tc : list Z) (sat : list string) (xs ys : list Z)
    (tf : time_filter) (l1 l2 l3 : Z) :
  q_cells d (mk_qparams tt tc sat xs ys tf DESC) l1 l2 l3
  = rev (q_cells d (mk_qparams tt tc sat xs ys tf ASC) l1 l2 l3).
Proof. unfold q_cells. cbn [qp_sort]. apply isort_cells_desc. Qed.

Lemma q_cells_missing_desc (d : db) (tt tc : list Z) (sat : list string) (xs ys : list Z)
    (tf : time_filter) :
  q_cells_missing d (mk_qparams tt tc sat xs ys tf DESC)
  = rev (q_cells_missing d (mk_qparams tt tc sat xs ys tf ASC)).
Proof. unfold q_cells_missing. cbn [qp_sort]. apply isort_cells_desc. Qed.

Ltac destruct_matches :=
  repeat match goal with
  | |- context [match ?e with Some _ => _ | None => _ end] =>
      let E := fresh "E" in destruct e eqn:E
  | |- context [match ?e with inl _ => _ | inr _ => _ end] =>
      let E := fresh "E" in destruct e eqn:E
  end.

Lemma dec_qparams_sort (srv : server) (k : stmt_kind) (tc : time_clause) (lv : level_src)
    (ps : list (string * pyval)) (sv : pyval) (so : SortType) :
  dec_sort sv = Some so ->
  dec_qparams srv (mk_stmt k sv tc lv) ps
  = option_map (fun p => mk_qparams (qp_tile_type p) (qp_tile_class p) (qp_satellite p)
                           (qp_x p) (qp_y p) (qp_time p) so)
      (dec_qparams srv (mk_stmt k (PStr "asc") tc lv) ps).
Proof.
  intros Hs. unfold dec_qparams. cbn [st_time st_sort]. rewrite Hs.
  replace (dec_sort (PStr "asc")) with (Some ASC) by reflexivity.
  destruct_matches; reflexivity.
Qed.

Lemma dec_qparams_asc (srv : server) (k : stmt_kind) (tc : time_clause) (lv : level_src)
    (ps : list (string * pyval)) (p : qparams) :
  dec_qparams srv (mk_stmt k (PStr "asc") tc lv) ps = Some p -> qp_sort p = ASC.
Proof.
  unfold dec_qparams. cbn [st_time st_sort].
  replace (dec_sort (PStr "asc")) with (Some ASC) by reflexivity.
  destruct_matches; intros H; try discriminate; injection H as <-; reflexivity.
Qed.


Lemma exec_cells_desc (srv : server) (d : db) (k : stmt_kind) (tc : time_clause)
    (lv : level_src) (ps : list (string * pyval)) :
  k = SCells \/ k = SCellsMissing ->
  exec srv d (mk_stmt k (PStr "desc") tc lv) ps
  = rev_rows (exec srv d (mk_stmt k (PStr "asc") tc lv) ps).
Proof.
  intros Hk. unfold exec. cbn [st_kind].
  rewrite (dec_qparams_sort srv k tc lv ps (PStr "desc") DESC eq_refl).
  destruct (dec_qparams srv (mk_stmt k (PStr "asc") tc lv) ps) as [p|] eqn:Ep;
    destruct Hk as [->| ->]; cbn [option_map]; try reflexivity.
  all: apply dec_qparams_asc in Ep; destruct p as [tt tc' sat xs ys tf so]; cbn in Ep; subst so.
  all: change (dec_levels (mk_stmt _ (PStr "desc") tc lv) ps) with (dec_levels (mk_stmt SCells (PStr "asc") tc lv) ps).
  all: cbn [qp_tile_type qp_tile_class qp_satellite qp_x qp_y qp_time].
  all: destruct (dec_levels _ ps) as [[[l1 l2] l3]|]; cbn [rev_rows]; [|reflexivity].
  - rewrite q_cells_desc, map_rev. reflexivity.
  - rewrite q_cells_missing_desc, map_rev. reflexivity.
Qed.

Lemma run_generator_rev (srv : server) (host port database user password : pyval)
    (k : stmt_kind) (tc : time_clause) (lv : level_src) (ps : list (string * pyval)) :
  (forall d, exec srv d (mk_stmt k (PStr "desc") tc lv) ps
             = rev_rows (exec srv d (mk_stmt k (PStr "asc") tc lv) ps)) ->
  py_list (run_generator srv host port database user password
             (inl (mk_stmt k (PStr "desc") tc lv, ps)))
  = rev_rows (py_list (run_generator srv host port database user password
                         (inl (mk_stmt k (PStr "asc") tc lv, ps)))).
Proof.
  intros H. unfold run_generator.
  destruct (srv_connect srv _) as [d|]; [|reflexivity].
  change (mogrify (mk_stmt k (PStr "desc") tc lv) ps)
    with (mogrify (mk_stmt k (PStr "asc") tc lv) ps).
  destruct (mogrify _ ps); [reflexivity|].
  rewrite H. destruct (exec srv d _ ps) as [rows|e]; [|reflexivity].
  unfold py_list. cbn [raised yielded rev_rows]. rewrite !result_generator_rows by lia. reflexivity.
Qed.

(** C10: [parse_date_from_string] never raises on a string: it returns
    (as [inl]) the date parsed by the first of ['%Y%m%d'], ['%d/%m/%Y'],
    ['%Y-%m-%d'] that [strptime] accepts, or [None] when none does. *)
Theorem parse_date_from_string_total (date_string : list ascii) :
  parse_date_from_string date_string
  = inl (first_matching date_string
           [list_ascii_of_string "%Y%m%d"; list_ascii_of_string "%d/%m/%Y";
            list_ascii_of_string "%Y-%m-%d"]).
Proof. unfold parse_date_from_string. apply try_formats_first. Qed.

Example parse_date_examples :
  parse_date_from_string (list_ascii_of_string "20141025") = inl (Some (mk_pydate 2014 10 25))
  /\ parse_date_from_string (list_ascii_of_string "25/10/2014") = inl (Some (mk_pydate 2014 10 25))
  /\ parse_date_from_string (list_ascii_of_string "2014-10-25") = inl (Some (mk_pydate 2014 10 25))
  /\ parse_date_from_string (list_ascii_of_string "2014-02-30") = inl None
  /\ parse_date_from_string (list_ascii_of_string "hello") = inl None.
Proof. repeat split; reflexivity. Qed.

(** C3: when [psycopg2.connect] fails, [conn] is still [None] in the
    handler, so [conn.rollback()] raises [AttributeError], which escapes
    every listing generator (and the exports) instead of being swallowed. *)
Theorem connect_failure_escapes (srv : server)
    (x y satellites acq_min acq_max datasets database user password host port sort
     years filename : pyval) :
  srv_connect srv (connection_string host port database user password) = None ->
  raised (list_cells_as_generator srv x y satellites acq_min acq_max datasets database user
            password host port sort) = Some AttributeError
  /\ raised (list_cells_missing_as_generator srv x y satellites acq_min acq_max datasets
               database user password host port sort) = Some AttributeError
  /\ raised (list_tiles_as_generator srv x y satellites acq_min acq_max datasets database user
               password host port sort) = Some AttributeError
  /\ raised (list_tiles_missing_as_generator srv x y satellites acq_min acq_max datasets
               database user password host port sort) = Some AttributeError
  /\ raised (list_tiles_dtm_as_generator srv x y datasets database user password host port
               sort) = Some AttributeError
  /\ ex_raised (list_cells_to_file srv x y satellites years datasets filename database user
                  password host port sort) = Some AttributeError
  /\ ex_raised (list_cells_missing_to_file srv x y satellites years datasets filename database
                  user password host port sort) = Some AttributeError.
Proof.
  intros H.
  unfold list_cells_as_generator, list_cells_missing_as_generator, list_tiles_as_generator,
    list_tiles_missing_as_generator, list_tiles_dtm_as_generator, list_cells_to_file,
    list_cells_missing_to_file, run_generator, run_to_file.
  rewrite H. repeat split.
Qed.

Lemma connect_failure_escapes_witness :
  srv_connect server_down (connection_string PNone PNone (PStr "datacube") (PStr "u") (PStr "p"))
    = None
  /\ raised (list_cells_as_generator server_down (PList [PInt 150]) (PList [PInt (-34)])
              (PList [LS5]) (PDate (mk_ts 2014 1 1 0)) (PDate (mk_ts 2014 12 31 0))
              (PList [ARG25]) (PStr "datacube") (PStr "u") (PStr "p") PNone PNone py_ASC)
     = Some AttributeError.
Proof.
  split; [reflexivity|].
  apply (connect_failure_escapes server_down (PList [PInt 150]) (PList [PInt (-34)])
           (PList [LS5]) (PDate (mk_ts 2014 1 1 0)) (PDate (mk_ts 2014 12 31 0))
           (PList [ARG25]) (PStr "datacube") (PStr "u") (PStr "p") PNone PNone py_ASC
           (PList [PInt 2014]) PNone).
  reflexivity.
Defined.

(** C2: the cells, missing cells, tiles and missing tiles [_as_list]
    functions are [list()] of their generators, but [list_tiles_dtm_as_list]
    drains [list_tiles] with its arguments shifted: at the default
    [host=None], [port=None] it connects as [dbname=None user=None
    password=SortType.ASC], fails, and raises, while the terrain generator
    yields the terrain tile of cell (150, -34). *)
Theorem dtm_as_list_differs_from_generator :
  (forall srv x y satellites acq_min acq_max datasets database user password host port sort,
     list_cells_as_list srv x y satellites acq_min acq_max datasets database user password
       host port sort
     = py_list (list_cells_as_generator srv x y satellites acq_min acq_max datasets database
                  user password host port sort)
     /\ list_cells_missing_as_list srv x y satellites acq_min acq_max datasets database user
          password host port sort
        = py_list (list_cells_missing_as_generator srv x y satellites acq_min acq_max datasets
                     database user password host port sort)
     /\ list_tiles_as_list srv x y satellites acq_min acq_max datasets database user password
          host port sort
        = py_list (list_tiles_as_generator srv x y satellites acq_min acq_max datasets database
                     user password host port sort)
     /\ list_tiles_missing_as_list srv x y satellites acq_min acq_max datasets database user
          password host port sort
        = py_list (list_tiles_missing_as_generator srv x y satellites acq_min acq_max datasets
                     database user password host port sort))
  /\ py_list (list_tiles_dtm_as_generator (server_of db_terrain) (PList [PInt 150])
                (PList [PInt (-34)]) (PList [ARG25]) (PStr "datacube") (PStr "u") (PStr "p")
                PNone PNone py_ASC)
     = inl [RTile (mk_tile_row None None None None None None 150 (-34) (150, -34)
                     [("DSM", "/dsm"); ("DEM", "/dem");
                      ("DEM_HYDROLOGICALLY_ENFORCED", "/dem_h");
                      ("DEM_SMOOTHED", "/dem_s")]%string)]
  /\ list_tiles_dtm_as_list (server_of db_terrain) (PList [PInt 150]) (PList [PInt (-34)])
       (PList [ARG25]) (PStr "datacube") (PStr "u") (PStr "p") PNone PNone py_ASC
     = inr AttributeError.
Proof.
  split; [intros; repeat split|split; vm_compute; reflexivity].
Qed.

(** C5: [list_cells_missing_to_file] writes nothing for every input (its
    SQL text names [%(acq_min)s] and [%(acq_max)s] while its params dict
    binds [year] only, so [mogrify] raises [KeyError], which the handler
    swallows), whereas [list_cells_missing_as_list] over the same year
    returns cell (150, -34); [list_cells_to_file] does export that filter's
    cells of [db_full]. *)
Theorem missing_cells_export_writes_nothing :
  (forall srv x y satellites years datasets filename database user password host port sort,
     ex_text (list_cells_missing_to_file srv x y satellites years datasets filename database
                user password host port sort) = EmptyString)
  /\ list_cells_missing_to_file (server_of db_nbar_only) (PList [PInt 150]) (PList [PInt (-34)])
       (PList [LS5]) (PList [PInt 2014]) (PList [ARG25]) PNone (PStr "datacube") (PStr "u")
       (PStr "p") PNone PNone py_ASC
     = mk_export None EmptyString None
  /\ list_cells_missing_as_list (server_of db_nbar_only) (PList [PInt 150]) (PList [PInt (-34)])
       (PList [LS5]) (PDate (mk_ts 2014 1 1 0)) (PDate (mk_ts 2014 12 31 0)) (PList [ARG25])
       (PStr "datacube") (PStr "u") (PStr "p") PNone PNone py_ASC
     = inl [RCell (150, -34)]
  /\ ex_text (list_cells_to_file (server_of db_full) (PList [PInt 150]) (PList [PInt (-34)])
       (PList [LS5]) (PList [PInt 2014]) (PList [ARG25]) PNone (PStr "datacube") (PStr "u")
       (PStr "p") PNone PNone py_ASC)
     = ("x_index,y_index" ++ nl ++ "150,-34" ++ nl)%string.
Proof.
  split.
  - intros. unfold list_cells_missing_to_file, run_to_file, build_years.
    destruct (srv_connect _ _); [|reflexivity].
    destruct (py_value _); [|reflexivity].
    destruct (py_values _); reflexivity.
  - repeat split; vm_compute; reflexivity.
Qed.

(** C6: the missing-tiles listing is ordered by cell, not by end
    timestamp: with ASC, the June acquisition over (149, -34) comes before
    the March acquisition over (150, -34). *)
Theorem tiles_missing_not_by_end_time :
  exists t1 t2,
    list_tiles_missing_as_list (server_of db_two_missing) (PList [PInt 149; PInt 150])
      (PList [PInt (-34)]) (PList [LS5]) (PDate (mk_ts 2014 1 1 0))
      (PDate (mk_ts 2014 12 31 0)) (PList [ARG25]) (PStr "datacube") (PStr "u") (PStr "p")
      PNone PNone py_ASC
    = inl [RTile t1; RTile t2]
    /\ tr_end_datetime t1 = Some (mk_ts 2014 6 15 36030)
    /\ tr_end_datetime t2 = Some (mk_ts 2014 3 2 36030)
    /\ tile_le ASC t1 t2 = false.
Proof.
  do 2 eexists. split; [vm_compute; reflexivity|].
  vm_compute. repeat split.
Qed.

(** C7: [tile_list] over a [TimeInterval] returns an acquisition whose end
    timestamp equals the interval's end, and one ending after it on the
    end's calendar day, because [list_tiles] filters with the inclusive
    [end_datetime::date between %(acq_min)s and %(acq_max)s]. *)
Theorem tile_list_includes_interval_end :
  exists ti1 ti2 t1 t2,
    make_TimeInterval (PDatetime (mk_ts 2013 1 1 0)) (PDatetime (mk_ts 2014 6 15 36030))
      = inl ti1
    /\ tile_list (server_of db_full)
         (mk_DbCredentials (PStr "datacube") (PStr "u") (PStr "p") PNone PNone)
         (PList [PInt 150]) (PList [PInt (-34)]) (PList [LS5]) ti1 (PList [ARG25]) py_ASC
       = inl [RTile t1]
    /\ tr_end_datetime t1 = Some (mk_ts 2014 6 15 36030)
    /\ make_TimeInterval (PDatetime (mk_ts 2013 1 1 0)) (PDatetime (mk_ts 2014 6 15 0))
       = inl ti2
    /\ tile_list (server_of db_full)
         (mk_DbCredentials (PStr "datacube") (PStr "u") (PStr "p") PNone PNone)
         (PList [PInt 150]) (PList [PInt (-34)]) (PList [LS5]) ti2 (PList [ARG25]) py_ASC
       = inl [RTile t2]
    /\ tr_end_datetime t2 = Some (mk_ts 2014 6 15 36030).
Proof.
  do 4 eexists.
  split; [reflexivity|]. split; [vm_compute; reflexivity|]. split; [reflexivity|].
  split; [reflexivity|]. split; [vm_compute; reflexivity|]. reflexivity.
Qed.

(** ** Membership through select distinct, order by and the joins *)

Section Distinct.
Context {A : Type} (eqb : A -> A -> bool).
Hypothesis eqb_spec : forall a b, eqb a b = true <-> a = b.

Lemma existsb_eqb_in (a : A) (l : list A) : existsb (eqb a) l = true <-> In a l.
  Proof.
    rewrite existsb_exists. split.
    - intros [y [Hy E]]. apply eqb_spec in E. subst. exact Hy.
    - intros H. exists a. split; [exact H|apply eqb_spec; reflexivity].
  Qed.

Lemma In_distinct_aux (seen l : list A) (x : A) :
    In x (distinct_aux eqb seen l) <-> In x l /\ ~ In x seen.
  Proof.
    revert seen. induction l as [|a r IH]; intros seen; simpl; [tauto|].
    destruct (existsb (eqb a) seen) eqn:E.
    - apply existsb_eqb_in in E. rewrite IH. split.
      + intros [H1 H2]. split; [right; exact H1|exact H2].
      + intros [[<-|H1] H2]; [contradiction|split; assumption].
    - assert (Na : ~ In a seen) by (intros H; apply existsb_eqb_in in H; congruence).
      simpl. rewrite IH. simpl. split.
      + intros [<-|[H1 H2]]; [split; [left; reflexivity|exact Na]|].
        split; [right; exact H1|tauto].
      + intros [[<-|H1] H2]; [left; reflexivity|].
        destruct (eqb a x) eqn:F; [left; apply eqb_spec; exact F|].
        right. split; [exact H1|]. intros [<-|H3]; [|contradiction].
        assert (T : eqb a a = true) by (apply eqb_spec; reflexivity). congruence.
  Qed.

Lemma NoDup_distinct_aux (seen l : list A) : NoDup (distinct_aux eqb seen l).
  Proof.
    revert seen. induction l as [|a r IH]; intros seen; simpl; [constructor|].
    destruct (existsb (eqb a) seen); [apply IH|].
    constructor; [|apply IH].
    rewrite In_distinct_aux. intros [_ H]. apply H. left. reflexivity.
  Qed.

Lemma In_distinct (l : list A) (x : A) : In x (distinct eqb l) <-> In x l.
  Proof. unfold distinct. rewrite In_distinct_aux. simpl. tauto. Qed.

Lemma NoDup_distinct (l : list A) : NoDup (distinct eqb l).
  Proof. apply NoDup_distinct_aux. Qed.
End Distinct.

Lemma cell_eqb_spec (a b : cell) : cell_eqb a b = true <-> a = b.
Proof.
  destruct a as [a1 a2], b as [b1 b2]. unfold cell_eqb. simpl.
  rewrite andb_true_iff, !Z.eqb_eq. split.
  - intros [-> ->]. reflexivity.
  - intros H. injection H as -> ->. split; reflexivity.
Qed.

Lemma In_isort {A} (le : A -> A -> bool) (l : list A) (x : A) :
  In x (isort le l) <-> In x l.
Proof.
  split; apply Permutation_in; [apply isort_perm|symmetry; apply isort_perm].
Qed.

Lemma NoDup_isort {A} (le : A -> A -> bool) (l : list A) :
  NoDup l -> NoDup (isort le l).
Proof. apply Permutation_NoDup. symmetry. apply isort_perm. Qed.

Lemma sql_eq_some (o : option Z) (z : Z) : sql_eq o (Some z) = true <-> o = Some z.
Proof.
  destruct o as [v|]; simpl; [rewrite Z.eqb_eq|]; split; congruence.
Qed.

(** The rows the left outer join keeps under [fc.acquisition_id is null]:
    an NBAR row of the acquisition with no FC row matching its join keys. *)
Lemma in_missing_join_null (d : db) a s n fo :
  In (a, s, n, fo) (missing_join d) /\ fc_is_null fo = true <->
  In a (acquisitions d) /\ In s (satellites d) /\ satellite_id s = a_satellite_id a /\
  In n (level_rows d ProcessingLevel.NBAR) /\ r_acquisition_id n = Some (acquisition_id a) /\
  (forall f, In f (level_rows d ProcessingLevel.FC) -> key_match a n f = false) /\ fo = None.
Proof.
  unfold missing_join. split.
  - intros [H Hnull]. apply in_flat_map in H as [a' [Ha H]].
    apply in_flat_map in H as [s' [Hs H]].
    destruct (Z.eqb (satellite_id s') (a_satellite_id a')) eqn:E1; [|contradiction].
    apply in_flat_map in H as [n' [Hn H]].
    destruct (sql_eq (r_acquisition_id n') (Some (acquisition_id a'))) eqn:E2;
      [|contradiction].
    destruct (filter (key_match a' n') (level_rows d ProcessingLevel.FC)) as [|f0 fs] eqn:E3.
    + destruct H as [H|[]]. injection H as Ea Es En Ef. subst a' s' n' fo.
      apply Z.eqb_eq in E1. apply sql_eq_some in E2.
      repeat split; try assumption.
      intros f Hf. destruct (key_match a n f) eqn:K; [|reflexivity].
      assert (Hin : In f (filter (key_match a n) (level_rows d ProcessingLevel.FC)))
        by (apply filter_In; split; assumption).
      rewrite E3 in Hin. contradiction.
    + rewrite <- E3 in H. apply in_map_iff in H as [f [Hf Hin]].
      injection Hf as Ea Es En Ef. subst a' s' n' fo.
      apply filter_In in Hin as [_ K].
      unfold key_match in K. simpl in Hnull.
      destruct (r_acquisition_id f); discriminate.
  - intros (Ha & Hs & E1 & Hn & E2 & Hf & ->). split; [|reflexivity].
    apply in_flat_map. exists a. split; [exact Ha|].
    apply in_flat_map. exists s. split; [exact Hs|].
    rewrite E1, Z.eqb_refl.
    apply in_flat_map. exists n. split; [exact Hn|].
    assert (E2' : sql_eq (r_acquisition_id n) (Some (acquisition_id a)) = true)
      by (apply sql_eq_some; exact E2).
    rewrite E2', (filter_all_false _ _ Hf). left. reflexivity.
Qed.

(** C4: the missing-cells and missing-tiles listings (generators, lists,
    deprecated aliases) and the missing-cells export give the same result
    for any two [datasets] arguments; the statement they run keeps exactly
    the NBAR (level 2) rows of a selected acquisition for which no FC
    (level 4) row matches the join keys. *)
Theorem missing_listings_ignore_datasets :
  (forall srv x y satellites acq_min acq_max ds1 ds2 database user password host port sort,
     list_cells_missing_as_generator srv x y satellites acq_min acq_max ds1 database user
       password host port sort
     = list_cells_missing_as_generator srv x y satellites acq_min acq_max ds2 database user
         password host port sort
     /\ list_cells_missing srv x y satellites acq_min acq_max ds1 database user password
          host port sort
        = list_cells_missing srv x y satellites acq_min acq_max ds2 database user password
            host port sort
     /\ list_cells_missing_as_list srv x y satellites acq_min acq_max ds1 database user
          password host port sort
        = list_cells_missing_as_list srv x y satellites acq_min acq_max ds2 database user
            password host port sort
     /\ list_tiles_missing_as_generator srv x y satellites acq_min acq_max ds1 database user
          password host port sort
        = list_tiles_missing_as_generator srv x y satellites acq_min acq_max ds2 database user
            password host port sort
     /\ list_tiles_missing srv x y satellites acq_min acq_max ds1 database user password
          host port sort
        = list_tiles_missing srv x y satellites acq_min acq_max ds2 database user password
            host port sort
     /\ list_tiles_missing_as_list srv x y satellites acq_min acq_max ds1 database user
          password host port sort
        = list_tiles_missing_as_list srv x y satellites acq_min acq_max ds2 database user
            password host port sort)
  /\ (forall srv x y satellites years ds1 ds2 filename database user password host port sort,
        list_cells_missing_to_file srv x y satellites years ds1 filename database user password
          host port sort
        = list_cells_missing_to_file srv x y satellites years ds2 filename database user
            password host port sort)
  /\ (forall d p c,
        In c (q_cells_missing d p) <->
        exists a s n,
          In a (acquisitions d) /\ In s (satellites d) /\ satellite_id s = a_satellite_id a /\
          In n (level_rows d ProcessingLevel.NBAR) /\
          r_acquisition_id n = Some (acquisition_id a) /\
          (forall f, In f (level_rows d ProcessingLevel.FC) -> key_match a n f = false) /\
          where_common p a s n = true /\ c = (r_x_index n, r_y_index n))
  /\ (forall d p t,
        In t (q_tiles_missing d p) <->
        exists a s n,
          In a (acquisitions d) /\ In s (satellites d) /\ satellite_id s = a_satellite_id a /\
          In n (level_rows d ProcessingLevel.NBAR) /\
          r_acquisition_id n = Some (acquisition_id a) /\
          (forall f, In f (level_rows d ProcessingLevel.FC) -> key_match a n f = false) /\
          where_common p a s n = true /\
          t = acq_row a s n [("ARG25", r_tile_pathname n)]%string).
Proof.
  split; [intros; repeat split|].
  split; [reflexivity|].
  split.
  - intros d p c. unfold q_cells_missing.
    rewrite In_isort, (In_distinct _ cell_eqb_spec), in_map_iff. split.
    + intros [[[[a s] n] fo] [Hc Hin]]. apply filter_In in Hin as [Hin W].
      apply andb_true_iff in W as [W N].
      destruct (proj1 (in_missing_join_null d a s n fo) (conj Hin N))
        as (Ha & Hs & E1 & Hn & E2 & Hf & _).
      exists a, s, n. repeat split; auto.
    + intros (a & s & n & Ha & Hs & E1 & Hn & E2 & Hf & W & ->).
      exists (a, s, n, None). split; [reflexivity|].
      apply filter_In. split; [apply in_missing_join_null; repeat split; auto|].
      simpl. rewrite W. reflexivity.
  - intros d p t. unfold q_tiles_missing.
    rewrite In_isort, in_map_iff. split.
    + intros [[[[a s] n] fo] [Ht Hin]]. apply filter_In in Hin as [Hin W].
      apply andb_true_iff in W as [W N].
      destruct (proj1 (in_missing_join_null d a s n fo) (conj Hin N))
        as (Ha & Hs & E1 & Hn & E2 & Hf & _).
      exists a, s, n. repeat split; auto.
    + intros (a & s & n & Ha & Hs & E1 & Hn & E2 & Hf & W & ->).
      exists (a, s, n, None). split; [reflexivity|].
      apply filter_In. split; [apply in_missing_join_null; repeat split; auto|].
      simpl. rewrite W. reflexivity.
Qed.

(** The rows of the inner joins: an acquisition, its satellite, and rows of
    the three levels that agree on the join keys. *)
Lemma in_present_join (d : db) (l1 l2 l3 : Z) a s n q f :
  In (a, s, n, q, f) (present_join d l1 l2 l3) <->
  In a (acquisitions d) /\ In s (satellites d) /\ satellite_id s = a_satellite_id a /\
  In n (level_rows d l1) /\ r_acquisition_id n = Some (acquisition_id a) /\
  In q (level_rows d l2) /\ key_match a n q = true /\
  In f (level_rows d l3) /\ key_match a n f = true.
Proof.
  unfold present_join. split.
  - intros H. apply in_flat_map in H as [a' [Ha H]].
    apply in_flat_map in H as [s' [Hs H]].
    destruct (Z.eqb (satellite_id s') (a_satellite_id a')) eqn:E1; [|contradiction].
    apply in_flat_map in H as [n' [Hn H]].
    destruct (sql_eq (r_acquisition_id n') (Some (acquisition_id a'))) eqn:E2;
      [|contradiction].
    apply in_flat_map in H as [q' [Hq H]].
    destruct (key_match a' n' q') eqn:E3; [|contradiction].
    apply in_flat_map in H as [f' [Hf H]].
    destruct (key_match a' n' f') eqn:E4; [|contradiction].
    destruct H as [H|[]]. injection H as Ea Es En Eq Ef. subst a' s' n' q' f'.
    apply Z.eqb_eq in E1. apply sql_eq_some in E2.
    repeat split; assumption.
  - intros (Ha & Hs & E1 & Hn & E2 & Hq & E3 & Hf & E4).
    apply in_flat_map. exists a. split; [exact Ha|].
    apply in_flat_map. exists s. split; [exact Hs|].
    rewrite E1, Z.eqb_refl.
    apply in_flat_map. exists n. split; [exact Hn|].
    assert (E2' : sql_eq (r_acquisition_id n) (Some (acquisition_id a)) = true)
      by (apply sql_eq_some; exact E2).
    rewrite E2'.
    apply in_flat_map. exists q. split; [exact Hq|]. rewrite E3.
    apply in_flat_map. exists f. split; [exact Hf|]. rewrite E4.
    left. reflexivity.
Qed.

Lemma in_q_cells (d : db) (p : qparams) (l1 l2 l3 : Z) (c : cell) :
  In c (q_cells d p l1 l2 l3) <->
  exists a s n q f, In (a, s, n, q, f) (present_join d l1 l2 l3) /\
                    where_common p a s n = true /\ c = (r_x_index n, r_y_index n).
Proof.
  unfold q_cells. rewrite In_isort, (In_distinct _ cell_eqb_spec), in_map_iff. split.
  - intros [[[[[a s] n] q] f] [Hc Hin]]. apply filter_In in Hin as [Hin W].
    exists a, s, n, q, f. repeat split; auto.
  - intros (a & s & n & q & f & Hin & W & ->). exists (a, s, n, q, f).
    split; [reflexivity|]. apply filter_In. split; assumption.
Qed.

Lemma NoDup_q_cells (d : db) (p : qparams) (l1 l2 l3 : Z) : NoDup (q_cells d p l1 l2 l3).
Proof. unfold q_cells. apply NoDup_isort, (NoDup_distinct _ cell_eqb_spec). Qed.

Lemma int_list_map (xs : list Z) : int_list (map PInt xs) = Some xs.
Proof. induction xs as [|z r IH]; simpl; [reflexivity|]. rewrite IH. reflexivity. Qed.

Lemma text_list_map (ts : list string) : text_list (map PStr ts) = Some ts.
Proof. induction ts as [|t r IH]; simpl; [reflexivity|]. rewrite IH. reflexivity. Qed.

Lemma where_common_iff (p : qparams) a s n :
  where_common p a s n = true <->
  any_Z (r_tile_type_id n) (qp_tile_type p) = true /\
  any_Z (r_tile_class_id n) (qp_tile_class p) = true /\
  any_str (satellite_tag s) (qp_satellite p) = true /\
  any_Z (r_x_index n) (qp_x p) = true /\ any_Z (r_y_index n) (qp_y p) = true /\
  time_ok (qp_time p) (end_datetime a) = true.
Proof. unfold where_common. rewrite !andb_true_iff. tauto. Qed.

(** What [list_cells_as_list] returns once connected, with well-formed
    arguments: the rows of the present-cells statement at levels 2, 3, 4. *)
Lemma list_cells_as_list_rows (srv : server) (d : db) (xs ys : list Z) (tags : list string)
    (lo hi : ts) (dir : SortType) (sv : pyval)
    (x y sats acq_min acq_max datasets database user password host port sort : pyval) :
  srv_connect srv (connection_string host port database user password) = Some d ->
  x = PList (map PInt xs) -> y = PList (map PInt ys) ->
  py_values sats = inl (map PStr tags) ->
  dec_ts srv acq_min = Some lo -> dec_ts srv acq_max = Some hi ->
  py_value sort = inl sv -> dec_sort sv = Some dir ->
  list_cells_as_list srv x y sats acq_min acq_max datasets database user password host port
    sort
  = inl (map RCell (q_cells d (mk_qparams [TILE_TYPE] TILE_CLASSES tags xs ys
                                 (TBetween lo hi) dir)
                      ProcessingLevel.NBAR ProcessingLevel.PQA ProcessingLevel.FC)).
Proof.
  intros Hc -> -> Hs Hlo Hhi Hv Hd.
  unfold list_cells_as_list, list_cells_as_generator, run_generator, build_range.
  rewrite Hc, Hv, Hs.
  match goal with |- context [mogrify ?s ?ps] =>
    replace (mogrify s ps) with (@None exn) by reflexivity end.
  match goal with |- context [exec srv d ?s ?ps] =>
    replace (exec srv d s ps)
      with (inl (A := list row) (B := exn)
              (map RCell (q_cells d (mk_qparams [TILE_TYPE] TILE_CLASSES tags xs ys
                                       (TBetween lo hi) dir)
                            ProcessingLevel.NBAR ProcessingLevel.PQA ProcessingLevel.FC)))
  end.
  - unfold py_list. cbn [raised yielded]. rewrite result_generator_rows by lia. reflexivity.
  - unfold exec. cbn.
    rewrite int_list_map, text_list_map, int_list_map, Hlo, Hhi, Hd. reflexivity.
Qed.

Lemma any_Z_in (v : Z) (l : list Z) : any_Z v l = true <-> In v l.
Proof.
  unfold any_Z. rewrite existsb_exists. split.
  - intros [w [Hw E]]. apply Z.eqb_eq in E. subst. exact Hw.
  - intros H. exists v. split; [exact H|apply Z.eqb_refl].
Qed.

Lemma any_str_in (v : string) (l : list string) : any_str v l = true <-> In v l.
Proof.
  unfold any_str. rewrite existsb_exists. split.
  - intros [w [Hw E]]. apply String.eqb_eq in E. subst. exact Hw.
  - intros H. exists v. split; [exact H|apply String.eqb_refl].
Qed.

Lemma NoDup_q_cells_missing (d : db) (p : qparams) : NoDup (q_cells_missing d p).
Proof. unfold q_cells_missing. apply NoDup_isort, (NoDup_distinct _ cell_eqb_spec). Qed.

Lemma dec_qparams_sort_of (srv : server) (s : stmt) (ps : list (string * pyval)) (p : qparams) :
  dec_qparams srv s ps = Some p -> dec_sort (st_sort s) = Some (qp_sort p).
Proof.
  unfold dec_qparams. destruct (dec_sort (st_sort s)) as [so|] eqn:E.
  - destruct (st_time s); destruct_matches; intros H; try discriminate;
      injection H as <-; reflexivity.
  - destruct (st_time s); destruct_matches; discriminate.
Qed.

Lemma exec_cells_shape (srv : server) (d : db) (s : stmt) (ps : list (string * pyval))
    (dir : SortType) (rows : list row) :
  st_kind s = SCells \/ st_kind s = SCellsMissing -> dec_sort (st_sort s) = Some dir ->
  exec srv d s ps = inl rows ->
  exists cs, rows = map RCell cs /\ NoDup cs /\ Sorted (fun a b => cell_le dir a b = true) cs.
Proof.
  intros Hk Hd. unfold exec.
  destruct (dec_qparams srv s ps) as [p|] eqn:Ep.
  2:{ destruct Hk as [-> | ->]; cbv beta iota; discriminate. }
  pose proof (dec_qparams_sort_of _ _ _ _ Ep) as Hp. rewrite Hd in Hp. injection Hp as ->.
  destruct (dec_levels s ps) as [[[l1 l2] l3]|].
  2:{ destruct Hk as [-> | ->]; cbv beta iota; discriminate. }
  destruct Hk as [-> | ->]; cbv beta iota; intros H; injection H as <-; eexists;
    (split; [reflexivity|]).
  - split; [apply NoDup_q_cells|]. unfold q_cells.
    apply isort_sorted, cell_le_total.
  - split; [apply NoDup_q_cells_missing|]. unfold q_cells_missing.
    apply isort_sorted, cell_le_total.
Qed.

Lemma run_generator_cells_shape (srv : server) (host port database user password : pyval)
    (build : (stmt * list (string * pyval)) + exn) (dir : SortType) (rows : list row) :
  (forall s ps, build = inl (s, ps) ->
     (st_kind s = SCells \/ st_kind s = SCellsMissing) /\ dec_sort (st_sort s) = Some dir) ->
  py_list (run_generator srv host port database user password build) = inl rows ->
  exists cs, rows = map RCell cs /\ NoDup cs /\ Sorted (fun a b => cell_le dir a b = true) cs.
Proof.
  intros B. unfold run_generator.
  assert (Nil : forall rows, py_list (mk_gen [] None) = inl rows ->
            exists cs, rows = map RCell cs /\ NoDup cs
                       /\ Sorted (fun a b => cell_le dir a b = true) cs).
  { intros r H. injection H as <-. exists []. split; [reflexivity|]. split; constructor. }
  destruct (srv_connect srv _) as [d|]; [|discriminate].
  destruct build as [[s ps]|e]; [|apply Nil].
  destruct (B s ps eq_refl) as [Hk Hd].
  destruct (mogrify s ps); [apply Nil|].
  destruct (exec srv d s ps) as [r|e] eqn:Ex; [|apply Nil].
  unfold py_list. cbn [raised yielded]. rewrite result_generator_rows by lia.
  intros H. injection H as <-. exact (exec_cells_shape _ _ _ _ _ _ Hk Hd Ex).
Qed.

Lemma cell_le_before (dir : SortType) (a b : cell) :
  cell_le dir a b = true -> a <> b -> cell_before dir a b.
Proof.
  destruct a as [a1 a2], b as [b1 b2].
  destruct dir; unfold cell_le, cell_le_asc, cell_before; cbn [fst snd];
    rewrite orb_true_iff, andb_true_iff, Z.ltb_lt, Z.eqb_eq, Z.leb_le;
    intros H N.
  - destruct H as [H|[-> H]]; [left; exact H|right; split; [reflexivity|]].
    destruct (Z.eq_dec a2 b2) as [->|]; [exfalso; apply N; reflexivity | lia].
  - destruct H as [H|[-> H]]; [left; lia|right; split; [reflexivity|]].
    destruct (Z.eq_dec a2 b2) as [->|]; [exfalso; apply N; reflexivity | lia].
Qed.

Lemma cells_strictly_sorted (dir : SortType) (cs : list cell) :
  NoDup cs -> Sorted (fun a b => cell_le dir a b = true) cs -> StronglySorted (cell_before dir) cs.
Proof.
  intros Nd Hs.
  assert (T : Relations_1.Transitive (fun a b => cell_le dir a b = true)).
  { intros a b c H1 H2. destruct dir; simpl in *;
      [exact (cell_le_asc_trans _ _ _ H1 H2) | exact (cell_le_asc_trans _ _ _ H2 H1)]. }
  apply Sorted_StronglySorted in Hs; [|exact T].
  induction Hs as [|a l Hl IH Hf]; constructor.
  - apply IH. inversion Nd; assumption.
  - inversion Nd as [|a' l' Na Nl]; subst.
    rewrite Forall_forall in Hf |- *. intros b Hb.
    apply cell_le_before; [exact (Hf b Hb)|]. intros ->. exact (Na Hb).
Qed.

(** C9: for the cell listings, with identical inputs, [SortType.DESC] yields
    exactly the reverse of the sequence obtained with [SortType.ASC] (and so
    the same members); and a listing returned for [SortType.ASC] or
    [SortType.DESC] is a list of distinct (x, y) cells ordered by x and then
    by y, both keys in the requested direction. *)
Theorem cell_listings_desc_reverses_asc (srv : server)
    (x y satellites acq_min acq_max datasets database user password host port : pyval) :
  list_cells_as_list srv x y satellites acq_min acq_max datasets database user password
    host port py_DESC
  = rev_rows (list_cells_as_list srv x y satellites acq_min acq_max datasets database user
                password host port py_ASC)
  /\ list_cells_missing_as_list srv x y satellites acq_min acq_max datasets database user
       password host port py_DESC
     = rev_rows (list_cells_missing_as_list srv x y satellites acq_min acq_max datasets
                   database user password host port py_ASC)
  /\ (forall (sort : pyval) (dir : SortType) (rows : list row),
        (sort = py_ASC /\ dir = ASC) \/ (sort = py_DESC /\ dir = DESC) ->
        list_cells_as_list srv x y satellites acq_min acq_max datasets database user password
          host port sort = inl rows
        \/ list_cells_missing_as_list srv x y satellites acq_min acq_max datasets database user
              password host port sort = inl rows ->
        exists cs, rows = map RCell cs /\ NoDup cs /\ StronglySorted (cell_before dir) cs).
Proof.
  split; [|split].
  1, 2: unfold list_cells_as_list, list_cells_as_generator, list_cells_missing_as_list,
          list_cells_missing_as_generator, build_range;
        cbn [py_value py_DESC py_ASC];
        destruct (py_values satellites) as [sats|e];
        [ apply run_generator_rev; intros d; apply exec_cells_desc; auto
        | unfold run_generator; destruct (srv_connect srv _); reflexivity ].
  intros sort dir rows Hsd Hl.
  assert (B : forall k lv extra s ps,
             build_range k lv extra x y satellites acq_min acq_max sort = inl (s, ps) ->
             st_kind s = k /\ dec_sort (st_sort s) = Some dir).
  { intros k lv extra s ps.
    destruct Hsd as [[-> ->]|[-> ->]]; unfold build_range; cbn [py_value py_ASC py_DESC];
      (destruct (py_values satellites); [|discriminate]);
      intros H; injection H as <- _; split; reflexivity. }
  assert (Sh : exists cs, rows = map RCell cs /\ NoDup cs
                          /\ Sorted (fun a b => cell_le dir a b = true) cs).
  { destruct Hl as [Hl|Hl];
      [ unfold list_cells_as_list, list_cells_as_generator in Hl
      | unfold list_cells_missing_as_list, list_cells_missing_as_generator in Hl ];
      (apply run_generator_cells_shape with (dir := dir) in Hl; [exact Hl|]);
      intros s ps Hb; destruct (B _ _ _ _ _ Hb) as [Hk Hd]; (split; [|exact Hd]);
      rewrite Hk; [left|right]; reflexivity. }
  destruct Sh as (cs & -> & Nd & Ss). exists cs. split; [reflexivity|]. split; [exact Nd|].
  apply cells_strictly_sorted; assumption.
Qed.

(** C1 (as the code has it): once connected, [list_cells_as_list] returns,
    whatever [datasets] holds, the distinct cells (x, y) for which an
    acquisition of a listed satellite, with end date within
    [acq_min, acq_max], has an NBAR (level 2), a PQA (level 3) and an FC
    (level 4) tile row with identical join keys (acquisition, x, y, tile
    type, tile class), the NBAR row having tile type 1, tile class 1 or 4,
    and x and y in the requested lists. *)
Theorem list_cells_present_cells (srv : server) (d : db) (xs ys : list Z)
    (tags : list string) (lo hi : ts) (dir : SortType) (sv : pyval)
    (x y sats acq_min acq_max datasets database user password host port sort : pyval) :
  srv_connect srv (connection_string host port database user password) = Some d ->
  x = PList (map PInt xs) -> y = PList (map PInt ys) ->
  py_values sats = inl (map PStr tags) ->
  dec_ts srv acq_min = Some lo -> dec_ts srv acq_max = Some hi ->
  py_value sort = inl sv -> dec_sort sv = Some dir ->
  exists cs,
    list_cells_as_list srv x y sats acq_min acq_max datasets database user password host port
      sort = inl (map RCell cs)
    /\ NoDup cs
    /\ forall c, In c cs <->
         exists a s n q f,
           In a (acquisitions d) /\ In s (satellites d) /\
           satellite_id s = a_satellite_id a /\ In (satellite_tag s) tags /\
           ts_le lo (date_of (end_datetime a)) = true /\
           ts_le (date_of (end_datetime a)) hi = true /\
           In n (level_rows d ProcessingLevel.NBAR) /\
           r_acquisition_id n = Some (acquisition_id a) /\
           In q (level_rows d ProcessingLevel.PQA) /\ key_match a n q = true /\
           In f (level_rows d ProcessingLevel.FC) /\ key_match a n f = true /\
           In (r_tile_type_id n) [TILE_TYPE] /\ In (r_tile_class_id n) TILE_CLASSES /\
           In (r_x_index n) xs /\ In (r_y_index n) ys /\
           c = (r_x_index n, r_y_index n).
Proof.
  intros Hc Hx Hy Hs Hlo Hhi Hv Hd.
  rewrite (list_cells_as_list_rows srv d xs ys tags lo hi dir sv) by assumption.
  eexists. split; [reflexivity|]. split; [apply NoDup_q_cells|].
  intros c. rewrite in_q_cells. split.
  - intros (a & s & n & q & f & Hin & W & ->).
    apply in_present_join in Hin as (Ha & Hs' & E1 & Hn & E2 & Hq & E3 & Hf & E4).
    apply where_common_iff in W as (T1 & T2 & T3 & T4 & T5 & T6).
    cbn [qp_tile_type qp_tile_class qp_satellite qp_x qp_y qp_time time_ok] in T1, T2, T3, T4, T5, T6.
    apply andb_true_iff in T6 as [T6 T7].
    apply any_Z_in in T1, T2, T4, T5. apply any_str_in in T3.
    exists a, s, n, q, f. repeat split; assumption.
  - intros (a & s & n & q & f & Ha & Hs' & E1 & T3 & T6 & T7 & Hn & E2 & Hq & E3 & Hf & E4
            & T1 & T2 & T4 & T5 & ->).
    exists a, s, n, q, f. split; [apply in_present_join; repeat split; assumption|].
    split; [|reflexivity].
    apply where_common_iff. cbn [qp_tile_type qp_tile_class qp_satellite qp_x qp_y qp_time time_ok].
    apply any_Z_in in T1, T2, T4, T5. apply any_str_in in T3.
    rewrite T6, T7. repeat split; assumption.
Qed.

Lemma list_cells_present_cells_witness :
  exists cs,
    list_cells_as_list (server_of db_full) (PList [PInt 150]) (PList [PInt (-34)]) (PList [LS5])
      (PDate (mk_ts 2014 1 1 0)) (PDate (mk_ts 2014 12 31 0)) (PList [ARG25])
      (PStr "datacube") (PStr "u") (PStr "p") PNone PNone py_ASC = inl (map RCell cs)
    /\ NoDup cs.
Proof.
  destruct (list_cells_present_cells (server_of db_full) db_full [150] [-34] ["LS5"%string]
              (mk_ts 2014 1 1 0) (mk_ts 2014 12 31 0) ASC (PStr "asc")
              (PList [PInt 150]) (PList [PInt (-34)]) (PList [LS5])
              (PDate (mk_ts 2014 1 1 0)) (PDate (mk_ts 2014 12 31 0)) (PList [ARG25])
              (PStr "datacube") (PStr "u") (PStr "p") PNone PNone py_ASC)
    as [cs [H1 [H2 _]]]; try reflexivity.
  exists cs. split; assumption.
Defined.

(** C1, where the code departs from its stated intent: the comment above
    list_cells_as_generator says the datasets are the required ones, but the
    statement never reads [datasets] and always joins NBAR, PQA and FC. With
    [datasets=[ARG25]] (NBAR only) and a cell holding only an NBAR row for
    the acquisition, the listing is empty. *)
Lemma list_cells_requires_all_three_levels :
  level_rows db_nbar_only ProcessingLevel.NBAR
    = [mk_lrow (Some 10) 101 150 (-34) "/nbar" 1 1]
  /\ list_cells_as_list (server_of db_nbar_only) (PList [PInt 150]) (PList [PInt (-34)])
       (PList [LS5]) (PDate (mk_ts 2014 1 1 0)) (PDate (mk_ts 2014 12 31 0)) (PList [ARG25])
       (PStr "datacube") (PStr "u") (PStr "p") PNone PNone py_ASC
     = inl [].
Proof. split; vm_compute; reflexivity. Qed.

(** ** The mandatory filter: tiles outside type 1 and classes 1, 4 never
    reach a result *)

Lemma flat_map_filter_if {A B} (M : A -> bool) (f : A -> list B) (l : list A) :
  flat_map f (filter M l) = flat_map (fun x => if M x then f x else []) l.
Proof.
  induction l as [|x r IH]; simpl; [reflexivity|].
  destruct (M x); simpl; rewrite IH; reflexivity.
Qed.

Lemma flat_map_nil {A B} (f : A -> list B) (l : list A) :
  (forall x, f x = []) -> flat_map f l = [].
Proof. intros H. induction l as [|x r IH]; simpl; [reflexivity|]. rewrite H, IH. reflexivity. Qed.

Lemma filter_all_true {A} (P : A -> bool) (l : list A) :
  (forall x, In x l -> P x = true) -> filter P l = l.
Proof.
  induction l as [|x r IH]; intros H; simpl; [reflexivity|].
  rewrite (H x (or_introl eq_refl)), IH; [reflexivity|]. intros; apply H; right; assumption.
Qed.

Lemma level_rows_restrict (d : db) (L : Z) :
  level_rows (restrict_db d) L = filter mandatory_row (level_rows d L).
Proof.
  unfold level_rows, restrict_db. cbn [tiles datasets].
  rewrite filter_flat_map, flat_map_filter_if. apply flat_map_ext_in. intros t _.
  rewrite filter_flat_map. destruct (mandatory_tile t) eqn:M.
  - apply flat_map_ext_in. intros ds _.
    destruct (_ && _); simpl; [|reflexivity].
    unfold mandatory_row. cbn [r_tile_type_id r_tile_class_id].
    unfold mandatory_tile in M. rewrite M. reflexivity.
  - symmetry. apply flat_map_nil. intros ds.
    destruct (_ && _); simpl; [|reflexivity].
    unfold mandatory_row. cbn [r_tile_type_id r_tile_class_id].
    unfold mandatory_tile in M. rewrite M. reflexivity.
Qed.

Lemma key_match_mandatory (a : acquisition) (n q : lrow) :
  key_match a n q = true -> mandatory_row q = mandatory_row n.
Proof.
  unfold key_match, mandatory_row. rewrite !andb_true_iff, !Z.eqb_eq.
  intros [[[[_ _] _] -> ] ->]. reflexivity.
Qed.

Lemma grid_match_mandatory (n q : lrow) :
  grid_match n q = true -> mandatory_row q = mandatory_row n.
Proof.
  unfold grid_match, mandatory_row. rewrite !andb_true_iff, !Z.eqb_eq.
  intros [[[_ _] -> ] ->]. reflexivity.
Qed.

(** A secondary row joined on the keys of a kept NBAR row is kept too. *)
Ltac skip_secondary :=
  match goal with M : mandatory_row ?n = true |- _ =>
    intros ?q ?Mq;
    match goal with |- context [if ?c then _ else _] =>
      let K := fresh "K" in
      destruct c eqn:K; [|reflexivity];
      repeat match type of K with
             | _ && _ = true => apply andb_true_iff in K as [K ?K]
             end;
      first [ apply key_match_mandatory in K | apply grid_match_mandatory in K ];
      congruence
    end
  end.

Lemma present_join_restrict (d : db) (l1 l2 l3 : Z) :
  present_join (restrict_db d) l1 l2 l3
  = filter (fun '(a, s, n, q, f) => mandatory_row n) (present_join d l1 l2 l3).
Proof.
  unfold present_join. rewrite !level_rows_restrict. cbn [acquisitions satellites restrict_db].
  rewrite filter_flat_map. apply flat_map_ext_in. intros a _.
  rewrite filter_flat_map. apply flat_map_ext_in. intros s _.
  destruct (Z.eqb _ _); [|reflexivity].
  rewrite filter_flat_map, flat_map_filter_if. apply flat_map_ext_in. intros n _.
  destruct (mandatory_row n) eqn:M.
  - destruct (sql_eq _ _); [|reflexivity].
    rewrite flat_map_filter_skip by skip_secondary.
    rewrite filter_flat_map. apply flat_map_ext_in. intros q _.
    destruct (key_match a n q); [|reflexivity].
    rewrite flat_map_filter_skip by skip_secondary.
    rewrite filter_flat_map. apply flat_map_ext_in. intros f _.
    destruct (key_match a n f); simpl; [rewrite M|]; reflexivity.
  - destruct (sql_eq _ _); [|reflexivity].
    symmetry. rewrite filter_flat_map. apply flat_map_nil. intros q.
    destruct (key_match a n q); [|reflexivity].
    rewrite filter_flat_map. apply flat_map_nil. intros f.
    destruct (key_match a n f); simpl; [rewrite M|]; reflexivity.
Qed.

Lemma missing_join_restrict (d : db) :
  missing_join (restrict_db d)
  = filter (fun '(a, s, n, fo) => mandatory_row n) (missing_join d).
Proof.
  unfold missing_join. rewrite !level_rows_restrict. cbn [acquisitions satellites restrict_db].
  rewrite filter_flat_map. apply flat_map_ext_in. intros a _.
  rewrite filter_flat_map. apply flat_map_ext_in. intros s _.
  destruct (Z.eqb _ _); [|reflexivity].
  rewrite filter_flat_map, flat_map_filter_if. apply flat_map_ext_in. intros n _.
  destruct (sql_eq _ _); [|destruct (mandatory_row n); reflexivity].
  destruct (mandatory_row n) eqn:M.
  - rewrite filter_filter_weaker
      by (intros f K; apply key_match_mandatory in K; congruence).
    symmetry. apply filter_all_true. intros [[[a' s'] n'] fo] Hin.
    destruct (filter (key_match a n) _) as [|f0 fs].
    + destruct Hin as [Hin|[]]. injection Hin as _ _ <- _. exact M.
    + apply in_map_iff in Hin as [f [Hf _]]. injection Hf as _ _ <- _. exact M.
  - symmetry. apply filter_all_false. intros [[[a' s'] n'] fo] Hin.
    destruct (filter (key_match a n) _) as [|f0 fs].
    + destruct Hin as [Hin|[]]. injection Hin as _ _ <- _. exact M.
    + apply in_map_iff in Hin as [f [Hf _]]. injection Hf as _ _ <- _. exact M.
Qed.

Lemma where_common_mandatory (p : qparams) a s n :
  qp_tile_type p = [TILE_TYPE] -> qp_tile_class p = TILE_CLASSES ->
  where_common p a s n = true -> mandatory_row n = true.
Proof.
  intros T C W. apply where_common_iff in W as (T1 & T2 & _).
  rewrite T in T1. rewrite C in T2. unfold mandatory_row. rewrite T1, T2. reflexivity.
Qed.

Section Restrict.
Variable p : qparams.
Hypothesis Htype : qp_tile_type p = [TILE_TYPE].
Hypothesis Hclass : qp_tile_class p = TILE_CLASSES.

Lemma q_cells_restrict (d : db) (l1 l2 l3 : Z) :
    q_cells (restrict_db d) p l1 l2 l3 = q_cells d p l1 l2 l3.
  Proof.
    unfold q_cells. rewrite present_join_restrict, filter_filter_weaker; [reflexivity|].
    intros [[[[a s] n] q] f]. apply where_common_mandatory; assumption.
  Qed.

Lemma q_tiles_restrict (d : db) : q_tiles (restrict_db d) p = q_tiles d p.
  Proof.
    unfold q_tiles. rewrite present_join_restrict, filter_filter_weaker; [reflexivity|].
    intros [[[[a s] n] q] f]. apply where_common_mandatory; assumption.
  Qed.

Lemma q_cells_missing_restrict (d : db) :
    q_cells_missing (restrict_db d) p = q_cells_missing d p.
  Proof.
    unfold q_cells_missing. rewrite missing_join_restrict, filter_filter_weaker; [reflexivity|].
    intros [[[a s] n] fo] W. apply andb_true_iff in W as [W _].
    revert W. apply where_common_mandatory; assumption.
  Qed.

Lemma q_tiles_missing_restrict (d : db) :
    q_tiles_missing (restrict_db d) p = q_tiles_missing d p.
  Proof.
    unfold q_tiles_missing. rewrite missing_join_restrict, filter_filter_weaker; [reflexivity|].
    intros [[[a s] n] fo] W. apply andb_true_iff in W as [W _].
    revert W. apply where_common_mandatory; assumption.
  Qed.
End Restrict.

Lemma q_tiles_dtm_restrict (d : db) (p : dparams) :
  dp_tile_type p = [TILE_TYPE] -> dp_tile_class p = TILE_CLASSES ->
  q_tiles_dtm (restrict_db d) p = q_tiles_dtm d p.
Proof.
  intros T C. unfold q_tiles_dtm. rewrite !level_rows_restrict, flat_map_filter_if.
  apply flat_map_ext_in. intros dsm _.
  destruct (mandatory_row dsm) eqn:M.
  - rewrite flat_map_filter_skip by skip_secondary.
    apply flat_map_ext_in. intros dem _. destruct (grid_match dsm dem); [|reflexivity].
    rewrite flat_map_filter_skip by skip_secondary.
    apply flat_map_ext_in. intros dem_s _. destruct (grid_match dsm dem_s); [|reflexivity].
    rewrite flat_map_filter_skip by skip_secondary. reflexivity.
  - symmetry. apply flat_map_nil. intros dem. destruct (grid_match dsm dem); [|reflexivity].
    apply flat_map_nil. intros dem_s. destruct (grid_match dsm dem_s); [|reflexivity].
    apply flat_map_nil. intros dem_h.
    rewrite T, C. unfold mandatory_row in M.
    destruct (any_Z (r_tile_type_id dsm) [TILE_TYPE]) eqn:T1;
      destruct (any_Z (r_tile_class_id dsm) TILE_CLASSES) eqn:T2;
      try discriminate; rewrite !andb_false_r; reflexivity.
Qed.

Lemma lookup_tile_type (r : list (string * pyval)) :
  lookup (mandatory_params ++ r) "tile_type" = Some (PList [PInt TILE_TYPE]).
Proof. reflexivity. Qed.

Lemma lookup_tile_class (r : list (string * pyval)) :
  lookup (mandatory_params ++ r) "tile_class" = Some (PList (map PInt TILE_CLASSES)).
Proof. reflexivity. Qed.

Lemma dec_qparams_mandatory (srv : server) (s : stmt) (r : list (string * pyval))
    (p : qparams) :
  dec_qparams srv s (mandatory_params ++ r) = Some p ->
  qp_tile_type p = [TILE_TYPE] /\ qp_tile_class p = TILE_CLASSES.
Proof.
  unfold dec_qparams. rewrite lookup_tile_type, lookup_tile_class.
  cbn [dec_int_array int_list map TILE_CLASSES].
  destruct_matches; intros H; try discriminate. injection H as <-. split; reflexivity.
Qed.

Lemma dec_dparams_mandatory (r : list (string * pyval)) (p : dparams) :
  dec_dparams (mandatory_params ++ r) = Some p ->
  dp_tile_type p = [TILE_TYPE] /\ dp_tile_class p = TILE_CLASSES.
Proof.
  unfold dec_dparams. rewrite lookup_tile_type, lookup_tile_class.
  cbn [dec_int_array int_list map TILE_CLASSES].
  destruct_matches; intros H; try discriminate. injection H as <-. split; reflexivity.
Qed.

(** Every statement runs with the mandatory params first, and then gives the
    same rows on the restricted database. *)
Lemma exec_restrict (srv : server) (d : db) (s : stmt) (r : list (string * pyval)) :
  exec (restrict_srv srv) (restrict_db d) s (mandatory_params ++ r)
  = exec srv d s (mandatory_params ++ r).
Proof.
  change (exec (restrict_srv srv)) with (exec srv).
  unfold exec. destruct (st_kind s).
  5: { destruct (dec_dparams _) as [p|] eqn:E; [|reflexivity].
       destruct (dec_dparams_mandatory r p E) as [T C].
       rewrite (q_tiles_dtm_restrict d p T C). reflexivity. }
  all: destruct (dec_qparams srv s _) as [p|] eqn:E; [|reflexivity].
  all: destruct (dec_qparams_mandatory srv s r p E) as [T C].
  all: destruct (dec_levels s _) as [[[l1 l2] l3]|]; [|reflexivity].
  - rewrite (q_cells_restrict p T C). reflexivity.
  - rewrite (q_cells_missing_restrict p T C). reflexivity.
  - rewrite (q_tiles_restrict p T C). reflexivity.
  - rewrite (q_tiles_missing_restrict p T C). reflexivity.
Qed.

Lemma run_generator_restrict (srv : server) (host port database user password : pyval)
    (build : (stmt * list (string * pyval)) + exn) :
  (forall s ps, build = inl (s, ps) -> exists r, ps = mandatory_params ++ r) ->
  run_generator (restrict_srv srv) host port database user password build
  = run_generator srv host port database user password build.
Proof.
  intros H. unfold run_generator. cbn [srv_connect restrict_srv].
  destruct (srv_connect srv _) as [d|]; cbn [option_map]; [|reflexivity].
  destruct build as [[s ps]|e]; [|reflexivity].
  destruct (H s ps eq_refl) as [r ->].
  destruct (mogrify _ _); [reflexivity|]. rewrite exec_restrict. reflexivity.
Qed.

Lemma run_to_file_restrict (srv : server) (host port database user password filename : pyval)
    (build : (stmt * list (string * pyval)) + exn) (render : list row -> string) :
  (forall s ps, build = inl (s, ps) -> exists r, ps = mandatory_params ++ r) ->
  run_to_file (restrict_srv srv) host port database user password filename build render
  = run_to_file srv host port database user password filename build render.
Proof.
  intros H. unfold run_to_file. cbn [srv_connect restrict_srv].
  destruct (srv_connect srv _) as [d|]; cbn [option_map]; [|reflexivity].
  destruct build as [[s ps]|e]; [|reflexivity].
  destruct (H s ps eq_refl) as [r ->].
  destruct (mogrify _ _); [reflexivity|]. rewrite exec_restrict. reflexivity.
Qed.

Lemma build_range_mandatory k lv extra x y sats acq_min acq_max sort s ps :
  build_range k lv extra x y sats acq_min acq_max sort = inl (s, ps) ->
  exists r, ps = mandatory_params ++ r.
Proof.
  unfold build_range. destruct (py_value sort); [|discriminate].
  destruct (py_values sats); [|discriminate].
  intros H. injection H as _ <-. eexists. reflexivity.
Qed.

Lemma build_years_mandatory k tc x y sats years sort s ps :
  build_years k tc x y sats years sort = inl (s, ps) ->
  exists r, ps = mandatory_params ++ r.
Proof.
  unfold build_years. destruct (py_value sort); [|discriminate].
  destruct (py_values sats); [|discriminate].
  intros H. injection H as _ <-. eexists. reflexivity.
Qed.

Lemma dec_vparams_mandatory (sats : list pyval) (x y years : pyval) (p : vparams) :
  dec_vparams (visit_params sats x y years) = Some p ->
  vp_tile_type p = [TILE_TYPE] /\ vp_tile_class p = TILE_CLASSES.
Proof.
  unfold dec_vparams, visit_params. rewrite lookup_tile_type, lookup_tile_class.
  cbn [dec_int_array int_list map TILE_CLASSES].
  destruct_matches; intros H; try discriminate. injection H as <-. split; reflexivity.
Qed.

Lemma dec_wparams_mandatory {G} (g : gis G) (sats : list pyval) (wkt years : pyval)
    (p : wparams G) :
  dec_wparams g (wkt_params sats wkt years) = Some p ->
  wp_tile_type p = [TILE_TYPE] /\ wp_tile_class p = TILE_CLASSES.
Proof.
  unfold dec_wparams, wkt_params. rewrite lookup_tile_type, lookup_tile_class.
  cbn [dec_int_array int_list map TILE_CLASSES].
  destruct_matches; intros H; try discriminate. injection H as <-. split; reflexivity.
Qed.

Lemma q_visit_restrict (d : db) (p : vparams) :
  vp_tile_type p = [TILE_TYPE] -> vp_tile_class p = TILE_CLASSES ->
  q_visit (restrict_db d) p = q_visit d p.
Proof.
  intros T C. unfold q_visit. rewrite present_join_restrict, filter_filter_weaker; [reflexivity|].
  intros [[[[a s] n] q] f] W. rewrite T, C in W.
  repeat rewrite andb_true_iff in W. destruct W as [[[[[T1 T2] _] _] _] _].
  unfold mandatory_row. rewrite T1, T2. reflexivity.
Qed.

Lemma q_wkt_restrict {G} (g : gis G) (d : db) (p : wparams G) :
  wp_tile_type p = [TILE_TYPE] -> wp_tile_class p = TILE_CLASSES ->
  q_wkt g (restrict_db d) p = q_wkt g d p.
Proof.
  intros T C. unfold q_wkt. rewrite present_join_restrict. f_equal.
  apply flat_map_filter_skip. intros [[[[a s] n] q] f] M.
  apply flat_map_nil. intros [[[fx fy] ftt] bbox]. rewrite T, C.
  unfold mandatory_row in M.
  destruct (any_Z (r_tile_type_id n) [TILE_TYPE]);
    destruct (any_Z (r_tile_class_id n) TILE_CLASSES); try discriminate M;
    rewrite andb_false_r; reflexivity.
Qed.

Lemma visit_tiles_restrict (srv : server)
    (x y sats years datasets database user password host port : pyval) :
  visit_tiles (restrict_srv srv) x y sats years datasets database user password host port
  = visit_tiles srv x y sats years datasets database user password host port.
Proof.
  unfold visit_tiles. cbn [srv_connect restrict_srv].
  destruct (srv_connect srv _) as [d|]; cbn [option_map]; [|reflexivity].
  destruct (py_values sats) as [vs|e]; [|reflexivity].
  destruct (dec_vparams _) as [p|] eqn:E; [|reflexivity].
  destruct (dec_vparams_mandatory _ _ _ _ _ E) as [T C].
  rewrite (q_visit_restrict d p T C). reflexivity.
Qed.

Lemma list_tiles_wkt_restrict {G} (g : gis G) (srv : server)
    (wkt sats years datasets database user password host port : pyval) :
  list_tiles_wkt g (restrict_srv srv) wkt sats years datasets database user password host port
  = list_tiles_wkt g srv wkt sats years datasets database user password host port.
Proof.
  unfold list_tiles_wkt. cbn [srv_connect restrict_srv].
  destruct (srv_connect srv _) as [d|]; cbn [option_map]; [|reflexivity].
  destruct (py_values sats) as [vs|e]; [|reflexivity].
  destruct (dec_wparams _ _) as [p|] eqn:E; [|reflexivity].
  destruct (dec_wparams_mandatory _ _ _ _ _ E) as [T C].
  rewrite (q_wkt_restrict g d p T C). reflexivity.
Qed.

Lemma same_tiles_refl (r : option (list tile_row) + exn) : same_tiles r r.
Proof. destruct r as [[t|]|e]; simpl; [apply Permutation_refl | reflexivity | reflexivity]. Qed.

(** C8: the tiles the statements can see are those of tile type 1
    (ONE_DEGREE) and tile class 1 (SINGLE) or 4 (MOSAIC): whatever the
    caller passes, every present, missing and terrain listing, the four
    exports, [visit_tiles] and [list_tiles_wkt] give the same result on a
    database from which every other tile has been removed (for the last
    two, whose order Postgres does not fix, up to the order of the tiles). *)
Theorem mandatory_tile_filters :
  (forall t, mandatory_tile t = true <->
     tile_type_id t = TileType.ONE_DEGREE /\
     (tile_class_id t = TileClass.SINGLE \/ tile_class_id t = TileClass.MOSAIC))
  /\ (forall srv x y sats acq_min acq_max datasets database user password host port sort,
        list_cells_as_generator (restrict_srv srv) x y sats acq_min acq_max datasets database
          user password host port sort
        = list_cells_as_generator srv x y sats acq_min acq_max datasets database user password
            host port sort
        /\ list_cells_missing_as_generator (restrict_srv srv) x y sats acq_min acq_max datasets
             database user password host port sort
           = list_cells_missing_as_generator srv x y sats acq_min acq_max datasets database user
               password host port sort
        /\ list_tiles_as_generator (restrict_srv srv) x y sats acq_min acq_max datasets database
             user password host port sort
           = list_tiles_as_generator srv x y sats acq_min acq_max datasets database user
               password host port sort
        /\ list_tiles_missing_as_generator (restrict_srv srv) x y sats acq_min acq_max datasets
             database user password host port sort
           = list_tiles_missing_as_generator srv x y sats acq_min acq_max datasets database user
               password host port sort)
  /\ (forall srv x y datasets database user password host port sort,
        list_tiles_dtm_as_generator (restrict_srv srv) x y datasets database user password host
          port sort
        = list_tiles_dtm_as_generator srv x y datasets database user password host port sort)
  /\ (forall srv x y sats years datasets filename database user password host port sort,
        list_cells_to_file (restrict_srv srv) x y sats years datasets filename database user
          password host port sort
        = list_cells_to_file srv x y sats years datasets filename database user password host
            port sort
        /\ list_cells_missing_to_file (restrict_srv srv) x y sats years datasets filename
             database user password host port sort
           = list_cells_missing_to_file srv x y sats years datasets filename database user
               password host port sort)
  /\ (forall copy_csv srv x y sats years datasets filename database user password host port sort,
        list_tiles_to_file copy_csv (restrict_srv srv) x y sats years datasets filename database
          user password host port sort
        = list_tiles_to_file copy_csv srv x y sats years datasets filename database user password
            host port sort
        /\ list_tiles_missing_to_file copy_csv (restrict_srv srv) x y sats years datasets
             filename database user password host port sort
           = list_tiles_missing_to_file copy_csv srv x y sats years datasets filename database
               user password host port sort)
  /\ (forall srv x y sats years datasets database user password host port,
        v_raised (visit_tiles (restrict_srv srv) x y sats years datasets database user password
                    host port)
        = v_raised (visit_tiles srv x y sats years datasets database user password host port)
        /\ Permutation
             (visited (visit_tiles (restrict_srv srv) x y sats years datasets database user
                         password host port))
             (visited (visit_tiles srv x y sats years datasets database user password host
                         port)))
  /\ (forall (G : Type) (g : gis G) srv wkt sats years datasets database user password host port,
        same_tiles
          (list_tiles_wkt g (restrict_srv srv) wkt sats years datasets database user password
             host port)
          (list_tiles_wkt g srv wkt sats years datasets database user password host port)).
Proof.
  split; [|split; [|split; [|split; [|split; [|split]]]]].
  - intros t. unfold mandatory_tile, any_Z, TILE_CLASSES, TILE_TYPE. simpl.
    rewrite !orb_false_r, andb_true_iff, orb_true_iff, !Z.eqb_eq. reflexivity.
  - intros. repeat split; apply run_generator_restrict; intros s ps;
      apply build_range_mandatory.
  - intros. apply run_generator_restrict. intros s ps H.
    injection H as _ <-. eexists. reflexivity.
  - intros. split; apply run_to_file_restrict; intros s ps; apply build_years_mandatory.
  - intros. split; apply run_to_file_restrict; intros s ps; apply build_years_mandatory.
  - intros. rewrite visit_tiles_restrict. split; [reflexivity | apply Permutation_refl].
  - intros. rewrite list_tiles_wkt_restrict. apply same_tiles_refl.
Qed.

(** ** The regex matcher on a known prefix *)

Lemma match_alt_app (a : list cclass) (pre g pre' tail : list ascii) :
  match_alt a pre = Some (g, pre') -> match_alt a (pre ++ tail) = Some (g, pre' ++ tail).
Proof.
  revert pre g pre'.
  induction a as [|k ks IH]; intros pre g pre' E.
  - simpl in E. injection E as <- <-. reflexivity.
  - destruct pre as [|c s]; simpl in E |- *; [discriminate|].
    destruct (in_class k c); [|discriminate].
    destruct (match_alt ks s) as [[g1 r1]|] eqn:E1; [|discriminate].
    simpl in E. injection E as <- <-.
    rewrite (IH _ _ _ E1). reflexivity.
Qed.

Lemma match_alt_prefix (a : list cclass) (s g s' : list ascii) :
  match_alt a s = Some (g, s') -> s = g ++ s'.
Proof.
  revert s g s'.
  induction a as [|k ks IH]; intros s g s' E.
  - simpl in E. injection E as <- <-. reflexivity.
  - destruct s as [|c r]; simpl in E; [discriminate|].
    destruct (in_class k c); [|discriminate].
    destruct (match_alt ks r) as [[g1 r1]|] eqn:E1; [|discriminate].
    simpl in E. injection E as <- <-.
    rewrite (IH _ _ _ E1). reflexivity.
Qed.

Lemma alt_fails_app (a : list cclass) (pre tail : list ascii) :
  alt_fails a pre = true -> match_alt a (pre ++ tail) = None.
Proof.
  revert pre.
  induction a as [|k ks IH]; intros pre F; [discriminate|].
  destruct pre as [|c s]; simpl in F |- *; [discriminate|].
  destruct (in_class k c); [|reflexivity].
  rewrite (IH _ F). reflexivity.
Qed.

Lemma first_some_none {A B} (f : A -> option B) (l : list A) :
  (forall a, In a l -> f a = None) -> first_some f l = None.
Proof.
  induction l as [|a r IH]; intros H; simpl; [reflexivity|].
  rewrite (H a (or_introl eq_refl)). apply IH. intros b Hb. apply H. right. exact Hb.
Qed.

Lemma fails_items_app (items : list fitem) (pre tail : list ascii) :
  fails_items items pre = true -> match_items items (pre ++ tail) = None.
Proof.
  revert pre.
  induction items as [|it r IH]; intros pre F; [discriminate|].
  cbn [fails_items] in F. cbn [match_items].
  apply first_some_none. intros a Ha.
  rewrite forallb_forall in F. specialize (F a Ha).
  apply orb_true_iff in F as [F|F].
  - rewrite (alt_fails_app _ _ _ F). reflexivity.
  - destruct (match_alt a pre) as [[g pre']|] eqn:E; [|discriminate].
    rewrite (match_alt_app _ _ _ _ _ E). simpl.
    rewrite (IH _ F). reflexivity.
Qed.

Lemma first_some_good {B} (G : list ascii * list ascii -> option B)
    (alts : list (list cclass)) (pre tail : list ascii) (b : B) :
  good_alts alts pre = true -> G (pre, tail) = Some b ->
  first_some (fun alt => let* m := match_alt alt (pre ++ tail) in G m) alts = Some b.
Proof.
  intros Hg HG.
  induction alts as [|a r IH]; [discriminate|].
  cbn [good_alts] in Hg. cbn [first_some].
  destruct (match_alt a pre) as [[g [|c rest]]|] eqn:E.
  - pose proof (match_alt_prefix _ _ _ _ E) as P. rewrite app_nil_r in P. subst g.
    rewrite (match_alt_app _ _ _ _ tail E). simpl. rewrite HG. reflexivity.
  - apply andb_true_iff in Hg as [F Hr].
    rewrite (alt_fails_app _ _ _ F). exact (IH Hr).
  - apply andb_true_iff in Hg as [F Hr].
    rewrite (alt_fails_app _ _ _ F). exact (IH Hr).
Qed.

Lemma match_items_step (it : fitem) (r : list fitem) (pre tail : list ascii)
    (gs : list (fitem * list ascii)) (rest : list ascii) :
  good_alts (alternatives it) pre = true -> match_items r tail = Some (gs, rest) ->
  match_items (it :: r) (pre ++ tail)
  = Some (match it with FLit _ => gs | _ => (it, pre) :: gs end, rest).
Proof.
  intros Hg Hr. cbn [match_items].
  apply (first_some_good (fun m =>
           let* k := match_items r (snd m) in
           Some (match it with FLit _ => fst k | _ => (it, fst m) :: fst k end, snd k))
         _ pre tail _ Hg).
  simpl. rewrite Hr. reflexivity.
Qed.

Lemma all_range_spec (f : Z -> bool) (count : nat) (lo z : Z) :
  all_range f lo count = true -> lo <= z < lo + Z.of_nat count -> f z = true.
Proof.
  revert lo.
  induction count as [|k IH]; intros lo H Hz; [lia|].
  simpl in H. apply andb_true_iff in H as [H0 H1].
  destruct (Z.eq_dec z lo) as [->|Hne]; [exact H0|].
  apply (IH (lo + 1) H1). lia.
Qed.

Lemma year_ok_range (y : Z) : 1 <= y <= 9999 -> year_ok y = true.
Proof.
  intros Hy. apply (all_range_spec year_ok (Z.to_nat 9999) 1); [vm_compute; reflexivity|].
  rewrite Z2Nat.id by lia. lia.
Qed.

Lemma month_ok_range (m : Z) : 1 <= m <= 12 -> month_ok m = true.
Proof.
  intros Hm. apply (all_range_spec month_ok (Z.to_nat 12) 1); [vm_compute; reflexivity|].
  rewrite Z2Nat.id by lia. lia.
Qed.

Lemma day_ok_range (d : Z) : 1 <= d <= 31 -> day_ok d = true.
Proof.
  intros Hd. apply (all_range_spec day_ok (Z.to_nat 31) 1); [vm_compute; reflexivity|].
  rewrite Z2Nat.id by lia. lia.
Qed.

Lemma days_in_month_le (y m : Z) : days_in_month y m <= 31.
Proof.
  unfold days_in_month.
  destruct (Z.eqb m 2); [destruct (is_leap y)|destruct (existsb _ _)]; lia.
Qed.

Lemma strptime_fields (s f : list ascii) (items : list fitem)
    (gs : list (fitem * list ascii)) (y m d : Z) :
  compile_format f = Some items -> match_items items s = Some (gs, []) ->
  group_of FY gs = Some y -> group_of Fm gs = Some m -> group_of Fd gs = Some d ->
  valid_date (mk_pydate y m d) -> strptime s f = inl (mk_pydate y m d).
Proof.
  intros Hc Hm Gy Gm Gd (Hy & Hmo & Hd). simpl in Hy, Hmo, Hd.
  unfold strptime. rewrite Hc, Hm, Gy, Gm, Gd.
  replace ((1 <=? y) && (y <=? 9999) && (1 <=? m) && (m <=? 12)
           && (1 <=? d) && (d <=? days_in_month y m)) with true; [reflexivity|].
  symmetry. repeat rewrite andb_true_iff. rewrite !Z.leb_le. lia.
Qed.

Lemma strptime_nomatch (s f : list ascii) (items : list fitem) :
  compile_format f = Some items -> match_items items s = None -> strptime s f = inr ValueError.
Proof. intros Hc Hm. unfold strptime. rewrite Hc, Hm. reflexivity. Qed.

(** X2 (cube_util.py, parse_date_from_string): every calendar date, written
    with zero-padded fields as YYYYMMDD, as DD/MM/YYYY or as YYYY-MM-DD, is
    read back as that same date. *)
Theorem parse_date_from_string_round_trip (d : pydate) :
  valid_date d ->
  parse_date_from_string (render_ymd d) = inl (Some d)
  /\ parse_date_from_string (render_dmy_slash d) = inl (Some d)
  /\ parse_date_from_string (render_ymd_dash d) = inl (Some d).
Proof.
  destruct d as [y m dd]. intros V.
  pose proof V as (Hy & Hm & Hd). simpl in Hy, Hm, Hd.
  pose proof (days_in_month_le y m).
  pose proof (year_ok_range y Hy) as YO.
  pose proof (month_ok_range m Hm) as MO.
  assert (DO : day_ok dd = true) by (apply day_ok_range; lia).
  unfold year_ok in YO. unfold month_ok in MO. unfold day_ok in DO.
  repeat rewrite andb_true_iff in YO. repeat rewrite andb_true_iff in MO.
  repeat rewrite andb_true_iff in DO.
  destruct YO as [[[Y1 Y2] Y3] Y4]. destruct MO as [M1 M2]. destruct DO as [[D1 D2] D3].
  apply Z.eqb_eq in Y2, M2, D2.
  assert (Lsl : good_alts (alternatives (FLit "/")) ["/"%char] = true) by reflexivity.
  assert (Lda : good_alts (alternatives (FLit "-")) ["-"%char] = true) by reflexivity.
  assert (Nil : match_items [] [] = Some ([], [])) by reflexivity.
  unfold parse_date_from_string, format_list. cbn [map try_formats].
  repeat split.
  - pose proof (match_items_step Fd [] (digits2 dd) [] _ _ D1 Nil) as S3.
    pose proof (match_items_step Fm _ (digits2 m) _ _ _ M1 S3) as S2.
    pose proof (match_items_step FY _ (digits4 y) _ _ _ Y1 S2) as S1.
    rewrite app_nil_r in S1.
    erewrite (strptime_fields _ _ [FY; Fm; Fd]); [reflexivity | reflexivity | exact S1
      | simpl; rewrite Y2; reflexivity | simpl; rewrite M2; reflexivity
      | simpl; rewrite D2; reflexivity | exact V].
  - rewrite (strptime_nomatch _ _ [FY; Fm; Fd]); [| reflexivity |].
    2:{ unfold render_dmy_slash; simpl date_day; simpl date_month; simpl date_year.
        rewrite app_assoc. exact (fails_items_app _ _ _ D3). }
    pose proof (match_items_step FY [] (digits4 y) [] _ _ Y1 Nil) as S5.
    pose proof (match_items_step (FLit "/") _ ["/"%char] _ _ _ Lsl S5) as S4.
    pose proof (match_items_step Fm _ (digits2 m) _ _ _ M1 S4) as S3.
    pose proof (match_items_step (FLit "/") _ ["/"%char] _ _ _ Lsl S3) as S2.
    pose proof (match_items_step Fd _ (digits2 dd) _ _ _ D1 S2) as S1.
    rewrite app_nil_r in S1.
    erewrite (strptime_fields _ _ [Fd; FLit "/"; Fm; FLit "/"; FY]); [reflexivity | reflexivity
      | exact S1 | simpl; rewrite Y2; reflexivity | simpl; rewrite M2; reflexivity
      | simpl; rewrite D2; reflexivity | exact V].
  - unfold render_ymd_dash; simpl date_day; simpl date_month; simpl date_year.
    rewrite (strptime_nomatch _ _ [FY; Fm; Fd]); [| reflexivity |].
    2:{ rewrite app_assoc. exact (fails_items_app _ _ _ Y3). }
    rewrite (strptime_nomatch _ _ [Fd; FLit "/"; Fm; FLit "/"; FY]); [| reflexivity |].
    2:{ exact (fails_items_app _ _ _ Y4). }
    pose proof (match_items_step Fd [] (digits2 dd) [] _ _ D1 Nil) as S5.
    pose proof (match_items_step (FLit "-") _ ["-"%char] _ _ _ Lda S5) as S4.
    pose proof (match_items_step Fm _ (digits2 m) _ _ _ M1 S4) as S3.
    pose proof (match_items_step (FLit "-") _ ["-"%char] _ _ _ Lda S3) as S2.
    pose proof (match_items_step FY _ (digits4 y) _ _ _ Y1 S2) as S1.
    rewrite app_nil_r in S1.
    erewrite (strptime_fields _ _ [FY; FLit "-"; Fm; FLit "-"; Fd]); [reflexivity | reflexivity
      | exact S1 | simpl; rewrite Y2; reflexivity | simpl; rewrite M2; reflexivity
      | simpl; rewrite D2; reflexivity | exact V].
Qed.

Lemma parse_date_from_string_round_trip_witness :
  valid_date (mk_pydate 2012 2 29)
  /\ parse_date_from_string (render_ymd (mk_pydate 2012 2 29)) = inl (Some (mk_pydate 2012 2 29)).
Proof.
  assert (V : valid_date (mk_pydate 2012 2 29)) by (unfold valid_date; cbn; lia).
  split; [exact V|].
  apply (parse_date_from_string_round_trip (mk_pydate 2012 2 29) V).
Defined.

(** ** Stopwatch *)

Lemma sw_run_inv {R} `{PyNum R} (calls : list (sw_call R)) (w : stopwatch R) :
  sw_inv w -> exists w', sw_run calls w = inl w' /\ sw_inv w'.
Proof.
  revert w.
  induction calls as [|call r IH]; intros w Hw; [exists w; split; [reflexivity | exact Hw]|].
  destruct w as [e u se sc rn].
  destruct call as [t c|t c|t c|]; cbn [sw_run].
  - apply IH. unfold sw_start, sw_inv in *. simpl in *.
    destruct rn; simpl; [exact Hw | split; discriminate].
  - unfold sw_stop. simpl. unfold sw_inv in Hw. simpl in Hw.
    destruct rn.
    + destruct Hw as [Hs Hc].
      destruct se as [s0|]; [|congruence]. destruct sc as [sc0|]; [|congruence].
      apply IH. unfold sw_inv. simpl. split; reflexivity.
    + apply IH. unfold sw_inv. simpl. exact Hw.
  - unfold sw_read. simpl. unfold sw_inv in Hw. simpl in Hw.
    destruct rn.
    + destruct Hw as [Hs Hc].
      destruct se as [s0|]; [|congruence]. destruct sc as [sc0|]; [|congruence].
      apply IH. unfold sw_inv. simpl. split; discriminate.
    + apply IH. unfold sw_inv. simpl. exact Hw.
  - apply IH. unfold sw_reset, sw_init, sw_inv. simpl. split; reflexivity.
Qed.

(** X3 (cube_util.py, Stopwatch): no sequence of [start], [stop], [read]
    and [reset] calls on a new Stopwatch raises; after every such sequence
    the start times are set exactly when the stopwatch is running. *)
Theorem stopwatch_never_raises {R} `{PyNum R} (calls : list (sw_call R)) :
  exists w, sw_run calls sw_init = inl w /\ sw_inv w.
Proof.
  apply sw_run_inv. unfold sw_init, sw_inv. simpl. split; reflexivity.
Qed.

(** X4 (cube_util.py, Stopwatch.read and Stopwatch.stop): on exact numbers,
    [read] returns the totals that [stop] at the same readings would leave,
    and a [read] does not change the totals of a later [stop]. *)
Theorem stopwatch_read_matches_stop (w : stopwatch Z) (t1 c1 t2 c2 : Z) :
  sw_inv w ->
  exists w1 w2 w3,
    sw_read t1 c1 w = inl (w1, sw_totals w2) /\ sw_stop t1 c1 w = inl w2
    /\ sw_stop t2 c2 w1 = inl w3 /\ sw_stop t2 c2 w = inl w3.
Proof.
  destruct w as [e u se sc rn]. unfold sw_inv. simpl.
  destruct rn.
  - intros [Hs Hc].
    destruct se as [s0|]; [|congruence]. destruct sc as [sc0|]; [|congruence].
    exists (mk_stopwatch (e + (t1 - s0)) (u + (c1 - sc0)) (Some t1) (Some c1) true).
    exists (mk_stopwatch (e + (t1 - s0)) (u + (c1 - sc0)) None None false).
    exists (mk_stopwatch (e + (t2 - s0)) (u + (c2 - sc0)) None None false).
    unfold sw_read, sw_stop, sw_totals. simpl.
    repeat split.
    do 2 f_equal; lia.
  - intros _.
    exists (mk_stopwatch e u se sc false), (mk_stopwatch e u se sc false),
      (mk_stopwatch e u se sc false).
    unfold sw_read, sw_stop, sw_totals. simpl. repeat split.
Qed.

Lemma stopwatch_read_matches_stop_witness :
  sw_inv (sw_start 100 7 (@sw_init Z _))
  /\ exists w1 w2 w3,
    sw_read 130 9 (sw_start 100 7 sw_init) = inl (w1, sw_totals w2)
    /\ sw_stop 130 9 (sw_start 100 7 sw_init) = inl w2
    /\ sw_stop 150 12 w1 = inl w3 /\ sw_stop 150 12 (sw_start 100 7 sw_init) = inl w3.
Proof.
  assert (I : sw_inv (sw_start 100 7 (@sw_init Z _)))
    by (unfold sw_inv; simpl; split; discriminate).
  split; [exact I|].
  exact (stopwatch_read_matches_stop _ 130 9 150 12 I).
Defined.

(** ** log_multiline *)

Lemma str_append_nil_r (s : string) : (s ++ EmptyString)%string = s.
Proof. induction s as [|c s IH]; simpl; [reflexivity | rewrite IH; reflexivity]. Qed.

Lemma str_append_assoc (a b c : string) : (a ++ (b ++ c))%string = ((a ++ b) ++ c)%string.
Proof. induction a as [|x a IH]; simpl; [reflexivity | rewrite IH; reflexivity]. Qed.

Lemma splitlines_aux_plain (s cur rest : string) :
  no_break s = true -> splitlines_aux cur (s ++ rest) = splitlines_aux (cur ++ s) rest.
Proof.
  revert cur.
  induction s as [|c s IH]; intros cur N; simpl.
  - rewrite str_append_nil_r. reflexivity.
  - simpl in N. apply andb_true_iff in N as [N Ns]. apply andb_true_iff in N as [NL NC].
    apply negb_true_iff in NL, NC. rewrite NL, NC.
    rewrite IH by exact Ns. rewrite <- str_append_assoc. reflexivity.
Qed.

Lemma splitlines_join (l : string) (r : list string) :
  forallb no_break (l :: r) = true -> last (l :: r) EmptyString <> EmptyString ->
  splitlines (join_lines (l :: r)) = l :: r.
Proof.
  revert l.
  induction r as [|l2 r IH]; intros l N Last.
  - simpl in N, Last. rewrite andb_true_r in N.
    unfold splitlines, join_lines. simpl.
    rewrite <- (str_append_nil_r l) at 1.
    rewrite splitlines_aux_plain by exact N. simpl.
    destruct l; [contradiction | reflexivity].
  - simpl in N. apply andb_true_iff in N as [Nl Nr].
    unfold splitlines, join_lines. cbn [String.concat].
    rewrite splitlines_aux_plain by exact Nl. simpl.
    change (l :: splitlines (join_lines (l2 :: r)) = l :: l2 :: r).
    f_equal. apply IH; [exact Nr | exact Last].
Qed.

(** X6 (cube_util.py, log_multiline): a str made of lines joined by '\n',
    none of them holding a line break and the last one not empty, is logged
    as exactly those lines, each after [prefix], between the two '=' rules
    and after the title lines. *)
Theorem log_multiline_str_lines (pformat : pyval -> string) (lines : list string)
    (title : pyval) (prefix : string) (tl : list string) :
  forallb no_break lines = true -> last lines EmptyString <> EmptyString ->
  title_lines title prefix = inl tl ->
  log_multiline pformat (PStr (join_lines lines)) title prefix
  = ((prefix ++ str_mul "=" 80)%string :: tl
       ++ map (fun l => (prefix ++ l)%string) lines ++ [(prefix ++ str_mul "=" 80)%string], None).
Proof.
  intros N Last T.
  unfold log_multiline, log_list.
  replace (splitlines (join_lines lines)) with lines.
  2:{ destruct lines as [|l r]; [reflexivity|]. symmetry. apply splitlines_join; assumption. }
  rewrite T.
  assert (B : log_lines prefix (map PStr lines) = (map (fun l => (prefix ++ l)%string) lines, None)).
  { clear. induction lines as [|l r IH]; simpl; [reflexivity|]. rewrite IH. reflexivity. }
  rewrite B. reflexivity.
Qed.

Lemma log_multiline_str_lines_witness :
  forallb no_break ["a"; ""; "b"]%string = true
  /\ last ["a"; ""; "b"]%string EmptyString <> EmptyString
  /\ title_lines (PStr "T") ">" = inl [">T"; ">" ++ str_mul "-" 80]%string
  /\ log_multiline (fun _ => EmptyString) (PStr (join_lines ["a"; ""; "b"]%string)) (PStr "T") ">"
     = ((">" ++ str_mul "=" 80)%string :: [">T"; ">" ++ str_mul "-" 80]%string
          ++ map (fun l => (">" ++ l)%string) ["a"; ""; "b"]%string
          ++ [(">" ++ str_mul "=" 80)%string], None).
Proof.
  assert (N : forallb no_break ["a"; ""; "b"]%string = true) by reflexivity.
  assert (L : last ["a"; ""; "b"]%string EmptyString <> EmptyString) by discriminate.
  assert (T : title_lines (PStr "T") ">" = inl [">T"; ">" ++ str_mul "-" 80]%string)
    by reflexivity.
  split; [exact N | split; [exact L | split; [exact T|]]].
  exact (log_multiline_str_lines (fun _ => EmptyString) _ (PStr "T") ">" _ N L T).
Defined.



(** ** The tile exports *)

(** X8 (query.py, list_tiles_missing_to_file): whatever the arguments, the
    missing-tiles export writes nothing: the statement it builds always
    misses the [acq_min] key, so [mogrify] raises KeyError('acq_min'), which
    the handler swallows. Only a failed connection lets an exception (the
    AttributeError of [None.rollback()]) escape. *)
Theorem list_tiles_missing_to_file_writes_nothing (copy_csv : list row -> string) (srv : server)
    (x y satellites years datasets filename database user password host port sort : pyval) :
  (forall s params, build_years STilesMissing TcBetween x y satellites years sort = inl (s, params)
     -> mogrify s params = Some (KeyError "acq_min"))
  /\ ex_text (list_tiles_missing_to_file copy_csv srv x y satellites years datasets filename
                database user password host port sort) = EmptyString
  /\ ex_raised (list_tiles_missing_to_file copy_csv srv x y satellites years datasets filename
                  database user password host port sort)
     = match srv_connect srv (connection_string host port database user password) with
       | Some _ => None
       | None => Some AttributeError
       end.
Proof.
  assert (K : forall s params,
             build_years STilesMissing TcBetween x y satellites years sort = inl (s, params)
             -> mogrify s params = Some (KeyError "acq_min")).
  { intros s params. unfold build_years.
    destruct (py_value sort) as [sv|e]; [|discriminate].
    destruct (py_values satellites) as [sats|e]; [|discriminate].
    intros E. injection E as <- <-. reflexivity. }
  split; [exact K|].
  unfold list_tiles_missing_to_file, run_to_file.
  destruct (srv_connect _ _) as [d|]; [|split; reflexivity].
  destruct (build_years STilesMissing TcBetween x y satellites years sort)
    as [[s params]|e] eqn:B; [|split; reflexivity].
  rewrite (K s params eq_refl). split; reflexivity.
Qed.

Lemma time_ok_year (t : ts) (Y : Z) :
  1 <= ts_month t <= 12 -> 1 <= ts_day t <= 31 ->
  time_ok (TYears [Y]) t = time_ok (TBetween (mk_ts Y 1 1 0) (mk_ts Y 12 31 0)) t.
Proof.
  destruct t as [yr mo dy sc]. simpl. intros Hm Hd.
  unfold time_ok, any_Z, ts_le, ts_cmp, date_of.
  cbn [existsb ts_year ts_month ts_day ts_sec].
  repeat match goal with |- context [Z.compare ?a ?b] => destruct (Z.compare_spec a b) end;
    simpl; destruct (Z.eqb_spec yr Y); simpl; first [reflexivity | lia].
Qed.

Lemma q_cells_same_time (d : db) tt tc tags xs ys (f1 f2 : time_filter) dir (l1 l2 l3 : Z) :
  (forall a, In a (acquisitions d) -> time_ok f1 (end_datetime a) = time_ok f2 (end_datetime a)) ->
  q_cells d (mk_qparams tt tc tags xs ys f1 dir) l1 l2 l3
  = q_cells d (mk_qparams tt tc tags xs ys f2 dir) l1 l2 l3.
Proof.
  intros H. unfold q_cells. cbn [qp_sort]. do 3 f_equal.
  apply filter_ext_in. intros [[[[a s] n] q] f] Hin.
  apply in_present_join in Hin.
  unfold where_common. cbn [qp_tile_type qp_tile_class qp_satellite qp_x qp_y qp_time].
  rewrite (H a (proj1 Hin)). reflexivity.
Qed.

Lemma q_tiles_same_time (d : db) tt tc tags xs ys (f1 f2 : time_filter) dir :
  (forall a, In a (acquisitions d) -> time_ok f1 (end_datetime a) = time_ok f2 (end_datetime a)) ->
  q_tiles d (mk_qparams tt tc tags xs ys f1 dir) = q_tiles d (mk_qparams tt tc tags xs ys f2 dir).
Proof.
  intros H. unfold q_tiles. cbn [qp_sort]. do 2 f_equal.
  apply filter_ext_in. intros [[[[a s] n] q] f] Hin.
  apply in_present_join in Hin.
  unfold where_common. cbn [qp_tile_type qp_tile_class qp_satellite qp_x qp_y qp_time].
  rewrite (H a (proj1 Hin)). reflexivity.
Qed.

Lemma list_tiles_as_list_rows (srv : server) (d : db) (xs ys : list Z) (tags : list string)
    (lo hi : ts) (dir : SortType) (sv : pyval)
    (x y sats acq_min acq_max datasets database user password host port sort : pyval) :
  srv_connect srv (connection_string host port database user password) = Some d ->
  x = PList (map PInt xs) -> y = PList (map PInt ys) ->
  py_values sats = inl (map PStr tags) ->
  dec_ts srv acq_min = Some lo -> dec_ts srv acq_max = Some hi ->
  py_value sort = inl sv -> dec_sort sv = Some dir ->
  list_tiles_as_list srv x y sats acq_min acq_max datasets database user password host port
    sort
  = inl (map RTile (q_tiles d (mk_qparams [TILE_TYPE] TILE_CLASSES tags xs ys
                                 (TBetween lo hi) dir))).
Proof.
  intros Hc -> -> Hs Hlo Hhi Hv Hd.
  unfold list_tiles_as_list, list_tiles_as_generator, run_generator, build_range.
  rewrite Hc, Hv, Hs.
  match goal with |- context [mogrify ?s ?ps] =>
    replace (mogrify s ps) with (@None exn) by reflexivity end.
  match goal with |- context [exec srv d ?s ?ps] =>
    replace (exec srv d s ps)
      with (inl (A := list row) (B := exn)
              (map RTile (q_tiles d (mk_qparams [TILE_TYPE] TILE_CLASSES tags xs ys
                                       (TBetween lo hi) dir))))
  end.
  - unfold py_list. cbn [raised yielded]. rewrite result_generator_rows by lia. reflexivity.
  - unfold exec. cbn.
    rewrite int_list_map, text_list_map, int_list_map, Hlo, Hhi, Hd. reflexivity.
Qed.

Lemma run_to_file_years_text (srv : server) (d : db) (k : stmt_kind) (xs ys : list Z)
    (tags : list string) (Y : Z) (dir : SortType) (sv : pyval) (render : list row -> string)
    (x y sats filename database user password host port sort : pyval) :
  k = SCells \/ k = STiles ->
  srv_connect srv (connection_string host port database user password) = Some d ->
  x = PList (map PInt xs) -> y = PList (map PInt ys) ->
  py_values sats = inl (map PStr tags) ->
  py_value sort = inl sv -> dec_sort sv = Some dir ->
  ex_text (run_to_file srv host port database user password filename
             (build_years k TcYears x y sats (PList [PInt Y]) sort) render)
  = render (match k with
            | SCells =>
                map RCell (q_cells d (mk_qparams [TILE_TYPE] TILE_CLASSES tags xs ys
                                        (TYears [Y]) dir)
                             ProcessingLevel.NBAR ProcessingLevel.PQA ProcessingLevel.FC)
            | _ => map RTile (q_tiles d (mk_qparams [TILE_TYPE] TILE_CLASSES tags xs ys
                                           (TYears [Y]) dir))
            end).
Proof.
  intros Hk Hc -> -> Hs Hv Hd.
  unfold run_to_file, build_years. rewrite Hc, Hv, Hs.
  destruct Hk as [->| ->]; cbn [ex_text];
  (match goal with |- context [mogrify ?s ?ps] =>
     replace (mogrify s ps) with (@None exn) by reflexivity end);
  unfold exec; cbn; rewrite int_list_map, text_list_map, int_list_map, Hd; reflexivity.
Qed.



(** ** result_generator *)

Lemma pages_nil {A} (fuel size : nat) : pages fuel size (@nil A) = [].
Proof. destruct fuel; simpl; [reflexivity|]. rewrite firstn_nil. reflexivity. Qed.

Lemma pages_shape {A} (fuel size : nat) (rows : list A) :
  Forall (fun p => p <> [] /\ (List.length p <= size)%nat) (pages fuel size rows).
Proof.
  revert rows. induction fuel as [|f IH]; intros rows; simpl; [constructor|].
  destruct (firstn size rows) as [|x xs] eqn:E; [constructor|].
  constructor; [|apply IH].
  split; [discriminate|]. rewrite <- E, length_firstn. lia.
Qed.

Lemma pages_full {A} (fuel size : nat) (rows : list A) (p : list A) :
  In p (removelast (pages fuel size rows)) -> List.length p = size.
Proof.
  revert rows. induction fuel as [|f IH]; intros rows; simpl; [contradiction|].
  destruct (firstn size rows) as [|x xs] eqn:E; [contradiction|].
  destruct (pages f size (skipn size rows)) as [|p2 ps2] eqn:P; [contradiction|].
  change (In p ((x :: xs) :: removelast (p2 :: ps2)) -> List.length p = size).
  intros [<-|H].
  - assert (NE : skipn size rows <> []).
    { intros Z. rewrite Z, pages_nil in P. discriminate. }
    rewrite <- E, length_firstn.
    assert (size < List.length rows)%nat.
    { destruct (Nat.lt_ge_cases size (List.length rows)) as [L|L]; [exact L|].
      exfalso. apply NE. apply skipn_all2. exact L. }
    lia.
  - rewrite <- P in H. exact (IH _ H).
Qed.

Lemma fetchmany_reads_pages {A} (fuel size : nat) (rows : list A) :
  (0 < size)%nat -> (List.length rows < fuel)%nat ->
  fetchmany_reads fuel size rows = pages fuel size rows ++ [[]].
Proof.
  revert rows. induction fuel as [|f IH]; intros rows Hs Hl; [lia|].
  destruct rows as [|r rs].
  - simpl. rewrite firstn_nil. reflexivity.
  - cbn [fetchmany_reads pages].
    destruct (firstn size (r :: rs)) as [|x xs] eqn:E; [reflexivity|].
    rewrite IH; [reflexivity|exact Hs|].
    rewrite length_skipn. cbn [List.length] in Hl |- *. lia.
Qed.

(** X10 (query.py, result_generator): the [fetchmany(size)] reads of the
    loop end with the one empty read that stops it; with a positive size,
    the reads before it are non-empty, hold at most [size] rows, all but the
    last of them exactly [size], and the generator yields their rows, that
    is every row of the result set once, in order. With size 0 the first
    read is already empty and nothing is yielded. *)
Theorem result_generator_reads {A} (rows : list A) (size : nat) :
  (forall fuel, fetchmany_reads (S fuel) 0 rows = [[]])
  /\ result_generator rows 0 = []
  /\ ((0 < size)%nat ->
      exists ps,
        fetchmany_reads (S (List.length rows)) size rows = ps ++ [[]]
        /\ result_generator rows size = List.concat ps
        /\ List.concat ps = rows
        /\ Forall (fun p => p <> [] /\ (List.length p <= size)%nat) ps
        /\ (forall p, In p (removelast ps) -> List.length p = size)).
Proof.
  split; [intros fuel; reflexivity|]. split; [reflexivity|].
  intros Hs. exists (pages (S (List.length rows)) size rows).
  split; [apply fetchmany_reads_pages; [exact Hs | lia]|].
  split; [reflexivity|]. split; [apply pages_concat; [exact Hs | lia]|].
  split; [apply pages_shape|]. intros p. apply pages_full.
Qed.

Lemma result_generator_reads_witness :
  fetchmany_reads 6 2 [10; 20; 30; 40; 50] = [[10; 20]; [30; 40]; [50]; []]
  /\ exists ps,
       fetchmany_reads (S (List.length [10; 20; 30; 40; 50])) 2 [10; 20; 30; 40; 50] = ps ++ [[]]
       /\ result_generator [10; 20; 30; 40; 50] 2 = List.concat ps
       /\ List.concat ps = [10; 20; 30; 40; 50]
       /\ Forall (fun p => p <> [] /\ (List.length p <= 2)%nat) ps
       /\ (forall p, In p (removelast ps) -> List.length p = 2%nat).
Proof.
  split; [reflexivity|].
  destruct (result_generator_reads [10; 20; 30; 40; 50] 2) as (_ & _ & H).
  exact (H ltac:(lia)).
Defined.

(** ** create_directory *)

Lemma fs_lookup_in (fs : list (path * node)) (p : path) (n : node) :
  fs_lookup fs p = Some n -> In (p, n) fs.
Proof.
  induction fs as [|[q m] r IH]; simpl; [discriminate|].
  destruct (list_eq_dec string_dec p q) as [->|_].
  - intros E. injection E as <-. left. reflexivity.
  - intros E. right. exact (IH E).
Qed.

Lemma fs_lookup_app_short (new fs : list (path * node)) (p : path) :
  Forall (fun x => (List.length (fst x) < List.length p)%nat) new ->
  fs_lookup (new ++ fs) p = fs_lookup fs p.
Proof.
  induction new as [|[q m] r IH]; intros F; simpl; [reflexivity|].
  inversion F as [|x l Hq Hr]; subst. simpl in Hq.
  destruct (list_eq_dec string_dec p q) as [->|_]; [lia|]. exact (IH Hr).
Qed.

(** A directory created by [create_directory] (mode 0o770, owned by the
    process) lets the process search it and create in it. *)
Lemma new_dir_access (root : bool) :
  may_search root 504 POwner = true /\ may_write root 504 POwner = true.
Proof. destruct root; split; reflexivity. Qed.

(** A privileged process resolves every path a process resolves, and meets
    a missing component where that process does. *)
Lemma stat_rev_root (root : bool) (fs : list (path * node)) (rq : list string) :
  (forall n, stat_rev root fs rq = inl n -> stat_rev true fs rq = inl n)
  /\ (stat_rev root fs rq = inr ENOENT -> stat_rev true fs rq = inr ENOENT).
Proof.
  induction rq as [|c r [IHl IHe]]; [split; [intros n H; exact H | discriminate]|].
  cbn [stat_rev].
  destruct (stat_rev root fs r) as [[m k ro|]|e] eqn:S.
  - rewrite (IHl _ eq_refl). cbn [may_search orb].
    destruct (may_search root m k); [|split; discriminate].
    split; [intros n H; exact H | intros H; exact H].
  - split; discriminate.
  - destruct e; try (split; discriminate).
    rewrite (IHe eq_refl). split; [discriminate | reflexivity].
Qed.

Lemma stat_rev_add (root : bool) (fs : list (path * node)) (p : path) (m n : node)
    (rq : list string) :
  fs_lookup fs p = None -> stat_rev root fs rq = inl n -> stat_rev root ((p, m) :: fs) rq = inl n.
Proof.
  intros Hp. revert n.
  induction rq as [|c r IH]; intros n H; [exact H|].
  cbn [stat_rev] in H |- *.
  destruct (stat_rev root fs r) as [[md k ro|]|e] eqn:E; try discriminate.
  rewrite (IH _ eq_refl). destruct (may_search root md k); [|discriminate].
  cbn [fs_lookup].
  destruct (list_eq_dec string_dec (rev (c :: r)) p) as [Eq|_]; [|exact H].
  rewrite Eq, Hp in H. discriminate.
Qed.

Lemma wf_parent (fs : list (path * node)) (c : string) (rq : list string) (n : node) :
  fs_wfb fs = true -> fs_lookup fs (rev (c :: rq)) = Some n ->
  exists m k ro, stat_rev true fs rq = inl (NDir m k ro).
Proof.
  intros W L. apply fs_lookup_in in L.
  unfold fs_wfb in W. rewrite forallb_forall in W.
  specialize (W _ L). cbv beta iota in W. rewrite rev_involutive in W.
  destruct (stat_rev true fs rq) as [[m k ro|]|e]; try discriminate.
  exists m, k, ro. reflexivity.
Qed.

Lemma wf_add (fs : list (path * node)) (c : string) (rq : list string) (m : Z) (k : pclass)
    (ro : bool) (nd : node) :
  fs_wfb fs = true -> fs_lookup fs (rev (c :: rq)) = None ->
  stat_rev true fs rq = inl (NDir m k ro) ->
  fs_wfb ((rev (c :: rq), nd) :: fs) = true.
Proof.
  intros W L S. unfold fs_wfb in *. cbn [forallb].
  apply andb_true_iff. split.
  - rewrite rev_involutive. rewrite (stat_rev_add _ _ _ _ _ _ L S). reflexivity.
  - rewrite forallb_forall in W |- *. intros [q nq] Hq. specialize (W _ Hq).
    cbv beta iota in W |- *.
    destruct (rev q) as [|x rq']; [discriminate|].
    destruct (stat_rev true fs rq') as [[mq kq roq|]|e] eqn:Sq; try discriminate.
    rewrite (stat_rev_add _ _ _ _ _ _ L Sq). reflexivity.
Qed.

(** The last component of a path resolves in a directory that has the
    parent's entry. *)
Lemma stat_rev_new (root : bool) (fs : list (path * node)) (c : string) (rhead : list string)
    (m : Z) (k : pclass) (ro : bool) (nd : node) :
  fs_lookup fs (rev (c :: rhead)) = None -> stat_rev root fs rhead = inl (NDir m k ro) ->
  may_search root m k = true ->
  stat_rev root ((rev (c :: rhead), nd) :: fs) (c :: rhead) = inl nd.
Proof.
  intros L S K. cbn [stat_rev]. rewrite (stat_rev_add _ _ _ _ _ _ L S), K. cbn [fs_lookup].
  match goal with |- context [list_eq_dec string_dec ?a ?b] =>
    destruct (list_eq_dec string_dec a b) as [_|N];
    [reflexivity | exfalso; apply N; reflexivity] end.
Qed.

Lemma makedirs_rev_spec (root : bool) (rp : list string) (fs fs' : list (path * node))
    (e : option errno) :
  fs_wfb fs = true -> makedirs_rev root rp 511 7 fs = (fs', e) ->
  match stat_rev root fs rp with
  | inl _ => fs' = fs /\ e = Some EEXIST
  | inr ENOENT =>
      if create_ok_rev root fs rp then
        e = None /\ stat_rev root fs' rp = inl new_dir /\ fs_wfb fs' = true
        /\ exists new, fs' = new ++ fs
           /\ Forall (fun x => snd x = new_dir /\ (List.length (fst x) <= List.length rp)%nat) new
      else fs' = fs /\ exists err, e = Some err /\ err <> EEXIST
  | inr _ => fs' = fs /\ exists err, e = Some err /\ err <> EEXIST
  end.
Proof.
  revert fs fs' e.
  induction rp as [|c rhead IH]; intros fs fs' e W M.
  - simpl in M. injection M as <- <-. simpl. split; reflexivity.
  - cbn [makedirs_rev] in M. unfold path_exists, stat in M. rewrite rev_involutive in M.
    assert (Mk : forall fs1, mkdir root (rev (c :: rhead)) 511 7 fs1
                 = match stat_rev root fs1 rhead with
                   | inl (NDir m k ro) =>
                       if negb (may_search root m k) then (fs1, Some EACCES)
                       else
                         match fs_lookup fs1 (rev (c :: rhead)) with
                         | Some _ => (fs1, Some EEXIST)
                         | None =>
                             if ro then (fs1, Some EROFS)
                             else if negb (may_write root m k) then (fs1, Some EACCES)
                             else ((rev (c :: rhead), new_dir) :: fs1, None)
                         end
                   | inl NFile => (fs1, Some ENOTDIR)
                   | inr e => (fs1, Some e)
                   end).
    { intros fs1. unfold mkdir. rewrite rev_involutive. reflexivity. }
    cbn [stat_rev create_ok_rev].
    destruct (stat_rev root fs rhead) as [[m k ro|]|err] eqn:Sh.
    + rewrite Mk, Sh in M.
      destruct (may_search root m k) eqn:K; cbn [negb] in M.
      2:{ injection M as <- <-. split; [reflexivity|]. exists EACCES. split; [reflexivity | discriminate]. }
      destruct (fs_lookup fs (rev (c :: rhead))) as [n|] eqn:L.
      * injection M as <- <-. split; reflexivity.
      * destruct ro; cbn [negb andb] in M |- *.
        { injection M as <- <-. split; [reflexivity|]. exists EROFS. split; [reflexivity | discriminate]. }
        destruct (may_write root m k); cbn [negb] in M.
        2:{ injection M as <- <-. split; [reflexivity|]. exists EACCES. split; [reflexivity | discriminate]. }
        injection M as <- <-. split; [reflexivity|]. split.
        { exact (stat_rev_new _ _ _ _ _ _ _ _ L Sh K). }
        split; [exact (wf_add _ _ _ _ _ _ _ W L (proj1 (stat_rev_root _ _ _) _ Sh))|].
        exists [(rev (c :: rhead), new_dir)]. split; [reflexivity|].
        constructor; [|constructor]. simpl. rewrite length_app, length_rev. simpl.
        split; [reflexivity | lia].
    + rewrite Mk, Sh in M. injection M as <- <-. split; [reflexivity|].
      exists ENOTDIR. split; [reflexivity | discriminate].
    + destruct (makedirs_rev root rhead 511 7 fs) as [fs1 e1] eqn:Mr.
      pose proof (IH _ _ _ W Mr) as Hr. rewrite Sh in Hr.
      assert (Prop_fail : forall err', fs1 = fs -> e1 = Some err' -> err' <> EEXIST ->
                fs' = fs /\ exists err, e = Some err /\ err <> EEXIST).
      { intros err' -> -> N. destruct err'; try (exfalso; apply N; reflexivity);
        (injection M as <- <-; split; [reflexivity | eexists; split; [reflexivity|discriminate]]). }
      destruct err.
      * destruct Hr as (-> & err' & -> & N). exact (Prop_fail err' eq_refl eq_refl N).
      * destruct (create_ok_rev root fs rhead) eqn:Ok.
        2:{ destruct Hr as (-> & err' & -> & N). exact (Prop_fail err' eq_refl eq_refl N). }
        destruct Hr as (-> & S1 & W1 & new & -> & Fn).
        rewrite Mk, S1 in M. unfold new_dir in M.
        destruct (new_dir_access root) as [A1 A2]. rewrite A1, A2 in M. cbn [negb] in M.
        assert (Lfs : fs_lookup fs (rev (c :: rhead)) = None).
        { destruct (fs_lookup fs (rev (c :: rhead))) as [n|] eqn:L; [|reflexivity].
          destruct (wf_parent _ _ _ _ W L) as (m & k & ro & Hm).
          rewrite (proj2 (stat_rev_root _ _ _) Sh) in Hm. discriminate. }
        assert (L1 : fs_lookup (new ++ fs) (rev (c :: rhead)) = None).
        { rewrite fs_lookup_app_short; [exact Lfs|].
          eapply Forall_impl; [|exact Fn]. intros x [_ Hx].
          rewrite length_rev. simpl. lia. }
        rewrite L1 in M. injection M as <- <-.
        split; [reflexivity|]. split.
        { exact (stat_rev_new _ _ _ _ _ _ _ _ L1 S1 A1). }
        split; [exact (wf_add _ _ _ _ _ _ _ W1 L1 (proj1 (stat_rev_root _ _ _) _ S1))|].
        exists ((rev (c :: rhead), new_dir) :: new). split; [reflexivity|].
        constructor.
        { simpl. rewrite length_app, length_rev. simpl. split; [reflexivity | lia]. }
        eapply Forall_impl; [|exact Fn]. intros x [Hx1 Hx2]. split; [exact Hx1|]. simpl. lia.
      * destruct Hr as (-> & err' & -> & N). exact (Prop_fail err' eq_refl eq_refl N).
      * destruct Hr as (-> & err' & -> & N). exact (Prop_fail err' eq_refl eq_refl N).
      * destruct Hr as (-> & err' & -> & N). exact (Prop_fail err' eq_refl eq_refl N).
Qed.



(** ** The tile listing order *)

Lemma ts_cmp_antisym (a b : ts) : ts_cmp b a = CompOpp (ts_cmp a b).
Proof.
  unfold ts_cmp.
  rewrite (Z.compare_antisym (ts_year a) (ts_year b)),
    (Z.compare_antisym (ts_month a) (ts_month b)),
    (Z.compare_antisym (ts_day a) (ts_day b)), (Z.compare_antisym (ts_sec a) (ts_sec b)).
  destruct (ts_year a ?= ts_year b); simpl; [|reflexivity|reflexivity].
  destruct (ts_month a ?= ts_month b); simpl; [|reflexivity|reflexivity].
  destruct (ts_day a ?= ts_day b); reflexivity.
Qed.

Lemma opt_ts_cmp_antisym (a b : option ts) : opt_ts_cmp b a = CompOpp (opt_ts_cmp a b).
Proof.
  destruct a, b; simpl; try reflexivity. apply ts_cmp_antisym.
Qed.

Lemma opt_str_le_total (a b : option string) : opt_str_le a b = true \/ opt_str_le b a = true.
Proof.
  destruct a as [x|], b as [y|]; simpl; auto. apply String.leb_total.
Qed.

Lemma tile_le_total (dir : SortType) (a b : tile_row) :
  tile_le dir a b = true \/ tile_le dir b a = true.
Proof.
  unfold tile_le. rewrite (opt_ts_cmp_antisym (tr_end_datetime a)).
  destruct (opt_ts_cmp (tr_end_datetime a) (tr_end_datetime b));
    destruct dir; simpl; auto using opt_str_le_total.
Qed.

(** X12 (query.py, list_tiles_as_generator and list_tiles_as_list): the
    tile listing holds each matching NBAR/PQ/FC combination once, as a row
    with its three tile paths, and is ordered by end time in the requested
    direction, ties broken by satellite tag ascending. *)
Theorem list_tiles_sorted_by_end_time (srv : server) (d : db) (xs ys : list Z)
    (tags : list string) (lo hi : ts) (dir : SortType) (sv : pyval)
    (x y sats acq_min acq_max datasets database user password host port sort : pyval) :
  srv_connect srv (connection_string host port database user password) = Some d ->
  x = PList (map PInt xs) -> y = PList (map PInt ys) ->
  py_values sats = inl (map PStr tags) ->
  dec_ts srv acq_min = Some lo -> dec_ts srv acq_max = Some hi ->
  py_value sort = inl sv -> dec_sort sv = Some dir ->
  exists rows,
    list_tiles_as_list srv x y sats acq_min acq_max datasets database user password host port
      sort = inl (map RTile rows)
    /\ Sorted (fun a b => tile_le dir a b = true) rows
    /\ Permutation rows
         (map (fun '(a, s, n, q, f) =>
                 acq_row a s n [("ARG25", r_tile_pathname n); ("PQ25", r_tile_pathname q);
                                ("FC25", r_tile_pathname f)]%string)
            (filter (fun '(a, s, n, q, f) =>
                       where_common (mk_qparams [TILE_TYPE] TILE_CLASSES tags xs ys
                                       (TBetween lo hi) dir) a s n)
               (present_join d ProcessingLevel.NBAR ProcessingLevel.PQA ProcessingLevel.FC))).
Proof.
  intros Hc Hx Hy Hs Hlo Hhi Hv Hd.
  eexists. split.
  - exact (list_tiles_as_list_rows srv d xs ys tags lo hi dir sv x y sats acq_min acq_max
             datasets database user password host port sort Hc Hx Hy Hs Hlo Hhi Hv Hd).
  - unfold q_tiles. cbn [qp_sort]. split.
    + apply isort_sorted. apply tile_le_total.
    + apply isort_perm.
Qed.

Lemma list_tiles_sorted_by_end_time_witness :
  exists rows,
    list_tiles_as_list (server_of db_full) (PList [PInt 150]) (PList [PInt (-34)]) (PList [LS5])
      (PDate (mk_ts 2014 1 1 0)) (PDate (mk_ts 2014 12 31 0)) (PList [ARG25])
      (PStr "datacube") (PStr "u") (PStr "p") PNone PNone py_DESC = inl (map RTile rows)
    /\ Sorted (fun a b => tile_le DESC a b = true) rows.
Proof.
  destruct (list_tiles_sorted_by_end_time (server_of db_full) db_full [150] [-34] ["LS5"%string]
              (mk_ts 2014 1 1 0) (mk_ts 2014 12 31 0) DESC (PStr "desc")
              (PList [PInt 150]) (PList [PInt (-34)]) (PList [LS5])
              (PDate (mk_ts 2014 1 1 0)) (PDate (mk_ts 2014 12 31 0)) (PList [ARG25])
              (PStr "datacube") (PStr "u") (PStr "p") PNone PNone py_DESC)
    as [rows [H1 [H2 _]]]; try reflexivity.
  exists rows. split; assumption.
Defined.
